(** * open-telemorph-prime: the PromQL evaluator, the parser and the two
      ingress adapters, embedded from the Go sources.

    Sources: the evaluator (package promql: Evaluate, getMetricSeries,
    createSeriesKey, applyFunction, applyRate, applyIncrease, applySum,
    applyAvg, applyCount, applyMin, applyMax, applyAggregation), the parser
    (backend/internal/query/promql/parser.go), the storage engine
    (backend/internal/storage/sqlite.go: InsertMetric, InsertTrace), the
    JSON/HTTP adapter (backend/internal/ingestion/service.go: HandleTraces,
    extractServiceNameFromResource, convertAttributesToJSON) and the RPC
    adapter (package grpc: processSpan, extractServiceName, convertStatusCode,
    convertAttributes, convertAttributeValue).  Further on: the metrics side
    of the two adapters (HandleMetrics of package ingestion;
    backend/internal/grpc/metrics.go), createDataDir and GetMetrics of the
    storage engine, and setDefaults and DefaultConfig of package config.

    Conventions of the embedding.
    - Go [int64]/[time.Duration] values are integers of [Z]; where the source
      lets them wrap around, the wrap is written with [wrap64].
    - A [time.Time] is the instant it denotes, counted in nanoseconds from the
      Unix epoch.  [After], [Before], [Equal], [Add] and [Sub] of package time
      only look at that instant; instants are taken within the years that
      Go's 64-bit second counter holds.
    - [float64] is the primitive binary64 type of Rocq, so that the arithmetic
      of the evaluator is the IEEE arithmetic of the Go program.
    - [map[string]string] is [gmap string string]; a Go string is a string of
      bytes.
    - A Go [(value, error)] pair is a [result]; a run-time panic is the error
      [Panic].
    - A Go [(value, error)] pair that holds a panic is not an error value:
      [wrapErr] and [logged] leave it as it is.
    - The table [metrics] is the list of its rows in the order of insertion.
      A REAL column keeps a float as [sqliteReal] gives it and refuses a NaN
      where it is NOT NULL; [ORDER BY timestamp] is [orderByTimestamp], which
      keeps rows of one timestamp in the order of insertion.
    - Calls that leave the repository are parameters of a Section:
      SQLite's JSON_EXTRACT (which may raise an error), the outcome
      [otherStatement] of the SELECT of [getMetricSeries] when a label key
      pasted into its text makes it another statement than the one meant,
      [time.ParseDuration], [json.Marshal], [json.Unmarshal], [os.MkdirAll]
      and the part of [time.Parse] that follows the year. *)

From Stdlib Require Import ZArith Lia Ascii.
From Stdlib Require Floats.PrimFloat Numbers.Cyclic.Int63.Uint63.
From Stdlib Require Floats.SpecFloat Floats.FloatOps Floats.FloatAxioms.
From Stdlib Require Floats.FloatLemmas.
From stdpp Require Import base option list gmap strings sorting.
Import (notations) PrimFloat.

Abbreviation float := PrimFloat.float.

#[local] Set Warnings "-register-all".

Local Open Scope Z_scope.

(* ===================================================================== *)
(** * Machine integers and errors *)
(* ===================================================================== *)

Definition minInt64 : Z := - 2 ^ 63.
Definition maxInt64 : Z := 2 ^ 63 - 1.

(** Two's complement wrap-around of a 64-bit signed integer. *)
Definition wrap64 (z : Z) : Z := (z + 2 ^ 63) `mod` 2 ^ 64 - 2 ^ 63.

(** [float64(n)] for an int64 [n] with [|n| < 2^63]. *)
Definition float64_of_int (z : Z) : float :=
  if z <? 0 then PrimFloat.opp (PrimFloat.of_uint63 (Uint63.of_Z (- z)))
  else PrimFloat.of_uint63 (Uint63.of_Z z).

(** Go error values, by the way they are built. *)
Inductive error : Type :=
  | Errorf (msg : string)                      (* fmt.Errorf / errors.New, no %w *)
  | Wrapf (msg : string) (cause : error)       (* fmt.Errorf("msg: %w", cause) *)
  | NumError (fn input : string)               (* *strconv.NumError *)
  | LibError (msg : string)                    (* an error of a library call *)
  | Panic (msg : string).                      (* a run-time panic *)

Inductive result (A : Type) : Type :=
  | Ok (a : A)
  | Err (e : error).
Arguments Ok {A} a.
Arguments Err {A} e.

#[global] Instance result_ret : MRet result := fun A a => Ok a.
#[global] Instance result_bind : MBind result := fun A B k r =>
  match r with
  | Ok a => k a
  | Err e => Err e
  end.

(** [wrapErr msg r] is the Go idiom
    [if err != nil { return nil, fmt.Errorf("msg: %w", err) }].  A panic is
    no error value: it is not wrapped and goes on unwinding. *)
Definition wrapErr {A} (msg : string) (r : result A) : result A :=
  match r with
  | Ok a => Ok a
  | Err (Panic p) => Err (Panic p)
  | Err e => Err (Wrapf msg e)
  end.

(* ===================================================================== *)
(** * Package time *)
(* ===================================================================== *)

Module time.

Definition Nanosecond : Z := 1.
Definition Second : Z := 1000000000.
Definition Minute : Z := 60 * Second.
Definition Hour : Z := 60 * Minute.

(** [time.Unix(sec, nsec)]. *)
Definition Unix (sec nsec : Z) : Z := sec * Second + nsec.

(** The zero [Time{}]: January 1, year 1, 00:00:00 UTC. *)
Definition zero : Z := Unix (-62135596800) 0.

(** [t.Unix()]: whole seconds since the epoch. *)
Definition toUnix (t : Z) : Z := t `div` Second.

(** [t.UnixNano()]: the int64 nanosecond count. *)
Definition toUnixNano (t : Z) : Z := wrap64 t.

Definition Add (t d : Z) : Z := t + d.

(** [t.Sub(u)] saturates at the ends of [Duration]. *)
Definition Sub (t u : Z) : Z :=
  if t - u <? minInt64 then minInt64
  else if maxInt64 <? t - u then maxInt64
  else t - u.

Definition After (t u : Z) : bool := u <? t.
Definition Before (t u : Z) : bool := t <? u.
Definition Equal (t u : Z) : bool := t =? u.

(** [d.Seconds()]. *)
Definition Seconds (d : Z) : float :=
  let sec := Z.quot d Second in
  let nsec := Z.rem d Second in
  PrimFloat.add (float64_of_int sec)
                (PrimFloat.div (float64_of_int nsec) 1e9%float).

Definition Nanoseconds (d : Z) : Z := d.

End time.

(* ===================================================================== *)
(** * Package promql: the data of the evaluator *)
(* ===================================================================== *)

Module MetricPoint.
Record t : Type := mk {
  Timestamp : Z;
  Value : float;
  Labels : gmap string string
}.
End MetricPoint.

Module MetricSeries.
Record t : Type := mk {
  MetricName : string;
  Labels : gmap string string;
  Points : list MetricPoint.t
}.
End MetricSeries.

Module QueryResult.
Record t : Type := mk {
  Series : list MetricSeries.t;
  Type_ : string
}.
End QueryResult.

(* ===================================================================== *)
(** * applySum *)
(* ===================================================================== *)

(** The two nested loops that fill [timestampMap].  The keys are [Time]
    values built by [time.Unix] in [getMetricSeries], on which [==] is the
    equality of instants. *)
Definition timestampMap (series : list MetricSeries.t) : gset Z :=
  fold_left
    (fun m s =>
       fold_left (fun m point => {[ MetricPoint.Timestamp point ]} ∪ m)
                 (MetricSeries.Points s) m)
    series ∅.

(** The keys of the map, then [sort.Slice] with [Before] as the order.  The
    keys are distinct, so the sorted slice does not depend on the order in
    which the map is ranged over. *)
Definition sortedTimestamps (series : list MetricSeries.t) : list Z :=
  merge_sort Z.le (elements (timestampMap series)).

(** The inner loop over the points of one series: the first point at [ts],
    then [break]. *)
Definition pointAt (ts : Z) (s : MetricSeries.t) : option MetricPoint.t :=
  find (fun point => time.Equal (MetricPoint.Timestamp point) ts)
       (MetricSeries.Points s).

Definition sumAt (series : list MetricSeries.t) (ts : Z) : float :=
  fold_left
    (fun sum s =>
       match pointAt ts s with
       | Some point => PrimFloat.add sum (MetricPoint.Value point)
       | None => sum
       end)
    series 0%float.

Definition applySum (series : list MetricSeries.t) : result (list MetricSeries.t) :=
  match series with
  | [] => Ok series
  | s0 :: _ =>
      let points :=
        map (fun ts => MetricPoint.mk ts (sumAt series ts) ∅)
            (sortedTimestamps series) in
      Ok [MetricSeries.mk (MetricSeries.MetricName s0) ∅ points]
  end.

(* ===================================================================== *)
(** * applyRate and applyIncrease *)
(* ===================================================================== *)

(** The backward scans of [applyRate] and [applyIncrease]:
    [for k := from; k >= 0; k-- { if cond(s.Points[k]) { found = &s.Points[k]; break } }].
    The counter [n] is [from + 1], so that the loop over no index at all
    ([from = -1]) is [n = 0]. *)
Fixpoint scanBack (cond : MetricPoint.t -> bool) (points : list MetricPoint.t)
    (n : nat) : option MetricPoint.t :=
  match n with
  | O => None
  | S k =>
      match points !! k with
      | Some pk => if cond pk then Some pk else scanBack cond points k
      | None => None
      end
  end.

(** One iteration of [for j, point := range s.Points] in [applyRate]: the point
    appended to the result, if any. *)
Definition ratePoint (points : list MetricPoint.t) (rangeDuration : Z)
    (j : nat) (point : MetricPoint.t) : option MetricPoint.t :=
  match j with
  | O => None
  | S j' =>
      let rangeStart :=
        time.Add (MetricPoint.Timestamp point) (wrap64 (- rangeDuration)) in
      match scanBack (fun pk => time.After (MetricPoint.Timestamp pk) rangeStart)
                     points (S j') with
      | Some prevPoint =>
          let timeDiff :=
            time.Seconds (time.Sub (MetricPoint.Timestamp point)
                                   (MetricPoint.Timestamp prevPoint)) in
          let valueDiff :=
            PrimFloat.sub (MetricPoint.Value point) (MetricPoint.Value prevPoint) in
          let rate := PrimFloat.div valueDiff timeDiff in
          Some (MetricPoint.mk (MetricPoint.Timestamp point) rate
                               (MetricPoint.Labels point))
      | None => None
      end
  end.

(** One iteration of the loop over the points in [applyIncrease]. *)
Definition increasePoint (points : list MetricPoint.t) (rangeDuration : Z)
    (j : nat) (point : MetricPoint.t) : option MetricPoint.t :=
  let rangeStart :=
    time.Add (MetricPoint.Timestamp point) (wrap64 (- rangeDuration)) in
  match scanBack (fun pk => time.Before (MetricPoint.Timestamp pk) rangeStart
                            || time.Equal (MetricPoint.Timestamp pk) rangeStart)
                 points (S j) with
  | Some startPoint =>
      let increase :=
        PrimFloat.sub (MetricPoint.Value point) (MetricPoint.Value startPoint) in
      Some (MetricPoint.mk (MetricPoint.Timestamp point) increase
                           (MetricPoint.Labels point))
  | None => None
  end.

(** The loop over the points of one series, appending to [result[i].Points]. *)
Definition pointsLoop (body : nat -> MetricPoint.t -> option MetricPoint.t)
    (points : list MetricPoint.t) : list MetricPoint.t :=
  fold_left
    (fun out jp =>
       match body jp.1 jp.2 with
       | Some p => out ++ [p]
       | None => out
       end)
    (imap pair points) [].

Definition applyRate (series : list MetricSeries.t) (rangeDuration : Z)
    : result (list MetricSeries.t) :=
  Ok (map (fun s =>
             MetricSeries.mk (MetricSeries.MetricName s) (MetricSeries.Labels s)
               (pointsLoop (ratePoint (MetricSeries.Points s) rangeDuration)
                           (MetricSeries.Points s)))
          series).

Definition applyIncrease (series : list MetricSeries.t) (rangeDuration : Z)
    : result (list MetricSeries.t) :=
  Ok (map (fun s =>
             MetricSeries.mk (MetricSeries.MetricName s) (MetricSeries.Labels s)
               (pointsLoop (increasePoint (MetricSeries.Points s) rangeDuration)
                           (MetricSeries.Points s)))
          series).

(* ===================================================================== *)
(** * applyAvg, applyCount, applyMin, applyMax *)
(* ===================================================================== *)

Definition avgAt (series : list MetricSeries.t) (ts : Z) : float :=
  let '(sum, count) :=
    fold_left
      (fun acc s =>
         match pointAt ts s with
         | Some point => (PrimFloat.add acc.1 (MetricPoint.Value point), acc.2 + 1)
         | None => acc
         end)
      series (0%float, 0) in
  if 0 <? count then PrimFloat.div sum (float64_of_int count) else 0%float.

Definition applyAvg (series : list MetricSeries.t) : result (list MetricSeries.t) :=
  match series with
  | [] => Ok series
  | s0 :: _ =>
      let points :=
        map (fun ts => MetricPoint.mk ts (avgAt series ts) ∅)
            (sortedTimestamps series) in
      Ok [MetricSeries.mk (MetricSeries.MetricName s0) ∅ points]
  end.

(** [time.Now()] is the argument [now]. *)
Definition applyCount (now : Z) (series : list MetricSeries.t)
    : result (list MetricSeries.t) :=
  let count := float64_of_int (Z.of_nat (length series)) in
  Ok [MetricSeries.mk "count" ∅ [MetricPoint.mk now count ∅]].

(** The reduction of [applyMin]/[applyMax] over every point of every series. *)
Definition reducePoints (better : float -> float -> bool) (init : float)
    (series : list MetricSeries.t) : float :=
  fold_left
    (fun m s =>
       fold_left (fun m point =>
                    if better (MetricPoint.Value point) m
                    then MetricPoint.Value point else m)
                 (MetricSeries.Points s) m)
    series init.

Definition applyMin (now : Z) (series : list MetricSeries.t)
    : result (list MetricSeries.t) :=
  match series with
  | [] => Ok series
  | s0 :: _ =>
      let min := reducePoints PrimFloat.ltb PrimFloat.infinity series in
      Ok [MetricSeries.mk (MetricSeries.MetricName s0) ∅ [MetricPoint.mk now min ∅]]
  end.

Definition applyMax (now : Z) (series : list MetricSeries.t)
    : result (list MetricSeries.t) :=
  match series with
  | [] => Ok series
  | s0 :: _ =>
      let max :=
        reducePoints (fun v m => PrimFloat.ltb m v) PrimFloat.neg_infinity series in
      Ok [MetricSeries.mk (MetricSeries.MetricName s0) ∅ [MetricPoint.mk now max ∅]]
  end.

(* ===================================================================== *)
(** * Parsed queries, applyFunction and applyAggregation *)
(* ===================================================================== *)

Module Aggregation.
Record t : Type := mk {
  Operation : string;
  By : list string;
  Without : list string
}.
End Aggregation.

Module Query.
Record t : Type := mk {
  MetricName : string;
  Labels : gmap string string;
  Function : string;
  Range : Z;
  Offset : Z;
  Aggregation : option Aggregation.t
}.
End Query.

Definition applyFunction (now : Z) (series : list MetricSeries.t)
    (function : string) (rangeDuration : Z) : result (list MetricSeries.t) :=
  if decide (function = "rate") then applyRate series rangeDuration
  else if decide (function = "increase") then applyIncrease series rangeDuration
  else if decide (function = "sum") then applySum series
  else if decide (function = "avg") then applyAvg series
  else if decide (function = "count") then applyCount now series
  else if decide (function = "min") then applyMin now series
  else if decide (function = "max") then applyMax now series
  else Err (Errorf ("unsupported function: " +:+ function)).

Definition applyAggregation (now : Z) (series : list MetricSeries.t)
    (agg : Aggregation.t) : result (list MetricSeries.t) :=
  let op := Aggregation.Operation agg in
  if decide (op = "sum") then applySum series
  else if decide (op = "avg") then applyAvg series
  else if decide (op = "count") then applyCount now series
  else if decide (op = "min") then applyMin now series
  else if decide (op = "max") then applyMax now series
  else Err (Errorf ("unsupported aggregation: " +:+ op)).

(* ===================================================================== *)
(** * Package storage: the metrics and traces tables *)
(* ===================================================================== *)

(** [storage.Metric]; [Labels] is a JSON text. *)
Module Metric.
Record t : Type := mk {
  Timestamp : Z;
  MetricName : string;
  Value : float;
  Labels : string;
  ServiceName : string
}.
End Metric.

(** [storage.Trace]. *)
Module Trace.
Record t : Type := mk {
  TraceID : string;
  SpanID : string;
  ParentSpanID : option string;
  ServiceName : string;
  OperationName : string;
  StartTime : Z;
  DurationNanos : Z;
  Attributes : string;
  StatusCode : string
}.
End Trace.

(** A row of table [metrics]; [id] and [created_at] are assigned by SQLite
    and read by neither the evaluator nor the adapters. *)
Module MetricRow.
Record t : Type := mk {
  timestamp : Z;
  metric_name : string;
  value : float;
  labels : string;
  service_name : string
}.
End MetricRow.

Module TraceRow.
Record t : Type := mk {
  trace_id : string;
  span_id : string;
  parent_span_id : option string;
  service_name : string;
  operation_name : string;
  start_time : Z;
  duration_nanos : Z;
  attributes : string;
  status_code : string
}.
End TraceRow.

(** The database handle: the two tables in insertion order, and whether the
    handle has been closed (every statement on a closed handle fails). *)
Module DB.
Record t : Type := mk {
  metrics : list MetricRow.t;
  traces : list TraceRow.t;
  closed : bool
}.
Definition empty : t := mk [] [] false.
End DB.

Definition errClosed : error := LibError "sql: database is closed".

(** A NaN is bound as NULL, which the column [value REAL NOT NULL] refuses. *)
Definition errNotNull : error :=
  LibError "constraint failed: NOT NULL constraint failed: metrics.value".

(** The REAL that SQLite keeps for a bound [float64]: a whole number is
    stored as an integer and read back as a float, which turns -0.0 into 0;
    every other value, the infinities included, comes back as it went in. *)
Definition sqliteReal (v : float) : float :=
  if PrimFloat.eqb v 0%float then 0%float else v.

(** [SQLiteStorage.InsertMetric]. *)
Definition InsertMetric (db : DB.t) (metric : Metric.t) : result DB.t :=
  if DB.closed db then Err errClosed
  else if PrimFloat.is_nan (Metric.Value metric) then Err errNotNull
  else
    Ok (DB.mk
          (DB.metrics db ++
             [MetricRow.mk (time.toUnixNano (Metric.Timestamp metric))
                           (Metric.MetricName metric)
                           (sqliteReal (Metric.Value metric))
                           (Metric.Labels metric)
                           (Metric.ServiceName metric)])
          (DB.traces db) (DB.closed db)).

(** [SQLiteStorage.InsertTrace]. *)
Definition InsertTrace (db : DB.t) (trace : Trace.t) : result DB.t :=
  if DB.closed db then Err errClosed
  else
    Ok (DB.mk (DB.metrics db)
          (DB.traces db ++
             [TraceRow.mk (Trace.TraceID trace) (Trace.SpanID trace)
                          (Trace.ParentSpanID trace) (Trace.ServiceName trace)
                          (Trace.OperationName trace)
                          (time.toUnixNano (Trace.StartTime trace))
                          (Trace.DurationNanos trace)
                          (Trace.Attributes trace) (Trace.StatusCode trace)])
          (DB.closed db)).

(* ===================================================================== *)
(** * getMetricSeries and Evaluate *)
(* ===================================================================== *)

(** [createSeriesKey]: the "k=v" strings, [sort.Strings], then [%v] of the
    slice, which prints the elements between brackets, separated by spaces. *)
Definition createSeriesKey (labels : gmap string string) : string :=
  let keys := (fun kv => kv.1 +:+ "=" +:+ kv.2) <$> map_to_list labels in
  "[" +:+ String.concat " " (merge_sort String.le keys) +:+ "]".

Definition timestamp_le (r1 r2 : MetricRow.t) : Prop :=
  MetricRow.timestamp r1 <= MetricRow.timestamp r2.

#[global] Instance timestamp_le_dec : RelDecision timestamp_le.
Proof. intros r1 r2. unfold timestamp_le. apply _. Defined.

(** [ORDER BY timestamp ASC], as the engine yields the rows: a row goes
    behind every row that is not later, so rows of one timestamp stay in the
    order of the table. *)
Fixpoint insertByTimestamp (row : MetricRow.t) (sorted : list MetricRow.t)
    : list MetricRow.t :=
  match sorted with
  | [] => [row]
  | r :: rest =>
      if decide (timestamp_le r row) then r :: insertByTimestamp row rest
      else row :: sorted
  end.

Definition orderByTimestamp (rows : list MetricRow.t) : list MetricRow.t :=
  fold_left (fun sorted row => insertByTimestamp row sorted) rows [].

(** A byte of a label name: a letter, a digit or an underscore. *)
Definition isNameByte (c : ascii) : bool :=
  let n := Ascii.N_of_ascii c in
  ((48 <=? n) && (n <=? 57) || (65 <=? n) && (n <=? 90)
   || (97 <=? n) && (n <=? 122) || (n =? 95))%N.

Definition isName (key : string) : bool :=
  negb (String.eqb key EmptyString)
  && forallb isNameByte (String.list_ascii_of_string key).

Section Evaluator.

(** SQLite's [JSON_EXTRACT(labels, path)]: [Ok (Some s)] when the path
    selects the text [s], [Ok None] when it selects nothing or a value that
    is not a text (which no bound Go string equals), and [Err] when the
    function raises, as it does on a text that is not JSON. *)
Variable JSON_EXTRACT : string -> string -> result (option string).

(** [getMetricSeries] pastes every label key into the text of the statement,
    between ['$.] and ['] (the label values are bound arguments).  With a
    key that is not a name the text is no longer the statement that was
    meant: a quote ends the SQL string, a dot or a bracket changes the path.
    With such a key, or when [JSON_EXTRACT] raises on a stored row, the
    outcome is the engine's: the error of [e.db.QueryContext], or the rows
    that [rows.Next] yields, each with the outcome of its [rows.Scan]. *)
Variable otherStatement :
  DB.t -> Query.t -> Z -> Z -> result (list (result MetricRow.t)).

Definition asMeant (db : DB.t) (query : Query.t) : bool :=
  forallb
    (fun kv =>
       isName kv.1
       && forallb
            (fun row =>
               match JSON_EXTRACT (MetricRow.labels row) ("$." +:+ kv.1) with
               | Ok _ => true
               | Err _ => false
               end)
            (DB.metrics db))
    (map_to_list (Query.Labels query)).

(** The WHERE clause built by [getMetricSeries], for a statement that reads
    as it is meant: the bound arguments are [query.MetricName],
    [startTime.Unix()], [endTime.Unix()] and, for every entry of
    [query.Labels], the value compared with [JSON_EXTRACT(labels, '$.key')]. *)
Definition whereClause (query : Query.t) (startTime endTime : Z)
    (row : MetricRow.t) : bool :=
  bool_decide (MetricRow.metric_name row = Query.MetricName query)
  && (time.toUnix startTime <=? MetricRow.timestamp row)
  && (MetricRow.timestamp row <=? time.toUnix endTime)
  && forallb
       (fun kv =>
          match JSON_EXTRACT (MetricRow.labels row) ("$." +:+ kv.1) with
          | Ok (Some s) => bool_decide (s = kv.2)
          | _ => false
          end)
       (map_to_list (Query.Labels query)).

(** [e.db.QueryContext] and the rows of its cursor, each with the outcome of
    [rows.Scan]: the columns that [InsertMetric] writes are never NULL, so
    the rows of the statement as meant all scan. *)
Definition QueryContext (db : DB.t) (query : Query.t) (startTime endTime : Z)
    : result (list (result MetricRow.t)) :=
  if DB.closed db then Err errClosed
  else if asMeant db query then
    Ok (Ok <$> orderByTimestamp
                 (List.filter (whereClause query startTime endTime)
                              (DB.metrics db)))
  else otherStatement db query startTime endTime.

(** The body of [for rows.Next()]: the labels of the row are the single
    entry [service], whatever the [labels] column holds. *)
Definition addRow (metricName : string)
    (seriesMap : gmap string MetricSeries.t) (row : MetricRow.t)
    : gmap string MetricSeries.t :=
  let labels : gmap string string := {[ "service" := MetricRow.service_name row ]} in
  let seriesKey := createSeriesKey labels in
  let series :=
    match seriesMap !! seriesKey with
    | Some series => series
    | None => MetricSeries.mk metricName labels []
    end in
  <[ seriesKey :=
       MetricSeries.mk (MetricSeries.MetricName series) (MetricSeries.Labels series)
         (MetricSeries.Points series ++
            [MetricPoint.mk (time.Unix (MetricRow.timestamp row) 0)
                            (MetricRow.value row) labels]) ]> seriesMap.

(** [for rows.Next()]: a row that does not scan ends the fetch with an
    error. *)
Fixpoint scanRows (metricName : string) (cursor : list (result MetricRow.t))
    (seriesMap : gmap string MetricSeries.t)
    : result (gmap string MetricSeries.t) :=
  match cursor with
  | [] => Ok seriesMap
  | scanned :: rest =>
      row ← wrapErr "failed to scan row" scanned;
      scanRows metricName rest (addRow metricName seriesMap row)
  end.

(** [getMetricSeries].  Go ranges over [seriesMap] in an unspecified order;
    the embedding lists the series in the order of [map_to_list]. *)
Definition getMetricSeries (db : DB.t) (query : Query.t) (startTime endTime : Z)
    : result (list MetricSeries.t) :=
  cursor ← wrapErr "database query failed"
             (QueryContext db query startTime endTime);
  seriesMap ← scanRows (Query.MetricName query) cursor ∅;
  Ok ((map_to_list seriesMap).*2).

(** [Evaluate]; [now] is the reading of the clock by [applyCount],
    [applyMin] and [applyMax]. *)
Definition Evaluate (db : DB.t) (now : Z) (query : Query.t) (startTime endTime : Z)
    : result QueryResult.t :=
  series ← wrapErr "failed to get metric series"
             (getMetricSeries db query startTime endTime);
  series ← (if decide (Query.Function query = "") then Ok series
            else wrapErr ("failed to apply function " +:+ Query.Function query)
                   (applyFunction now series (Query.Function query)
                                  (Query.Range query)));
  series ← (match Query.Aggregation query with
            | None => Ok series
            | Some agg =>
                wrapErr "failed to apply aggregation"
                        (applyAggregation now series agg)
            end);
  Ok (QueryResult.mk series "vector").

End Evaluator.

(* ===================================================================== *)
(** * Packages strings and strconv, on byte strings *)
(* ===================================================================== *)

Module strings.

Definition len (s : string) : Z := Z.of_nat (String.length s).

(** [s[lo:hi]]; out of range is a run-time panic. *)
Definition slice (s : string) (lo hi : Z) : result string :=
  if (0 <=? lo) && (lo <=? hi) && (hi <=? len s)
  then Ok (String.substring (Z.to_nat lo) (Z.to_nat (hi - lo)) s)
  else Err (Panic "slice bounds out of range").

(** [s[i]]. *)
Definition at_ (s : string) (i : Z) : option ascii :=
  if 0 <=? i then String.get (Z.to_nat i) s else None.

(** The white space of Unicode ([unicode.IsSpace]) in UTF-8.  Below U+0080
    it is tab, line feed, vertical tab, form feed, carriage return and space
    ([Ascii.is_space]); in two bytes U+0085 and U+00A0; in three bytes
    U+1680, U+2000 to U+200A, U+2028, U+2029, U+202F, U+205F and U+3000. *)
Definition isSpace2 (b0 b1 : ascii) : bool :=
  let n0 := Ascii.N_of_ascii b0 in
  let n1 := Ascii.N_of_ascii b1 in
  ((n0 =? 194) && ((n1 =? 133) || (n1 =? 160)))%N.

Definition isSpace3 (b0 b1 b2 : ascii) : bool :=
  let n0 := Ascii.N_of_ascii b0 in
  let n1 := Ascii.N_of_ascii b1 in
  let n2 := Ascii.N_of_ascii b2 in
  ((n0 =? 225) && (n1 =? 154) && (n2 =? 128)
   || (n0 =? 226) && (n1 =? 128)
      && ((128 <=? n2) && (n2 <=? 138) || (n2 =? 168) || (n2 =? 169)
          || (n2 =? 175))
   || (n0 =? 226) && (n1 =? 129) && (n2 =? 159)
   || (n0 =? 227) && (n1 =? 128) && (n2 =? 128))%N.

(** Dropping the white space at the front of [s], where [sp2] and [sp3]
    tell a space of two and of three bytes from the bytes in the order in
    which they are met.  Bytes that are no valid UTF-8 decode to U+FFFD,
    which is no space. *)
Fixpoint trimBy (sp2 : ascii -> ascii -> bool)
    (sp3 : ascii -> ascii -> ascii -> bool) (s : string) : string :=
  match s with
  | EmptyString => EmptyString
  | String b0 r0 =>
      if Ascii.is_space b0 then trimBy sp2 sp3 r0
      else
        match r0 with
        | EmptyString => s
        | String b1 r1 =>
            if sp2 b0 b1 then trimBy sp2 sp3 r1
            else
              match r1 with
              | EmptyString => s
              | String b2 r2 =>
                  if sp3 b0 b1 b2 then trimBy sp2 sp3 r2 else s
              end
        end
  end.

(** [strings.TrimLeftFunc(s, unicode.IsSpace)]. *)
Definition trimLeft (s : string) : string := trimBy isSpace2 isSpace3 s.

(** [strings.TrimRightFunc(s, unicode.IsSpace)]: the same walk from the
    last byte, where the bytes of a space are met last byte first. *)
Definition trimRight (s : string) : string :=
  String.rev
    (trimBy (fun b1 b0 => isSpace2 b0 b1) (fun b2 b1 b0 => isSpace3 b0 b1 b2)
            (String.rev s)).

(** [strings.TrimSpace]. *)
Definition TrimSpace (s : string) : string := trimRight (trimLeft s).

(** A byte below 128 that is no white space. *)
Definition isPlain (c : ascii) : bool :=
  negb (Ascii.is_space c) && (Ascii.N_of_ascii c <? 128)%N.

(** [strings.Index]: the first position of [substr] in [s], or -1. *)
Definition Index (s substr : string) : Z :=
  match String.index 0 substr s with
  | Some n => Z.of_nat n
  | None => -1
  end.

Fixpoint lastIndexFrom (substr s : string) (i last : Z) : Z :=
  let last' := if String.prefix substr s then i else last in
  match s with
  | String _ r => lastIndexFrom substr r (i + 1) last'
  | EmptyString => last'
  end.

(** [strings.LastIndex]. *)
Definition LastIndex (s substr : string) : Z := lastIndexFrom substr s 0 (-1).

Definition Contains (s substr : string) : bool := 0 <=? Index s substr.

Definition HasPrefix (s prefix : string) : bool := String.prefix prefix s.

Definition HasSuffix (s suffix : string) : bool :=
  String.prefix (String.rev suffix) (String.rev s).

(** [strings.Split(s, sep)] for a separator of one byte, which is what
    every call of the parser passes.  [cur] holds the bytes of the current
    piece, last byte first. *)
Fixpoint splitGo (sep : ascii) (s cur : string) : list string :=
  match s with
  | String c r =>
      if decide (c = sep) then String.rev cur :: splitGo sep r EmptyString
      else splitGo sep r (String c cur)
  | EmptyString => [String.rev cur]
  end.

Definition Split (s : string) (sep : ascii) : list string :=
  splitGo sep s EmptyString.

(** [strings.SplitN(s, sep, 2)] for a separator of one byte. *)
Definition SplitN2 (s : string) (sep : ascii) : list string :=
  match String.index 0 (String sep EmptyString) s with
  | Some n =>
      [String.substring 0 n s;
       String.substring (S n) (String.length s - S n) s]
  | None => [s]
  end.

End strings.

Module strconv.

Definition digit (c : ascii) : option Z := Z.of_nat <$> Ascii.is_nat c.

Fixpoint digits (s : string) (acc : Z) : option Z :=
  match s with
  | String c r =>
      match digit c with
      | Some d => digits r (10 * acc + d)
      | None => None
      end
  | EmptyString => Some acc
  end.

(** [strconv.Atoi] on a 64-bit platform: an optional sign, then one or more
    decimal digits; a value outside int64 is a range error. *)
Definition Atoi (s : string) : result Z :=
  let '(neg, body) :=
    match s with
    | String "-" r => (true, r)
    | String "+" r => (false, r)
    | _ => (false, s)
    end in
  match body with
  | EmptyString => Err (NumError "Atoi" s)
  | _ =>
      match digits body 0 with
      | Some n =>
          let v := if neg then - n else n in
          if (minInt64 <=? v) && (v <=? maxInt64) then Ok v
          else Err (NumError "Atoi" s)
      | None => Err (NumError "Atoi" s)
      end
  end.

End strconv.

(* ===================================================================== *)
(** * Package promql: the parser *)
(* ===================================================================== *)

Section Parser.

(** [time.ParseDuration], which [parseDuration] falls back to. *)
Variable time_ParseDuration : string -> result Z.

(** [duration[:len(duration)-1]], then [strconv.Atoi]. *)
Definition atoiPrefix (duration : string) : result Z :=
  digits ← strings.slice duration 0 (strings.len duration - 1);
  strconv.Atoi digits.

Definition parseDuration (duration : string) : result Z :=
  let duration := strings.TrimSpace duration in
  if decide (duration = "") then Err (Errorf "empty duration")
  else if strings.HasSuffix duration "s" then
    val ← atoiPrefix duration; Ok (wrap64 (val * time.Second))
  else if strings.HasSuffix duration "m" then
    val ← atoiPrefix duration; Ok (wrap64 (val * time.Minute))
  else if strings.HasSuffix duration "h" then
    val ← atoiPrefix duration; Ok (wrap64 (val * time.Hour))
  else if strings.HasSuffix duration "d" then
    val ← atoiPrefix duration; Ok (wrap64 (wrap64 (val * 24) * time.Hour))
  else time_ParseDuration duration.

(** The body of [for _, pair := range pairs] in [parseLabels]. *)
Definition parseLabelPair (labels : gmap string string) (pair : string)
    : result (gmap string string) :=
  let pair := strings.TrimSpace pair in
  if decide (pair = "") then Ok labels
  else
    match strings.SplitN2 pair "=" with
    | [part0; part1] =>
        let key := strings.TrimSpace part0 in
        let value := strings.TrimSpace part1 in
        let n := strings.len value in
        let quoted :=
          (2 <=? n)
          && bool_decide (strings.at_ value 0 = Some "034"%char)
          && bool_decide (strings.at_ value (n - 1) = Some "034"%char) in
        value ← (if quoted then strings.slice value 1 (n - 1) else Ok value);
        Ok (<[ key := value ]> labels)
    | _ => Err (Errorf ("invalid label selector: " +:+ pair))
    end.

Fixpoint parseLabelPairs (pairs : list string) (labels : gmap string string)
    : result (gmap string string) :=
  match pairs with
  | [] => Ok labels
  | pair_ :: rest =>
      labels ← parseLabelPair labels pair_; parseLabelPairs rest labels
  end.

Definition parseLabels (selector : string) : result (gmap string string) :=
  if decide (selector = "") then Ok ∅
  else parseLabelPairs (strings.Split selector ","%char) ∅.

Definition parseMetricWithLabels (query : string) : result Query.t :=
  let labelStart := strings.Index query "{" in
  if labelStart =? -1 then
    Ok (Query.mk (strings.TrimSpace query) ∅ "" 0 0 None)
  else
    let labelEnd := strings.Index query "}" in
    if labelEnd =? -1 then
      Err (Errorf "missing closing brace in label selector")
    else
      name ← strings.slice query 0 labelStart;
      selector ← strings.slice query (labelStart + 1) labelEnd;
      labels ← parseLabels (strings.TrimSpace selector);
      Ok (Query.mk (strings.TrimSpace name) labels "" 0 0 None).

Definition parseMetricWithRange (query : string) : result (Query.t * Z) :=
  let rangeStart := strings.Index query "[" in
  if rangeStart =? -1 then
    q ← parseMetricWithLabels query; Ok (q, 0)
  else
    let rangeEnd := strings.Index query "]" in
    if rangeEnd =? -1 then
      Err (Errorf "missing closing bracket in range selector")
    else
      metricPart ← strings.slice query 0 rangeStart;
      rangePart ← strings.slice query (rangeStart + 1) rangeEnd;
      metricQuery ← parseMetricWithLabels (strings.TrimSpace metricPart);
      duration ← wrapErr "invalid range duration"
                   (parseDuration (strings.TrimSpace rangePart));
      Ok (metricQuery, duration).

Definition parseFunction (query : string) : result Query.t :=
  let openParen := strings.Index query "(" in
  if openParen =? -1 then Err (Errorf "invalid function syntax")
  else
    funcPart ← strings.slice query 0 openParen;
    let funcName := strings.TrimSpace funcPart in
    let closeParen := strings.LastIndex query ")" in
    if (closeParen =? -1) || (closeParen <=? openParen) then
      Err (Errorf "missing closing parenthesis")
    else
      arg ← strings.slice query (openParen + 1) closeParen;
      '(metricQuery, rangeDuration) ←
        wrapErr "invalid function argument"
                (parseMetricWithRange (strings.TrimSpace arg));
      Ok (Query.mk (Query.MetricName metricQuery) (Query.Labels metricQuery)
                   funcName rangeDuration 0 None).

Definition Parse (query : string) : result Query.t :=
  let query := strings.TrimSpace query in
  if decide (query = "") then Err (Errorf "empty query")
  else if strings.Contains query "(" && strings.Contains query ")" then
    parseFunction query
  else if negb (strings.Contains query "{") then
    Ok (Query.mk query ∅ "" 0 0 None)
  else parseMetricWithLabels query.

Definition ParseAggregation (query : string) : result Query.t :=
  let query := strings.TrimSpace query in
  let openParen := strings.Index query "(" in
  if openParen =? -1 then Err (Errorf "invalid aggregation syntax")
  else
    funcPart ← strings.slice query 0 openParen;
    let funcName := strings.TrimSpace funcPart in
    let closeParen := strings.LastIndex query ")" in
    if closeParen =? -1 then Err (Errorf "missing closing parenthesis")
    else
      metricQuery ← strings.slice query (openParen + 1) closeParen;
      parsedQuery ← Parse (strings.TrimSpace metricQuery);
      byClause ←
        (if closeParen <? strings.len query - 1 then
           rest ← strings.slice query (closeParen + 1) (strings.len query);
           let remaining := strings.TrimSpace rest in
           if strings.HasPrefix remaining "by" then
             let byStart := strings.Index remaining "(" in
             let byEnd := strings.Index remaining ")" in
             if negb (byStart =? -1) && negb (byEnd =? -1) then
               clause ← strings.slice remaining (byStart + 1) byEnd;
               Ok (strings.TrimSpace clause)
             else Ok ""
           else Ok ""
         else Ok "");
      let byLabels :=
        if decide (byClause = "") then []
        else strings.TrimSpace <$> strings.Split byClause ","%char in
      Ok (Query.mk (Query.MetricName parsedQuery) (Query.Labels parsedQuery)
                   (Query.Function parsedQuery) (Query.Range parsedQuery)
                   (Query.Offset parsedQuery)
                   (Some (Aggregation.mk funcName byLabels []))).

End Parser.

(* ===================================================================== *)
(** * The two ingress adapters for traces *)
(* ===================================================================== *)

(** A Go [interface{}] value, as the adapters hand it to [json.Marshal]. *)
Inductive any : Type :=
  | anyNil
  | anyString (s : string)
  | anyBool (b : bool)
  | anyInt64 (i : Z)
  | anyFloat64 (f : float)
  | anySlice (items : list any)
  | anyMap (kvs : gmap string any).

(** The JSON form, as [c.ShouldBindJSON] fills the request struct of
    [HandleTraces]: every value is a Go string, empty when the JSON key is
    absent. *)
Module otlpjson.
Record KeyValue : Type := mkKeyValue {
  Key : string;
  StringValue : string            (* attr.Value.StringValue *)
}.
Record Resource : Type := mkResource {
  Attributes : list KeyValue
}.
Record Span : Type := mkSpan {
  TraceId : string;
  SpanId : string;
  ParentSpanId : string;
  Name : string;
  StartTimeUnixNano : string;
  EndTimeUnixNano : string;
  StatusCode : string;            (* span.Status.Code *)
  SpanAttributes : list KeyValue
}.
Record ScopeSpans : Type := mkScopeSpans {
  Spans : list Span
}.
Record ResourceSpans : Type := mkResourceSpans {
  SpansResource : Resource;
  ScopeSpansList : list ScopeSpans
}.
End otlpjson.

(** The RPC form: the protobuf messages of OTLP.  A pointer that may be nil
    is an [option]; [[]byte] is a string of bytes; [uint64] is a [Z] in
    [0, 2^64). *)
Module otlppb.
Inductive AnyValue : Type :=
  | StringValue (s : string)
  | BoolValue (b : bool)
  | IntValue (i : Z)
  | DoubleValue (d : float)
  | ArrayValue (values : option (list (option AnyValue)))
  | KvlistValue (values : option (list (string * option AnyValue)))
  | BytesValue (b : string)
  | ValueNotSet.
Record KeyValue : Type := mkKeyValue {
  Key : string;
  Value : option AnyValue
}.
Record Resource : Type := mkResource {
  Attributes : list KeyValue
}.
Record Span : Type := mkSpan {
  TraceId : string;
  SpanId : string;
  ParentSpanId : string;
  Name : string;
  StartTimeUnixNano : Z;
  EndTimeUnixNano : Z;
  Status : option Z;              (* span.Status, then its Code *)
  SpanAttributes : list (option KeyValue)
}.
Record ScopeSpans : Type := mkScopeSpans {
  Spans : list Span
}.
Record ResourceSpans : Type := mkResourceSpans {
  SpansResource : option Resource;
  ScopeSpansList : list ScopeSpans
}.

(** [GetStringValue] of a possibly nil [AnyValue]. *)
Definition GetStringValue (v : option AnyValue) : string :=
  match v with
  | Some (StringValue s) => s
  | _ => ""
  end.
End otlppb.

Section Ingestion.

(** [json.Marshal] of package encoding/json. *)
Variable json_Marshal : any -> result string.

(** What [time.Parse(time.RFC3339Nano, value)] does with a value that starts
    with a four-digit year and a dash. *)
Variable parseRFC3339Rest : string -> result Z.

Definition isDigit (c : ascii) : bool := bool_decide (is_Some (Ascii.is_nat c)).

(** [time.Parse(time.RFC3339Nano, value)].  The layout begins "2006-": the
    parser reads four bytes as the year, which must all be digits, and then
    requires the byte '-'; any other value is rejected there. *)
Definition time_Parse (value : string) : result Z :=
  match value with
  | String y0 (String y1 (String y2 (String y3 (String "-" _)))) =>
      if isDigit y0 && isDigit y1 && isDigit y2 && isDigit y3
      then parseRFC3339Rest value
      else Err (LibError "parsing time: cannot parse as 2006")
  | _ => Err (LibError "parsing time: cannot parse as 2006-")
  end.

(** [t, _ := time.Parse(...)]: the error is dropped and [t] is then the zero
    [Time]. *)
Definition parseOrZero (value : string) : Z :=
  match time_Parse value with
  | Ok t => t
  | Err _ => time.zero
  end.

(** ** The JSON/HTTP adapter, package ingestion *)

Definition extractServiceNameFromResource (resource : otlpjson.Resource) : string :=
  let fix loop (attributes : list otlpjson.KeyValue) : string :=
    match attributes with
    | attr :: rest =>
        if decide (otlpjson.Key attr = "service.name")
        then otlpjson.StringValue attr
        else loop rest
    | [] => "unknown"
    end in
  loop (otlpjson.Attributes resource).

Definition marshalOrEmpty (attrs : gmap string any) : string :=
  match json_Marshal (anyMap attrs) with
  | Ok jsonData => jsonData
  | Err _ => "{}"
  end.

Definition convertAttributesToJSON (attributes : list otlpjson.KeyValue) : string :=
  match attributes with
  | [] => "{}"
  | _ =>
      marshalOrEmpty
        (fold_left
           (fun attrs attr =>
              <[ otlpjson.Key attr := anyString (otlpjson.StringValue attr) ]> attrs)
           attributes ∅)
  end.

(** The [storage.Trace] that [HandleTraces] builds for one span. *)
Definition httpTrace (serviceName : string) (span : otlpjson.Span) : Trace.t :=
  let startTime := parseOrZero (otlpjson.StartTimeUnixNano span) in
  let endTime := parseOrZero (otlpjson.EndTimeUnixNano span) in
  Trace.mk (otlpjson.TraceId span) (otlpjson.SpanId span)
    (if decide (otlpjson.ParentSpanId span = EmptyString) then None
     else Some (otlpjson.ParentSpanId span))
    serviceName (otlpjson.Name span) startTime
    (time.Nanoseconds (time.Sub endTime startTime))
    (convertAttributesToJSON (otlpjson.SpanAttributes span))
    (otlpjson.StatusCode span).

(** [s.storage.InsertTrace(trace)] with the error only logged. *)
Definition insertLogged (db : DB.t) (trace : Trace.t) : DB.t :=
  match InsertTrace db trace with
  | Ok db' => db'
  | Err _ => db
  end.

(** The traces of one request of [HandleTraces], in the order of insertion. *)
Definition httpTraces (req : list otlpjson.ResourceSpans) : list Trace.t :=
  resourceSpan ← req;
  let serviceName :=
    extractServiceNameFromResource (otlpjson.SpansResource resourceSpan) in
  scopeSpan ← otlpjson.ScopeSpansList resourceSpan;
  httpTrace serviceName <$> otlpjson.Spans scopeSpan.

Definition HandleTraces (db : DB.t) (req : list otlpjson.ResourceSpans) : DB.t :=
  fold_left insertLogged (httpTraces req) db.

(** ** The RPC adapter, package grpc *)

Definition extractServiceName (resource : option otlppb.Resource) : string :=
  match resource with
  | None => "unknown"
  | Some resource =>
      let fix loop (attributes : list otlppb.KeyValue) : string :=
        match attributes with
        | attr :: rest =>
            if decide (otlppb.Key attr = "service.name") then
              let strVal := otlppb.GetStringValue (otlppb.Value attr) in
              if decide (strVal = EmptyString) then loop rest else strVal
            else loop rest
        | [] => "unknown"
        end in
      loop (otlppb.Attributes resource)
  end.

Definition convertStatusCode (status : option Z) : string :=
  match status with
  | None => "UNSET"
  | Some 0 => "UNSET"
  | Some 1 => "OK"
  | Some 2 => "ERROR"
  | Some _ => "UNKNOWN"
  end.

Fixpoint convertValue (v : otlppb.AnyValue) : any :=
  match v with
  | otlppb.StringValue s => anyString s
  | otlppb.BoolValue b => anyBool b
  | otlppb.IntValue i => anyInt64 i
  | otlppb.DoubleValue d => anyFloat64 d
  | otlppb.ArrayValue (Some values) =>
      anySlice
        (map (fun item =>
                match item with
                | Some item => convertValue item
                | None => anyNil
                end)
             values)
  | otlppb.KvlistValue (Some values) =>
      anyMap
        (fold_left
           (fun kvMap kv =>
              match kv with
              | (key, Some value) => <[ key := convertValue value ]> kvMap
              | (key, None) => <[ key := anyNil ]> kvMap
              end)
           values ∅)
  | _ => anyNil
  end.

Definition convertAttributeValue (value : option otlppb.AnyValue) : any :=
  match value with
  | Some v => convertValue v
  | None => anyNil
  end.

Definition convertAttributes (attributes : list (option otlppb.KeyValue)) : string :=
  match attributes with
  | [] => "{}"
  | _ =>
      marshalOrEmpty
        (fold_left
           (fun attrs attr =>
              match attr with
              | None => attrs
              | Some attr =>
                  match convertAttributeValue (otlppb.Value attr) with
                  | anyNil => attrs
                  | value => <[ otlppb.Key attr := value ]> attrs
                  end
              end)
           attributes ∅)
  end.

(** The [storage.Trace] that [processSpan] builds. *)
Definition grpcTrace (span : otlppb.Span) (serviceName : string) : Trace.t :=
  Trace.mk (otlppb.TraceId span) (otlppb.SpanId span)
    (if decide (otlppb.ParentSpanId span = EmptyString) then None
     else Some (otlppb.ParentSpanId span))
    serviceName (otlppb.Name span)
    (time.Unix 0 (wrap64 (otlppb.StartTimeUnixNano span)))
    (wrap64 ((otlppb.EndTimeUnixNano span - otlppb.StartTimeUnixNano span)
             `mod` 2 ^ 64))
    (convertAttributes (otlppb.SpanAttributes span))
    (convertStatusCode (otlppb.Status span)).

Definition processSpan (db : DB.t) (span : otlppb.Span) (serviceName : string)
    : result DB.t :=
  InsertTrace db (grpcTrace span serviceName).

Definition grpcTraces (req : list otlppb.ResourceSpans) : list Trace.t :=
  resourceSpan ← req;
  let serviceName := extractServiceName (otlppb.SpansResource resourceSpan) in
  scopeSpan ← otlppb.ScopeSpansList resourceSpan;
  (fun span => grpcTrace span serviceName) <$> otlppb.Spans scopeSpan.

(** [TraceService.Export]: a failed span is logged and the next one is
    processed. *)
Definition Export (db : DB.t) (req : list otlppb.ResourceSpans) : DB.t :=
  fold_left insertLogged (grpcTraces req) db.

End Ingestion.

(* ===================================================================== *)
(** * The two ingress adapters for metrics *)
(* ===================================================================== *)

(** [float64(n)] for an [int64] or a [uint64] [n]: the nearest binary64,
    ties to even. *)
Definition float64_of_Z (n : Z) : float :=
  FloatOps.SF2Prim
    (SpecFloat.binary_normalize FloatOps.prec FloatOps.emax n 0 false).

(** A piece of code that works on the storage and ends with an [error]: the
    database it leaves and the error, [None] for nil.  A run-time panic is
    the error [Panic]. *)
Definition step : Type := DB.t -> DB.t * option error.

Definition skip : step := fun db => (db, None).

(** A panic, or an error returned at once. *)
Definition raise (e : error) : step := fun db => (db, Some e).

(** [a] and then, unless it ended with an error, [b]. *)
Definition andThen (a b : step) : step := fun db =>
  match a db with
  | (db', None) => b db'
  | (db', Some e) => (db', Some e)
  end.

(** [for _, x := range l], leaving the loop at the first error. *)
Fixpoint forEach {A} (f : A -> step) (l : list A) : step :=
  match l with
  | [] => skip
  | x :: l => andThen (f x) (forEach f l)
  end.

(** [if err := a; err != nil { log.Printf(...) }]: the error is written to
    the log and dropped.  A panic is no error value: it goes on unwinding. *)
Definition logged (a : step) : step := fun db =>
  match a db with
  | (db', Some (Panic msg)) => (db', Some (Panic msg))
  | (db', _) => (db', None)
  end.

(** [s.storage.InsertMetric(metric)]. *)
Definition insertMetric (metric : Metric.t) : step := fun db =>
  match InsertMetric db metric with
  | Ok db' => (db', None)
  | Err e => (db, Some e)
  end.

(** The request struct of [HandleMetrics], as [c.ShouldBindJSON] fills it:
    the data points of [metric.Data.Gauge] and of [metric.Data.Sum]. *)
Module otlpjson_metrics.
Record DataPoint : Type := mkDataPoint {
  TimeUnixNano : string;
  AsDouble : float;
  Attributes : list otlpjson.KeyValue
}.
Record Metric : Type := mkMetric {
  Name : string;
  GaugeDataPoints : list DataPoint;     (* metric.Data.Gauge.DataPoints *)
  SumDataPoints : list DataPoint        (* metric.Data.Sum.DataPoints *)
}.
Record ScopeMetrics : Type := mkScopeMetrics {
  Metrics : list Metric
}.
Record ResourceMetrics : Type := mkResourceMetrics {
  MetricsResource : otlpjson.Resource;
  ScopeMetricsList : list ScopeMetrics
}.
End otlpjson_metrics.

(** The protobuf messages of the OTLP metrics service, with the fields the
    adapter reads.  The messages of a repeated field and of a oneof are the
    messages themselves, which is how the decoder delivers them; [uint64] is
    a [Z] in [0, 2^64). *)
Module metricspb.

Inductive NumberValue : Type :=
  | AsDouble (d : float)
  | AsInt (i : Z)
  | NumberNotSet.

Module NumberDataPoint.
Record t : Type := mk {
  Attributes : list (option otlppb.KeyValue);
  TimeUnixNano : Z;
  Value : NumberValue
}.
End NumberDataPoint.

Module HistogramDataPoint.
Record t : Type := mk {
  Attributes : list (option otlppb.KeyValue);
  TimeUnixNano : Z;
  Count : Z;
  Sum : option float;                   (* *float64 *)
  BucketCounts : list Z;
  ExplicitBounds : list float
}.
End HistogramDataPoint.

Module ExponentialHistogramDataPoint.
Record t : Type := mk {
  Attributes : list (option otlppb.KeyValue);
  TimeUnixNano : Z;
  Count : Z;
  Sum : option float
}.
End ExponentialHistogramDataPoint.

Module ValueAtQuantile.
Record t : Type := mk {
  Quantile : float;
  Value : float
}.
End ValueAtQuantile.

Module SummaryDataPoint.
Record t : Type := mk {
  Attributes : list (option otlppb.KeyValue);
  TimeUnixNano : Z;
  Count : Z;
  Sum : float;
  QuantileValues : list ValueAtQuantile.t
}.
End SummaryDataPoint.

(** [metric.Data], a oneof, with the [DataPoints] of the message it holds. *)
Inductive Data : Type :=
  | Gauge (dataPoints : list NumberDataPoint.t)
  | Sum (dataPoints : list NumberDataPoint.t)
  | Histogram (dataPoints : list HistogramDataPoint.t)
  | ExponentialHistogram (dataPoints : list ExponentialHistogramDataPoint.t)
  | Summary (dataPoints : list SummaryDataPoint.t)
  | DataNotSet.

Module Metric.
Record t : Type := mk {
  Name : string;
  Data : Data
}.
End Metric.

Module ScopeMetrics.
Record t : Type := mk {
  Metrics : list Metric.t
}.
End ScopeMetrics.

Module ResourceMetrics.
Record t : Type := mk {
  Resource : option otlppb.Resource;
  ScopeMetrics : list ScopeMetrics.t
}.
End ResourceMetrics.

(** [ExportMetricsServiceResponse.PartialSuccess]. *)
Module ExportMetricsPartialSuccess.
Record t : Type := mk {
  RejectedDataPoints : Z;
  ErrorMessage : string
}.
End ExportMetricsPartialSuccess.

End metricspb.

(** ** The JSON/HTTP adapter, package ingestion *)

Section HandleMetrics.

Variable json_Marshal : any -> result string.
Variable parseRFC3339Rest : string -> result Z.

(** The [storage.Metric] that [HandleMetrics] builds for one data point, of
    a gauge and of a sum alike. *)
Definition httpMetric (serviceName name : string)
    (dataPoint : otlpjson_metrics.DataPoint) : Metric.t :=
  let timestamp :=
    parseOrZero parseRFC3339Rest (otlpjson_metrics.TimeUnixNano dataPoint) in
  Metric.mk timestamp name (otlpjson_metrics.AsDouble dataPoint)
    (convertAttributesToJSON json_Marshal (otlpjson_metrics.Attributes dataPoint))
    serviceName.

Definition HandleMetrics (req : list otlpjson_metrics.ResourceMetrics) : step :=
  forEach
    (fun resourceMetric =>
       let serviceName :=
         extractServiceNameFromResource
           (otlpjson_metrics.MetricsResource resourceMetric) in
       forEach
         (fun scopeMetric =>
            forEach
              (fun metric =>
                 andThen
                   (forEach
                      (fun dataPoint =>
                         logged (insertMetric
                                   (httpMetric serviceName
                                      (otlpjson_metrics.Name metric) dataPoint)))
                      (otlpjson_metrics.GaugeDataPoints metric))
                   (forEach
                      (fun dataPoint =>
                         logged (insertMetric
                                   (httpMetric serviceName
                                      (otlpjson_metrics.Name metric) dataPoint)))
                      (otlpjson_metrics.SumDataPoints metric)))
              (otlpjson_metrics.Metrics scopeMetric))
         (otlpjson_metrics.ScopeMetricsList resourceMetric))
    req.

End HandleMetrics.

(** ** The RPC adapter, package grpc: [MetricsService] *)

Module MetricsService.
Section Service.

Variable json_Marshal : any -> result string.

(** [json.Unmarshal(data, &attrs)] for a nil [attrs] of type
    [map[string]interface{}]: the map it leaves, [None] when it leaves the
    map nil, as it does for the JSON text null. *)
Variable json_Unmarshal : string -> result (option (gmap string any)).

Definition getNumericValue (dataPoint : option metricspb.NumberDataPoint.t) : float :=
  match dataPoint with
  | None => 0%float
  | Some dataPoint =>
      match metricspb.NumberDataPoint.Value dataPoint with
      | metricspb.AsDouble d => d
      | metricspb.AsInt i => float64_of_Z i
      | metricspb.NumberNotSet => 0%float
      end
  end.

(** [attrs[key] = value] on the map that [json.Unmarshal] left, then
    [json.Marshal]: the common body of [addBucketLabel] and
    [addQuantileLabel]. *)
Definition addLabel (key : string) (attributes : string) (value : float)
    : result string :=
  let attrs :=
    match json_Unmarshal attributes with
    | Ok attrs => attrs
    | Err _ => Some ∅
    end in
  match attrs with
  | None => Err (Panic "assignment to entry in nil map")
  | Some attrs =>
      match json_Marshal (anyMap (<[ key := anyFloat64 value ]> attrs)) with
      | Ok jsonData => Ok jsonData
      | Err _ => Ok attributes
      end
  end.

Definition addBucketLabel (attributes : string) (bound : float) : result string :=
  addLabel "le" attributes bound.

Definition addQuantileLabel (attributes : string) (quantile : float)
    : result string :=
  addLabel "quantile" attributes quantile.

(** [s.storage.InsertMetric(&storage.Metric{..., Labels: labels})] where
    building [labels] may panic. *)
Definition insertLabelled (labels : result string) (metric : string -> Metric.t)
    : step :=
  match labels with
  | Ok labels => insertMetric (metric labels)
  | Err e => raise e
  end.

(** [time.Unix(0, int64(dataPoint.TimeUnixNano))]. *)
Definition timeOf (timeUnixNano : Z) : Z := time.Unix 0 (wrap64 timeUnixNano).

Definition processGaugeMetric (name : string)
    (gauge : list metricspb.NumberDataPoint.t) (serviceName : string) : step :=
  forEach
    (fun dataPoint =>
       insertMetric
         (Metric.mk (timeOf (metricspb.NumberDataPoint.TimeUnixNano dataPoint))
            name (getNumericValue (Some dataPoint))
            (convertAttributes json_Marshal
               (metricspb.NumberDataPoint.Attributes dataPoint))
            serviceName))
    gauge.

Definition processSumMetric (name : string)
    (sum : list metricspb.NumberDataPoint.t) (serviceName : string) : step :=
  forEach
    (fun dataPoint =>
       insertMetric
         (Metric.mk (timeOf (metricspb.NumberDataPoint.TimeUnixNano dataPoint))
            name (getNumericValue (Some dataPoint))
            (convertAttributes json_Marshal
               (metricspb.NumberDataPoint.Attributes dataPoint))
            serviceName))
    sum.

(** [if sum != nil && *sum != 0 { insert name_sum }]. *)
Definition insertSum (name : string) (timestamp : Z) (sum : option float)
    (labels serviceName : string) : step :=
  match sum with
  | Some sum =>
      if PrimFloat.eqb sum 0%float then skip
      else insertMetric (Metric.mk timestamp (name +:+ "_sum") sum labels serviceName)
  | None => skip
  end.

Definition processHistogramMetric (name : string)
    (histogram : list metricspb.HistogramDataPoint.t) (serviceName : string)
    : step :=
  forEach
    (fun dataPoint =>
       let timestamp := timeOf (metricspb.HistogramDataPoint.TimeUnixNano dataPoint) in
       let attributes := metricspb.HistogramDataPoint.Attributes dataPoint in
       andThen
         (insertMetric
            (Metric.mk timestamp (name +:+ "_count")
               (float64_of_Z (metricspb.HistogramDataPoint.Count dataPoint))
               (convertAttributes json_Marshal attributes) serviceName))
         (andThen
            (insertSum name timestamp (metricspb.HistogramDataPoint.Sum dataPoint)
               (convertAttributes json_Marshal attributes) serviceName)
            (forEach
               (fun '(i, bucketCount) =>
                  match metricspb.HistogramDataPoint.ExplicitBounds dataPoint !! i with
                  | Some bound =>
                      insertLabelled
                        (addBucketLabel (convertAttributes json_Marshal attributes)
                                        bound)
                        (fun labels =>
                           Metric.mk timestamp (name +:+ "_bucket")
                             (float64_of_Z bucketCount) labels serviceName)
                  | None => skip
                  end)
               (imap (fun (i : nat) (bucketCount : Z) => (i, bucketCount))
                     (metricspb.HistogramDataPoint.BucketCounts dataPoint)))))
    histogram.

Definition processExponentialHistogramMetric (name : string)
    (expHistogram : list metricspb.ExponentialHistogramDataPoint.t)
    (serviceName : string) : step :=
  forEach
    (fun dataPoint =>
       let timestamp :=
         timeOf (metricspb.ExponentialHistogramDataPoint.TimeUnixNano dataPoint) in
       let attributes :=
         metricspb.ExponentialHistogramDataPoint.Attributes dataPoint in
       andThen
         (insertMetric
            (Metric.mk timestamp (name +:+ "_count")
               (float64_of_Z
                  (metricspb.ExponentialHistogramDataPoint.Count dataPoint))
               (convertAttributes json_Marshal attributes) serviceName))
         (insertSum name timestamp
            (metricspb.ExponentialHistogramDataPoint.Sum dataPoint)
            (convertAttributes json_Marshal attributes) serviceName))
    expHistogram.

Definition processSummaryMetric (name : string)
    (summary : list metricspb.SummaryDataPoint.t) (serviceName : string) : step :=
  forEach
    (fun dataPoint =>
       let timestamp := timeOf (metricspb.SummaryDataPoint.TimeUnixNano dataPoint) in
       let attributes := metricspb.SummaryDataPoint.Attributes dataPoint in
       andThen
         (insertMetric
            (Metric.mk timestamp (name +:+ "_count")
               (float64_of_Z (metricspb.SummaryDataPoint.Count dataPoint))
               (convertAttributes json_Marshal attributes) serviceName))
         (andThen
            (insertSum name timestamp
               (Some (metricspb.SummaryDataPoint.Sum dataPoint))
               (convertAttributes json_Marshal attributes) serviceName)
            (forEach
               (fun quantile =>
                  insertLabelled
                    (addQuantileLabel (convertAttributes json_Marshal attributes)
                       (metricspb.ValueAtQuantile.Quantile quantile))
                    (fun labels =>
                       Metric.mk timestamp (name +:+ "_quantile")
                         (metricspb.ValueAtQuantile.Value quantile)
                         labels serviceName))
               (metricspb.SummaryDataPoint.QuantileValues dataPoint))))
    summary.

Definition processMetric (metric : metricspb.Metric.t) (serviceName : string)
    : step :=
  match metricspb.Metric.Data metric with
  | metricspb.Gauge gauge =>
      processGaugeMetric (metricspb.Metric.Name metric) gauge serviceName
  | metricspb.Sum sum =>
      processSumMetric (metricspb.Metric.Name metric) sum serviceName
  | metricspb.Histogram histogram =>
      processHistogramMetric (metricspb.Metric.Name metric) histogram serviceName
  | metricspb.ExponentialHistogram expHistogram =>
      processExponentialHistogramMetric (metricspb.Metric.Name metric)
        expHistogram serviceName
  | metricspb.Summary summary =>
      processSummaryMetric (metricspb.Metric.Name metric) summary serviceName
  | metricspb.DataNotSet => skip
  end.

Definition processResourceMetric (resourceMetric : metricspb.ResourceMetrics.t)
    : step :=
  let serviceName :=
    extractServiceName (metricspb.ResourceMetrics.Resource resourceMetric) in
  forEach
    (fun scopeMetric =>
       forEach (fun metric => logged (processMetric metric serviceName))
               (metricspb.ScopeMetrics.Metrics scopeMetric))
    (metricspb.ResourceMetrics.ScopeMetrics resourceMetric).

(** [MetricsService.Export]: the database it leaves and what it returns. *)
Definition Export (req : option (list metricspb.ResourceMetrics.t)) (db : DB.t)
    : DB.t * result metricspb.ExportMetricsPartialSuccess.t :=
  match req with
  | None =>
      (db, Err (LibError
                  "rpc error: code = InvalidArgument desc = request cannot be nil"))
  | Some resourceMetrics =>
      match forEach (fun resourceMetric =>
                       logged (processResourceMetric resourceMetric))
                    resourceMetrics db with
      | (db', None) => (db', Ok (metricspb.ExportMetricsPartialSuccess.mk 0 ""))
      | (db', Some e) => (db', Err e)
      end
  end.

End Service.
End MetricsService.

(** ** What a step does to an open and to a closed database *)

(** The row that [InsertMetric] writes. *)
Definition rowOf (metric : Metric.t) : MetricRow.t :=
  MetricRow.mk (time.toUnixNano (Metric.Timestamp metric))
    (Metric.MetricName metric) (sqliteReal (Metric.Value metric))
    (Metric.Labels metric) (Metric.ServiceName metric).

(** On an open database the step ends without error and has appended
    [rows] to the metrics table, and nothing else. *)
Definition appends (a : step) (rows : list MetricRow.t) : Prop :=
  forall db, DB.closed db = false ->
    a db = (DB.mk (DB.metrics db ++ rows) (DB.traces db) false, None).

(** On a closed database the step leaves the database as it is and ends
    without error or with the error of the closed handle. *)
Definition inert (a : step) : Prop :=
  forall db, DB.closed db = true ->
    a db = (db, None) \/ a db = (db, Some errClosed).

(* ===================================================================== *)
(** * Package storage: opening and reading *)
(* ===================================================================== *)

(** The loop of [createDataDir], about to look at index [n - 1]:
    [for i := len(path) - 1; i >= 0; i--], which stops at the first "/" and
    takes [path[:i]]; the directory stays empty when the loop runs out. *)
Fixpoint createDataDir_loop (path : string) (n : nat) : string :=
  match n with
  | O => EmptyString
  | S i =>
      if decide (String.get i path = Some "/"%char)
      then String.substring 0 i path
      else createDataDir_loop path i
  end.

Section CreateDataDir.

(** [os.MkdirAll(dir, 0755)]. *)
Variable os_MkdirAll : string -> option error.

Definition createDataDir (path : string) : option error :=
  let dir := createDataDir_loop path (String.length path) in
  if decide (dir = EmptyString) then None else os_MkdirAll dir.

End CreateDataDir.

(** [LIMIT limit OFFSET offset] of SQLite: a negative limit is no limit and
    a negative offset is no offset. *)
Definition limitOffset {A} (limit offset : Z) (rows : list A) : list A :=
  let rows := drop (Z.to_nat offset) rows in
  if limit <? 0 then rows else take (Z.to_nat limit) rows.

(** [SQLiteStorage.GetMetrics]: the rows [ORDER BY timestamp DESC], latest
    first and, among rows of one timestamp, last inserted first; cut by the
    limit and the offset, each scanned into a [storage.Metric]. *)
Definition GetMetrics (db : DB.t) (limit offset : Z) : result (list Metric.t) :=
  if DB.closed db then Err errClosed
  else
    Ok ((fun row =>
           Metric.mk (time.Unix 0 (MetricRow.timestamp row))
             (MetricRow.metric_name row) (MetricRow.value row)
             (MetricRow.labels row) (MetricRow.service_name row))
          <$> limitOffset limit offset
                (reverse (orderByTimestamp (DB.metrics db)))).

(* ===================================================================== *)
(** * Package config *)
(* ===================================================================== *)

Module config.

Module ServerConfig.
Record t : Type := mk {
  Port : Z;
  Environment : string;
  ReadTimeout : Z;
  WriteTimeout : Z
}.
End ServerConfig.

Module StorageConfig.
Record t : Type := mk {
  Type_ : string;                       (* Type *)
  Path : string;
  RetentionDays : Z;
  MaxConnections : Z
}.
End StorageConfig.

Module IngestionConfig.
Record t : Type := mk {
  GRPCPort : Z;
  HTTPPort : Z;
  GRPCEnabled : bool;
  HTTPEnabled : bool;
  BatchSize : Z;
  FlushInterval : Z
}.
End IngestionConfig.

Module WebConfig.
Record t : Type := mk {
  Enabled : bool;
  Title : string;
  Theme : string;
  Dogfood : bool
}.
End WebConfig.

Module LoggingConfig.
Record t : Type := mk {
  Level : string;
  Format : string;
  FilePath : string
}.
End LoggingConfig.

Module Config.
Record t : Type := mk {
  Server : ServerConfig.t;
  Storage : StorageConfig.t;
  Ingestion : IngestionConfig.t;
  Web : WebConfig.t;
  Logging : LoggingConfig.t
}.
End Config.

(** [(c *Config).setDefaults], as the configuration it leaves in [c]. *)
Definition setDefaults (c : Config.t) : Config.t :=
  let server := Config.Server c in
  let storage := Config.Storage c in
  let ingestion := Config.Ingestion c in
  let web := Config.Web c in
  let logging := Config.Logging c in
  let neither :=
    negb (IngestionConfig.GRPCEnabled ingestion)
    && negb (IngestionConfig.HTTPEnabled ingestion) in
  Config.mk
    (ServerConfig.mk
       (if decide (ServerConfig.Port server = 0) then 8080
        else ServerConfig.Port server)
       (if decide (ServerConfig.Environment server = "") then "development"
        else ServerConfig.Environment server)
       (if decide (ServerConfig.ReadTimeout server = 0) then 30 * time.Second
        else ServerConfig.ReadTimeout server)
       (if decide (ServerConfig.WriteTimeout server = 0) then 30 * time.Second
        else ServerConfig.WriteTimeout server))
    (StorageConfig.mk
       (if decide (StorageConfig.Type_ storage = "") then "sqlite"
        else StorageConfig.Type_ storage)
       (if decide (StorageConfig.Path storage = "") then "./data/telemorph.db"
        else StorageConfig.Path storage)
       (if decide (StorageConfig.RetentionDays storage = 0) then 30
        else StorageConfig.RetentionDays storage)
       (if decide (StorageConfig.MaxConnections storage = 0) then 10
        else StorageConfig.MaxConnections storage))
    (IngestionConfig.mk
       (if decide (IngestionConfig.GRPCPort ingestion = 0) then 4317
        else IngestionConfig.GRPCPort ingestion)
       (if decide (IngestionConfig.HTTPPort ingestion = 0) then 4318
        else IngestionConfig.HTTPPort ingestion)
       (if neither then true else IngestionConfig.GRPCEnabled ingestion)
       (if neither then true else IngestionConfig.HTTPEnabled ingestion)
       (if decide (IngestionConfig.BatchSize ingestion = 0) then 1000
        else IngestionConfig.BatchSize ingestion)
       (if decide (IngestionConfig.FlushInterval ingestion = 0)
        then 5 * time.Second
        else IngestionConfig.FlushInterval ingestion))
    (WebConfig.mk
       (WebConfig.Enabled web)
       (if decide (WebConfig.Title web = "") then "Open-Telemorph-Prime"
        else WebConfig.Title web)
       (if decide (WebConfig.Theme web = "") then "light"
        else WebConfig.Theme web)
       (WebConfig.Dogfood web))
    (LoggingConfig.mk
       (if decide (LoggingConfig.Level logging = "") then "info"
        else LoggingConfig.Level logging)
       (if decide (LoggingConfig.Format logging = "") then "json"
        else LoggingConfig.Format logging)
       (LoggingConfig.FilePath logging)).

Definition DefaultConfig : Config.t :=
  Config.mk
    (ServerConfig.mk 8080 "development" (30 * time.Second) (30 * time.Second))
    (StorageConfig.mk "sqlite" "./data/telemorph.db" 30 10)
    (IngestionConfig.mk 4317 4318 true true 1000 (5 * time.Second))
    (WebConfig.mk true "Open-Telemorph-Prime" "light" false)
    (LoggingConfig.mk "info" "json" "").

End config.

(* ===================================================================== *)
(** * Concrete inputs used by the examples below *)
(* ===================================================================== *)

(** The byte of a double quote, as a string. *)
Definition dq : string := String "034"%char EmptyString.

Definition svc (name : string) : gmap string string := {[ "service" := name ]}.

(** Two series with one point each at the same instant, values 3 and 4. *)
Definition sum_example : list MetricSeries.t :=
  [ MetricSeries.mk "m" (svc "a") [MetricPoint.mk (time.Unix 100 0) 3%float (svc "a")];
    MetricSeries.mk "m" (svc "b") [MetricPoint.mk (time.Unix 100 0) 4%float (svc "b")] ].

(** One series with the points (t=0, 10) and (t=10s, 30). *)
Definition rate_example_points : list MetricPoint.t :=
  [ MetricPoint.mk (time.Unix 0 0) 10%float (svc "api");
    MetricPoint.mk (time.Unix 10 0) 30%float (svc "api") ].

Definition rate_example : MetricSeries.t :=
  MetricSeries.mk "http_requests_total" (svc "api") rate_example_points.

(** One series with the points (t=0, 1), (t=5s, 2) and (t=20s, 10). *)
Definition increase_example_points : list MetricPoint.t :=
  [ MetricPoint.mk (time.Unix 0 0) 1%float (svc "api");
    MetricPoint.mk (time.Unix 5 0) 2%float (svc "api");
    MetricPoint.mk (time.Unix 20 0) 10%float (svc "api") ].

Definition increase_example : MetricSeries.t :=
  MetricSeries.mk "http_requests_total" (svc "api") increase_example_points.

(** A metric one thousand seconds after the epoch, and a query for it. *)
Definition fetch_example_metric : Metric.t :=
  Metric.mk (time.Unix 1000 0) "m" 1%float "{}" "svc".

(** A metric five nanoseconds after the epoch. *)
Definition fetch_example_early : Metric.t :=
  Metric.mk (time.Unix 0 5) "m" 1%float "{}" "svc".

Definition fetch_example_query : Query.t := Query.mk "m" ∅ EmptyString 0 0 None.

(** The JSON text of a label set with the single entry [method]. *)
Definition methodLabels (method : string) : string :=
  "{" +:+ dq +:+ "method" +:+ dq +:+ ":" +:+ dq +:+ method +:+ dq +:+ "}".

(** Two rows of one service whose label sets differ. *)
Definition group_example_rows : list MetricRow.t :=
  [ MetricRow.mk 5 "m" 1%float (methodLabels "GET") "api";
    MetricRow.mk 6 "m" 2%float (methodLabels "POST") "api" ].

(** Two rows with the same label set, of two services. *)
Definition group_example_services : list MetricRow.t :=
  [ MetricRow.mk 5 "m" 1%float (methodLabels "GET") "api";
    MetricRow.mk 6 "m" 2%float (methodLabels "GET") "web" ].

(** One span, from 1s to 3s after the epoch, in its two wire forms. *)
Definition span_example_json : otlpjson.Span :=
  otlpjson.mkSpan "7f" "a1" EmptyString "GET /" "1000000000" "3000000000" "OK" [].

Definition span_example_pb : otlppb.Span :=
  otlppb.mkSpan "7f" "a1" EmptyString "GET /" 1000000000 3000000000 (Some 1) [].

(** A resource whose [service.name] attribute is the empty string, in its
    two wire forms. *)
Definition resource_example_json : otlpjson.Resource :=
  otlpjson.mkResource [otlpjson.mkKeyValue "service.name" EmptyString].

Definition resource_example_pb : otlppb.Resource :=
  otlppb.mkResource
    [otlppb.mkKeyValue "service.name" (Some (otlppb.StringValue EmptyString))].

(** The points of a series are in strictly ascending order of time. *)
Definition ascending (points : list MetricPoint.t) : Prop :=
  forall (i j : nat) (pi pj : MetricPoint.t),
    (i < j)%nat -> points !! i = Some pi -> points !! j = Some pj ->
    MetricPoint.Timestamp pi < MetricPoint.Timestamp pj.

(* ===================================================================== *)
(** * Further inputs of the examples *)
(* ===================================================================== *)

(** One series with two points at the same instant, values 1 and 2. *)
Definition duplicate_example_points : list MetricPoint.t :=
  [ MetricPoint.mk (time.Unix 7 0) 1%float (svc "api");
    MetricPoint.mk (time.Unix 7 0) 2%float (svc "api") ].

(** Membership in a list given by its elements. *)
Ltac elem_of_literal :=
  repeat first [apply list_elem_of_here | apply list_elem_of_further].

(** Non-membership of a literal in a list of literals. *)
Ltac not_elem_of_literal :=
  let Hin := fresh "Hin" in
  intros Hin;
  repeat (apply elem_of_cons in Hin as [Hin|Hin]; [discriminate|]);
  by apply elem_of_nil in Hin.

(* ===================================================================== *)
(** * Lemmas on the loops of the evaluator *)
(* ===================================================================== *)

Lemma wrap64_id (z : Z) : minInt64 <= z <= maxInt64 -> wrap64 z = z.
Proof.
  unfold wrap64, minInt64, maxInt64. intros H.
  rewrite Z.mod_small; lia.
Qed.

Lemma wrap64_neg (d : Z) : minInt64 < d <= maxInt64 -> wrap64 (- d) = - d.
Proof. unfold minInt64, maxInt64. intros H. apply wrap64_id. unfold minInt64, maxInt64. lia. Qed.

Lemma map_lookup {A B} (f : A -> B) (l : list A) (i : nat) :
  map f l !! i = f <$> l !! i.
Proof. apply list_lookup_fmap. Qed.

Lemma pointsLoop_omap (body : nat -> MetricPoint.t -> option MetricPoint.t)
    (points : list MetricPoint.t) :
  pointsLoop body points = omap (fun jp => body jp.1 jp.2) (imap pair points).
Proof.
  unfold pointsLoop.
  enough (H : forall l acc,
             fold_left
               (fun out (jp : nat * MetricPoint.t) =>
                  match body jp.1 jp.2 with
                  | Some p => out ++ [p]
                  | None => out
                  end) l acc
             = acc ++ omap (fun jp => body jp.1 jp.2) l)
    by apply (H _ []).
  induction l as [|jp l IH]; intros acc; simpl.
  - by rewrite app_nil_r.
  - rewrite IH. destruct (body jp.1 jp.2); simpl; [|done].
    by rewrite <- app_assoc.
Qed.

(** A point is in the output of the loop exactly when some iteration
    appended it. *)
Lemma elem_of_pointsLoop body (points : list MetricPoint.t) (out : MetricPoint.t) :
  out ∈ pointsLoop body points
  <-> exists j point, points !! j = Some point /\ body j point = Some out.
Proof.
  rewrite pointsLoop_omap, list_elem_of_omap. split.
  - intros [[j point] [Hin Hb]]. apply elem_of_lookup_imap in Hin as (j' & p' & Heq & Hl).
    simplify_eq. eauto.
  - intros (j & point & Hl & Hb). exists (j, point). split; [|done].
    apply elem_of_lookup_imap. eauto.
Qed.

Lemma scanBack_Some cond (points : list MetricPoint.t) (n : nat) (pk : MetricPoint.t) :
  scanBack cond points n = Some pk ->
  exists k, (k < n)%nat /\ points !! k = Some pk /\ cond pk = true
            /\ forall k' pk', (k < k' < n)%nat -> points !! k' = Some pk' -> cond pk' = false.
Proof.
  induction n as [|n IH]; simpl; [done|].
  destruct (points !! n) as [pn|] eqn:Hn; [|done].
  destruct (cond pn) eqn:Hc.
  - intros [= <-]. exists n. repeat split; try done; try lia.
  - intros H. destruct (IH H) as (k & Hk & Hl & Hck & Hbetween).
    exists k. repeat split; try done; try lia.
    intros k' pk' Hk' Hl'. destruct (decide (k' = n)) as [->|Hne].
    + by simplify_eq.
    + apply (Hbetween k'); [lia|done].
Qed.

Lemma scanBack_None cond (points : list MetricPoint.t) (n : nat) :
  (n <= length points)%nat ->
  scanBack cond points n = None ->
  forall k pk, (k < n)%nat -> points !! k = Some pk -> cond pk = false.
Proof.
  induction n as [|n IH]; simpl; intros Hn H k pk Hk Hl; [lia|].
  destruct (points !! n) as [pn|] eqn:Hpn.
  - destruct (cond pn) eqn:Hc; [done|].
    destruct (decide (k = n)) as [->|Hne]; [by simplify_eq|].
    apply (IH ltac:(lia) H k); [lia|done].
  - apply lookup_ge_None in Hpn. lia.
Qed.

Lemma ascending_inj (points : list MetricPoint.t) (i j : nat) (pi pj : MetricPoint.t) :
  ascending points -> points !! i = Some pi -> points !! j = Some pj ->
  MetricPoint.Timestamp pi = MetricPoint.Timestamp pj -> i = j.
Proof.
  intros Hasc Hi Hj Heq.
  destruct (lt_eq_lt_dec i j) as [[Hlt | ->] | Hgt]; [|done|].
  - pose proof (Hasc i j pi pj Hlt Hi Hj). lia.
  - pose proof (Hasc j i pj pi Hgt Hj Hi). lia.
Qed.

Lemma ascending_le (points : list MetricPoint.t) (i j : nat) (pi pj : MetricPoint.t) :
  ascending points -> (i <= j)%nat -> points !! i = Some pi -> points !! j = Some pj ->
  MetricPoint.Timestamp pi <= MetricPoint.Timestamp pj.
Proof.
  intros Hasc Hle Hi Hj.
  destruct (decide (i = j)) as [->|Hne].
  - simplify_eq. lia.
  - pose proof (Hasc i j pi pj ltac:(lia) Hi Hj). lia.
Qed.

Lemma ratePoint_Timestamp points rangeDuration j point out :
  ratePoint points rangeDuration j point = Some out ->
  MetricPoint.Timestamp out = MetricPoint.Timestamp point.
Proof.
  unfold ratePoint. destruct j; [done|].
  destruct (scanBack _ _ _); [|done]. by intros [= <-].
Qed.

Lemma increasePoint_Timestamp points rangeDuration j point out :
  increasePoint points rangeDuration j point = Some out ->
  MetricPoint.Timestamp out = MetricPoint.Timestamp point.
Proof.
  unfold increasePoint. destruct (scanBack _ _ _); [|done]. by intros [= <-].
Qed.

(** In a series in ascending order, the output point that carries the time of
    the point at index [j] is the one appended by iteration [j]. *)
Lemma pointsLoop_at body (points : list MetricPoint.t) (j : nat)
    (point out : MetricPoint.t) :
  (forall j' point' out', body j' point' = Some out' ->
     MetricPoint.Timestamp out' = MetricPoint.Timestamp point') ->
  ascending points -> points !! j = Some point ->
  (out ∈ pointsLoop body points
   /\ MetricPoint.Timestamp out = MetricPoint.Timestamp point)
  <-> body j point = Some out.
Proof.
  intros Hts Hasc Hj. rewrite elem_of_pointsLoop. split.
  - intros [(j' & point' & Hj' & Hb) Heq].
    pose proof (Hts _ _ _ Hb) as Hout.
    assert (j' = j) as -> by (eapply ascending_inj; eauto; lia).
    by simplify_eq.
  - intros Hb. split; [eauto|]. by eapply Hts.
Qed.

(* ===================================================================== *)
(** * C4: rate *)
(* ===================================================================== *)

(** C4, as the claim states it, fails on the lower end of the window.  With
    the points (t=0, 10) and (t=10s, 30) and a range of 10s, the earlier point
    lies in the half-open window [10s - 10s, 10s), yet [applyRate] emits no
    point: the scan keeps a point only when it is strictly after the start of
    the window. *)
Lemma rate_closed_window_counterexample :
  (exists k pk,
     (k < 1)%nat /\ rate_example_points !! k = Some pk
     /\ time.Unix 10 0 - 10 * time.Second <= MetricPoint.Timestamp pk
        < time.Unix 10 0)
  /\ applyRate [rate_example] (10 * time.Second)
     = Ok [MetricSeries.mk "http_requests_total" (svc "api") []].
Proof.
  split.
  - exists 0%nat, (MetricPoint.mk (time.Unix 0 0) 10%float (svc "api")).
    split; [lia|]. split; [reflexivity|].
    unfold time.Unix, time.Second. simpl. lia.
  - vm_compute. reflexivity.
Qed.

(** C4 (amended): [applyRate] returns one series per input series, in order.
    For a series whose points are in strictly ascending order of time, a range
    other than the least int64, and a point at index j > 0, it emits a point
    at timestamp_j exactly when some earlier point has its timestamp in the
    window (timestamp_j - rangeDuration, timestamp_j), open at both ends; the
    emitted value is (value_j - value_prev) / elapsedSeconds against the
    nearest such earlier point, and the labels are those of point j.  With the
    points (t=0, 10) and (t=10s, 30), a range of 5s yields no point and a
    range of 15s yields the value 2. *)
Theorem rate_emits_iff_prev_in_open_window :
  (forall (series : list MetricSeries.t) (i : nat) (s : MetricSeries.t)
          (rangeDuration : Z) (j : nat) (point : MetricPoint.t),
     series !! i = Some s ->
     ascending (MetricSeries.Points s) ->
     minInt64 < rangeDuration <= maxInt64 ->
     MetricSeries.Points s !! j = Some point ->
     (0 < j)%nat ->
     exists result out,
       applyRate series rangeDuration = Ok result
       /\ length result = length series
       /\ result !! i
          = Some (MetricSeries.mk (MetricSeries.MetricName s)
                                  (MetricSeries.Labels s) out)
       /\ ((exists o, o ∈ out
                      /\ MetricPoint.Timestamp o = MetricPoint.Timestamp point)
           <-> (exists k pk,
                  (k < j)%nat /\ MetricSeries.Points s !! k = Some pk
                  /\ MetricPoint.Timestamp point - rangeDuration
                     < MetricPoint.Timestamp pk < MetricPoint.Timestamp point))
       /\ (forall o,
             o ∈ out -> MetricPoint.Timestamp o = MetricPoint.Timestamp point ->
             exists k prev,
               (k < j)%nat /\ MetricSeries.Points s !! k = Some prev
               /\ MetricPoint.Timestamp point - rangeDuration
                  < MetricPoint.Timestamp prev < MetricPoint.Timestamp point
               /\ (forall k' pk',
                     (k' < j)%nat -> MetricSeries.Points s !! k' = Some pk' ->
                     MetricPoint.Timestamp point - rangeDuration
                       < MetricPoint.Timestamp pk' ->
                     MetricPoint.Timestamp pk' <= MetricPoint.Timestamp prev)
               /\ o = MetricPoint.mk
                        (MetricPoint.Timestamp point)
                        (PrimFloat.div
                           (PrimFloat.sub (MetricPoint.Value point)
                                          (MetricPoint.Value prev))
                           (time.Seconds
                              (time.Sub (MetricPoint.Timestamp point)
                                        (MetricPoint.Timestamp prev))))
                        (MetricPoint.Labels point)))
  /\ applyRate [rate_example] (5 * time.Second)
     = Ok [MetricSeries.mk "http_requests_total" (svc "api") []]
  /\ applyRate [rate_example] (15 * time.Second)
     = Ok [MetricSeries.mk "http_requests_total" (svc "api")
             [MetricPoint.mk (time.Unix 10 0) 2%float (svc "api")]].
Proof.
  split; [|split; vm_compute; reflexivity].
  intros series i s rangeDuration j point Hs Hasc Hrange Hj Hpos.
  set (points := MetricSeries.Points s) in *.
  eexists _, (pointsLoop (ratePoint points rangeDuration) points).
  split; [reflexivity|]. split; [apply length_map|].
  split; [by rewrite map_lookup, Hs|].
  pose proof (fun o =>
                pointsLoop_at (ratePoint points rangeDuration) points j point o
                  (ratePoint_Timestamp points rangeDuration) Hasc Hj) as Hat.
  assert (Hscan : forall o,
    ratePoint points rangeDuration j point = Some o ->
    exists k prev,
      (k < j)%nat /\ points !! k = Some prev
      /\ MetricPoint.Timestamp point - rangeDuration
         < MetricPoint.Timestamp prev < MetricPoint.Timestamp point
      /\ (forall k' pk',
            (k' < j)%nat -> points !! k' = Some pk' ->
            MetricPoint.Timestamp point - rangeDuration < MetricPoint.Timestamp pk' ->
            MetricPoint.Timestamp pk' <= MetricPoint.Timestamp prev)
      /\ o = MetricPoint.mk
               (MetricPoint.Timestamp point)
               (PrimFloat.div
                  (PrimFloat.sub (MetricPoint.Value point) (MetricPoint.Value prev))
                  (time.Seconds
                     (time.Sub (MetricPoint.Timestamp point)
                               (MetricPoint.Timestamp prev))))
               (MetricPoint.Labels point)).
  { intros o. unfold ratePoint. destruct j as [|j']; [lia|].
    destruct (scanBack _ points (S j')) as [prev|] eqn:Hsc; [|done].
    intros [= <-].
    apply scanBack_Some in Hsc as (k & Hk & Hlk & Hcond & Hbetween).
    unfold time.After, time.Add in Hcond. rewrite wrap64_neg in Hcond by done.
    apply Z.ltb_lt in Hcond.
    exists k, prev. repeat split; try done; try lia.
    - apply (Hasc k (S j')); [lia|done..].
    - intros k' pk' Hk' Hlk' Hwin.
      destruct (decide (k' <= k)%nat) as [Hle|Hgt].
      + by eapply ascending_le.
      + specialize (Hbetween k' pk' ltac:(lia) Hlk').
        unfold time.After, time.Add in Hbetween.
        rewrite wrap64_neg in Hbetween by done.
        apply Z.ltb_ge in Hbetween. lia. }
  split; [split|].
  - intros (o & Ho & Hts).
    destruct (Hscan o) as (k & prev & ? & ? & ? & _); [|by eauto].
    by apply Hat.
  - intros (k & pk & Hk & Hlk & Hwin).
    destruct (ratePoint points rangeDuration j point) as [o|] eqn:Hr.
    + exists o. by apply Hat.
    + exfalso. unfold ratePoint in Hr. destruct j as [|j']; [lia|].
      destruct (scanBack _ points (S j')) as [prev|] eqn:Hsc; [done|].
      eapply scanBack_None in Hsc; [| |exact Hk|exact Hlk].
      * unfold time.After, time.Add in Hsc. rewrite wrap64_neg in Hsc by done.
        apply Z.ltb_ge in Hsc. lia.
      * apply lookup_lt_Some in Hj. lia.
  - intros o Ho Hts. apply Hscan. by apply Hat.
Qed.

Lemma rate_example_ascending : ascending rate_example_points.
Proof.
  intros i j pi pj Hlt Hi Hj.
  destruct i as [|[|i]], j as [|[|j]]; simplify_eq/=; try lia.
  unfold time.Unix, time.Second. simpl. lia.
Defined.

Lemma rate_emits_witness :
  ascending rate_example_points
  /\ exists o,
       o ∈ pointsLoop (ratePoint rate_example_points (15 * time.Second))
                      rate_example_points
       /\ MetricPoint.Timestamp o = time.Unix 10 0.
Proof.
  split; [exact rate_example_ascending|].
  destruct (proj1 rate_emits_iff_prev_in_open_window [rate_example] 0%nat
              rate_example (15 * time.Second) 1%nat
              (MetricPoint.mk (time.Unix 10 0) 30%float (svc "api")))
    as (result & out & Heq & _ & Hout & Hiff & _).
  - reflexivity.
  - exact rate_example_ascending.
  - unfold minInt64, maxInt64, time.Second. lia.
  - reflexivity.
  - lia.
  - injection Heq as <-. injection Hout as <-. apply Hiff.
    exists 0%nat, (MetricPoint.mk (time.Unix 0 0) 10%float (svc "api")).
    split; [lia|]. split; [reflexivity|].
    unfold time.Unix, time.Second. simpl. lia.
Defined.

(* ===================================================================== *)
(** * C5: increase *)
(* ===================================================================== *)

Lemma atOrBefore_true (t u : Z) :
  time.Before t u || time.Equal t u = true <-> t <= u.
Proof.
  unfold time.Before, time.Equal.
  rewrite orb_true_iff, Z.ltb_lt, Z.eqb_eq. lia.
Qed.

Lemma atOrBefore_false (t u : Z) :
  time.Before t u || time.Equal t u = false <-> u < t.
Proof.
  unfold time.Before, time.Equal.
  rewrite orb_false_iff, Z.ltb_ge, Z.eqb_neq. lia.
Qed.

(** C5, as the claim states it, fails.  With the points (t=0, 1), (t=5s, 2)
    and (t=20s, 10) and a range of 10s, the earliest point at or before
    20s - 10s is the one at t=0, so the claim asks for 10 - 1 at t=20s;
    [applyIncrease] scans backward from the point itself and stops at the
    point at t=5s, and emits 10 - 2. *)
Lemma increase_earliest_counterexample :
  (exists e,
     e ∈ increase_example_points
     /\ MetricPoint.Timestamp e <= time.Unix 20 0 - 10 * time.Second
     /\ (forall pk,
           pk ∈ increase_example_points ->
           MetricPoint.Timestamp pk <= time.Unix 20 0 - 10 * time.Second ->
           MetricPoint.Timestamp e <= MetricPoint.Timestamp pk)
     /\ MetricPoint.Value e = 1%float)
  /\ applyIncrease [increase_example] (10 * time.Second)
     = Ok [MetricSeries.mk "http_requests_total" (svc "api")
             [MetricPoint.mk (time.Unix 20 0) 8%float (svc "api")]]
  /\ PrimFloat.sub 10 1 <> 8%float.
Proof.
  split; [|split].
  - exists (MetricPoint.mk (time.Unix 0 0) 1%float (svc "api")).
    split; [apply list_elem_of_here|].
    split; [unfold time.Unix, time.Second; simpl; lia|].
    split; [|reflexivity].
    intros pk Hin _. unfold increase_example_points in Hin.
    repeat (apply elem_of_cons in Hin as [->|Hin]);
      try (unfold time.Unix, time.Second; simpl; lia).
    by apply elem_of_nil in Hin.
  - vm_compute. reflexivity.
  - intros H. apply (f_equal (fun x => PrimFloat.eqb x 8)) in H.
    vm_compute in H. discriminate.
Qed.

(** C5 (amended): [applyIncrease] returns one series per input series, in
    order.  For a series whose points are in strictly ascending order of
    time, a range that is not negative and a point at index j, it emits at
    timestamp_j the value value_j minus the value of the latest point of the
    series at or before timestamp_j - rangeDuration (the nearest one to the
    start of the window), and emits no point at timestamp_j when no point of
    the series lies at or before that instant. *)
Theorem increase_uses_latest_point_at_or_before_start :
  forall (series : list MetricSeries.t) (i : nat) (s : MetricSeries.t)
         (rangeDuration : Z) (j : nat) (point : MetricPoint.t),
    series !! i = Some s ->
    ascending (MetricSeries.Points s) ->
    0 <= rangeDuration <= maxInt64 ->
    MetricSeries.Points s !! j = Some point ->
    exists result out,
      applyIncrease series rangeDuration = Ok result
      /\ length result = length series
      /\ result !! i
         = Some (MetricSeries.mk (MetricSeries.MetricName s)
                                 (MetricSeries.Labels s) out)
      /\ ((exists o, o ∈ out
                     /\ MetricPoint.Timestamp o = MetricPoint.Timestamp point)
          <-> (exists pk,
                 pk ∈ MetricSeries.Points s
                 /\ MetricPoint.Timestamp pk
                    <= MetricPoint.Timestamp point - rangeDuration))
      /\ (forall o,
            o ∈ out -> MetricPoint.Timestamp o = MetricPoint.Timestamp point ->
            exists start,
              start ∈ MetricSeries.Points s
              /\ MetricPoint.Timestamp start
                 <= MetricPoint.Timestamp point - rangeDuration
              /\ (forall pk,
                    pk ∈ MetricSeries.Points s ->
                    MetricPoint.Timestamp pk
                      <= MetricPoint.Timestamp point - rangeDuration ->
                    MetricPoint.Timestamp pk <= MetricPoint.Timestamp start)
              /\ o = MetricPoint.mk
                       (MetricPoint.Timestamp point)
                       (PrimFloat.sub (MetricPoint.Value point)
                                      (MetricPoint.Value start))
                       (MetricPoint.Labels point)).
Proof.
  intros series i s rangeDuration j point Hs Hasc Hrange Hj.
  set (points := MetricSeries.Points s) in *.
  eexists _, (pointsLoop (increasePoint points rangeDuration) points).
  split; [reflexivity|]. split; [apply length_map|].
  split; [by rewrite map_lookup, Hs|].
  pose proof (fun o =>
                pointsLoop_at (increasePoint points rangeDuration) points j point o
                  (increasePoint_Timestamp points rangeDuration) Hasc Hj) as Hat.
  assert (Hneg : wrap64 (- rangeDuration) = - rangeDuration)
    by (apply wrap64_neg; unfold minInt64; lia).
  (* a point at or before the start of the window sits at an index <= j *)
  assert (Hidx : forall k pk,
            points !! k = Some pk ->
            MetricPoint.Timestamp pk <= MetricPoint.Timestamp point - rangeDuration ->
            (k < S j)%nat).
  { intros k pk Hlk Hle. destruct (decide (k < S j)%nat); [done|].
    pose proof (Hasc j k point pk ltac:(lia) Hj Hlk). lia. }
  assert (Hscan : forall o,
    increasePoint points rangeDuration j point = Some o ->
    exists start,
      start ∈ points
      /\ MetricPoint.Timestamp start <= MetricPoint.Timestamp point - rangeDuration
      /\ (forall pk,
            pk ∈ points ->
            MetricPoint.Timestamp pk <= MetricPoint.Timestamp point - rangeDuration ->
            MetricPoint.Timestamp pk <= MetricPoint.Timestamp start)
      /\ o = MetricPoint.mk
               (MetricPoint.Timestamp point)
               (PrimFloat.sub (MetricPoint.Value point) (MetricPoint.Value start))
               (MetricPoint.Labels point)).
  { intros o. unfold increasePoint.
    destruct (scanBack _ points (S j)) as [start|] eqn:Hsc; [|done].
    intros [= <-].
    apply scanBack_Some in Hsc as (k & Hk & Hlk & Hcond & Hbetween).
    unfold time.Add in Hcond. rewrite Hneg in Hcond.
    apply atOrBefore_true in Hcond.
    exists start. split; [by eapply list_elem_of_lookup_2|].
    split; [lia|]. split; [|done].
    intros pk [k' Hlk']%list_elem_of_lookup_1 Hle.
    destruct (decide (k' <= k)%nat) as [Hle'|Hgt].
    - by eapply ascending_le.
    - pose proof (Hidx _ _ Hlk' Hle).
      specialize (Hbetween k' pk ltac:(lia) Hlk').
      unfold time.Add in Hbetween. rewrite Hneg in Hbetween.
      apply atOrBefore_false in Hbetween. lia. }
  split; [split|].
  - intros (o & Ho & Hts).
    destruct (Hscan o) as (start & ? & ? & _); [by apply Hat|by eauto].
  - intros (pk & [k Hlk]%list_elem_of_lookup_1 & Hle).
    destruct (increasePoint points rangeDuration j point) as [o|] eqn:Hr.
    + exists o. by apply Hat.
    + exfalso. unfold increasePoint in Hr.
      destruct (scanBack _ points (S j)) as [start|] eqn:Hsc; [done|].
      eapply scanBack_None in Hsc; [| |exact (Hidx _ _ Hlk Hle)|exact Hlk].
      * unfold time.Add in Hsc. rewrite Hneg in Hsc.
        apply atOrBefore_false in Hsc. lia.
      * apply lookup_lt_Some in Hj. lia.
  - intros o Ho Hts. apply Hscan. by apply Hat.
Qed.

Lemma increase_example_ascending : ascending increase_example_points.
Proof.
  intros i j pi pj Hlt Hi Hj.
  destruct i as [|[|[|i]]], j as [|[|[|j]]]; simplify_eq/=; try lia;
    unfold time.Unix, time.Second; simpl; lia.
Defined.

Lemma increase_latest_witness :
  ascending increase_example_points
  /\ exists o,
       o ∈ pointsLoop (increasePoint increase_example_points (10 * time.Second))
                      increase_example_points
       /\ MetricPoint.Timestamp o = time.Unix 20 0.
Proof.
  split; [exact increase_example_ascending|].
  destruct (increase_uses_latest_point_at_or_before_start [increase_example]
              0%nat increase_example (10 * time.Second) 2%nat
              (MetricPoint.mk (time.Unix 20 0) 10%float (svc "api")))
    as (result & out & Heq & _ & Hout & Hiff & _).
  - reflexivity.
  - exact increase_example_ascending.
  - unfold maxInt64, time.Second. lia.
  - reflexivity.
  - injection Heq as <-. injection Hout as <-. apply Hiff.
    exists (MetricPoint.mk (time.Unix 5 0) 2%float (svc "api")).
    split; [apply list_elem_of_further, list_elem_of_here|].
    unfold time.Unix, time.Second. simpl. lia.
Defined.

(* ===================================================================== *)
(** * C6: sum *)
(* ===================================================================== *)

Lemma elem_of_timestampMap (series : list MetricSeries.t) (ts : Z) :
  ts ∈ timestampMap series
  <-> exists s p, s ∈ series /\ p ∈ MetricSeries.Points s
                  /\ MetricPoint.Timestamp p = ts.
Proof.
  unfold timestampMap.
  assert (Hin : forall (points : list MetricPoint.t) (m : gset Z),
            ts ∈ fold_left (fun m point => {[ MetricPoint.Timestamp point ]} ∪ m)
                           points m
            <-> ts ∈ m \/ exists p, p ∈ points /\ MetricPoint.Timestamp p = ts).
  { induction points as [|p points IH]; intros m; simpl.
    - split; [auto|]. intros [?|(p & Hp & _)]; [done|]. by apply elem_of_nil in Hp.
    - rewrite IH, elem_of_union, elem_of_singleton. split.
      + intros [[->|?]|(p' & ? & ?)]; eauto using list_elem_of_here, list_elem_of_further.
      + intros [?|(p' & [->|?]%elem_of_cons & ?)]; eauto. }
  enough (Hout : forall (l : list MetricSeries.t) (m : gset Z),
            ts ∈ fold_left
                   (fun m s =>
                      fold_left
                        (fun m point => {[ MetricPoint.Timestamp point ]} ∪ m)
                        (MetricSeries.Points s) m) l m
            <-> ts ∈ m \/ exists s p, s ∈ l /\ p ∈ MetricSeries.Points s
                                      /\ MetricPoint.Timestamp p = ts).
  { rewrite Hout. split; [|by auto]. intros [H|H]; [|done].
    by apply not_elem_of_empty in H. }
  induction l as [|s l IH]; intros m; simpl.
  - split; [auto|]. intros [?|(s & p & Hs & _)]; [done|]. by apply elem_of_nil in Hs.
  - rewrite IH, Hin. split.
    + intros [[?|(p & ? & ?)]|(s' & p & ? & ? & ?)];
        eauto 8 using list_elem_of_here, list_elem_of_further.
    + intros [?|(s' & p & [->|?]%elem_of_cons & ? & ?)]; eauto 8.
Qed.

Lemma StronglySorted_le_lt (l : list Z) :
  StronglySorted Z.le l -> NoDup l -> StronglySorted Z.lt l.
Proof.
  induction 1 as [|x l Hs IH Hall]; intros Hnd; [constructor|].
  apply NoDup_cons in Hnd as [Hx Hnd]. constructor; [auto|].
  rewrite Forall_forall in Hall |- *. intros y Hy.
  pose proof (Hall y Hy). assert (x <> y) by (intros ->; done). lia.
Qed.

Lemma sortedTimestamps_spec (series : list MetricSeries.t) :
  StronglySorted Z.lt (sortedTimestamps series)
  /\ forall ts, ts ∈ sortedTimestamps series <-> ts ∈ timestampMap series.
Proof.
  unfold sortedTimestamps. split.
  - apply StronglySorted_le_lt; [apply (StronglySorted_merge_sort Z.le)|].
    rewrite merge_sort_Permutation. apply NoDup_elements.
  - intros ts. rewrite merge_sort_Permutation. apply elem_of_elements.
Qed.

Lemma pointAt_is_Some (ts : Z) (s : MetricSeries.t) :
  is_Some (pointAt ts s)
  <-> exists p, p ∈ MetricSeries.Points s /\ MetricPoint.Timestamp p = ts.
Proof.
  unfold pointAt, time.Equal. split.
  - intros [p Hp]. apply find_some in Hp as [Hin Heq].
    exists p. split; [by apply list_elem_of_In|by apply Z.eqb_eq].
  - intros (p & Hin & Heq).
    destruct (find _ _) as [q|] eqn:Hf; [by eexists|].
    apply list_elem_of_In in Hin.
    pose proof (find_none _ _ Hf p Hin) as Hne. simpl in Hne.
    apply Z.eqb_neq in Hne. done.
Qed.

(** [pointAt ts s] is the first point of [s] stamped [ts]: a point of the
    series, with that timestamp, before which no point has it. *)
Lemma pointAt_first (ts : Z) (s : MetricSeries.t) (p : MetricPoint.t) :
  pointAt ts s = Some p
  <-> exists before after,
        MetricSeries.Points s = before ++ p :: after
        /\ MetricPoint.Timestamp p = ts
        /\ Forall (fun q => MetricPoint.Timestamp q <> ts) before.
Proof.
  unfold pointAt, time.Equal.
  induction (MetricSeries.Points s) as [|x points IH]; simpl.
  - split; [done|]. intros (before & after & Heq & _). by destruct before.
  - destruct (MetricPoint.Timestamp x =? ts) eqn:Hx.
    + apply Z.eqb_eq in Hx. split.
      * intros [= <-]. exists [], points. by repeat split.
      * intros ([|q before] & after & Heq & Hts & Hbefore).
        -- by injection Heq as ->.
        -- injection Heq as <- _. by apply Forall_cons in Hbefore as [? _].
    + apply Z.eqb_neq in Hx. rewrite IH. split.
      * intros (before & after & -> & Hts & Hbefore).
        exists (x :: before), after. split; [done|]. split; [done|].
        by constructor.
      * intros ([|q before] & after & Heq & Hts & Hbefore).
        -- injection Heq as -> _. done.
        -- injection Heq as <- ->. apply Forall_cons in Hbefore as [_ Hbefore].
           by exists before, after.
Qed.

(** The running sum of [applySum] adds, in the order of the input, the value
    of the first point at [ts] of every series that has one; the other series
    are skipped. *)
Lemma sumAt_contributions (series : list MetricSeries.t) (ts : Z) :
  sumAt series ts
  = fold_left PrimFloat.add
      (omap (fun s => MetricPoint.Value <$> pointAt ts s) series) 0%float.
Proof.
  unfold sumAt. generalize 0%float.
  induction series as [|s series IH]; intros acc; simpl; [done|].
  rewrite IH. by destruct (pointAt ts s).
Qed.

(** C6: for a non-empty list of series, [applySum] returns exactly one series,
    with an empty label set; the timestamps of its points are the distinct
    timestamps of all input points in ascending order; the value at each is
    the sum, started at 0 and taken in input order, of the values of exactly
    the series that have a point at that timestamp (a series without one adds
    nothing); every output point has an empty label set.  The point that a
    series contributes at a timestamp, [pointAt], is the first point of the
    series that has this timestamp: it lies in the series, it is stamped so,
    and no point before it is.  Two series with one point each at the same
    instant, of values 3 and 4, give one point of value 7 at that instant. *)
Theorem sum_is_one_series_over_the_union_of_timestamps :
  (forall (s0 : MetricSeries.t) (rest : list MetricSeries.t),
     exists points,
       applySum (s0 :: rest)
       = Ok [MetricSeries.mk (MetricSeries.MetricName s0) ∅ points]
       /\ StronglySorted Z.lt (MetricPoint.Timestamp <$> points)
       /\ (forall ts,
             ts ∈ MetricPoint.Timestamp <$> points
             <-> exists s p, s ∈ s0 :: rest /\ p ∈ MetricSeries.Points s
                             /\ MetricPoint.Timestamp p = ts)
       /\ (forall point,
             point ∈ points ->
             MetricPoint.Labels point = ∅
             /\ MetricPoint.Value point
                = fold_left PrimFloat.add
                    (omap (fun s =>
                             MetricPoint.Value
                               <$> pointAt (MetricPoint.Timestamp point) s)
                          (s0 :: rest))
                    0%float)
       /\ (forall ts s,
             is_Some (pointAt ts s)
             <-> exists p, p ∈ MetricSeries.Points s
                           /\ MetricPoint.Timestamp p = ts)
       /\ (forall ts s p,
             pointAt ts s = Some p
             <-> exists before after,
                   MetricSeries.Points s = before ++ p :: after
                   /\ MetricPoint.Timestamp p = ts
                   /\ Forall (fun q => MetricPoint.Timestamp q <> ts) before))
  /\ applySum sum_example
     = Ok [MetricSeries.mk "m" ∅ [MetricPoint.mk (time.Unix 100 0) 7%float ∅]].
Proof.
  split; [|vm_compute; reflexivity].
  intros s0 rest. set (series := s0 :: rest).
  destruct (sortedTimestamps_spec series) as [Hsorted Hmem].
  exists (map (fun ts => MetricPoint.mk ts (sumAt series ts) ∅)
              (sortedTimestamps series)).
  assert (Hts : MetricPoint.Timestamp
                  <$> map (fun ts => MetricPoint.mk ts (sumAt series ts) ∅)
                          (sortedTimestamps series)
                = sortedTimestamps series).
  { rewrite <- list_fmap_compose. apply list_fmap_id. }
  split; [done|]. rewrite Hts. split; [done|]. split; [|split; [|split]].
  - intros ts. by rewrite Hmem, elem_of_timestampMap.
  - intros point (ts & -> & _)%list_elem_of_fmap. simpl.
    split; [done|]. apply sumAt_contributions.
  - apply pointAt_is_Some.
  - apply pointAt_first.
Qed.

(* ===================================================================== *)
(** * C9 and C10: dispatch and the result of Evaluate *)
(* ===================================================================== *)

Lemma applyFunction_unsupported now series function rangeDuration :
  function ∉ ["rate"; "increase"; "sum"; "avg"; "count"; "min"; "max"] ->
  applyFunction now series function rangeDuration
  = Err (Errorf ("unsupported function: " +:+ function)).
Proof.
  intros Hn. unfold applyFunction.
  repeat (case_decide; [subst; exfalso; apply Hn; elem_of_literal|]).
  reflexivity.
Qed.

Lemma applyAggregation_unsupported now series agg :
  Aggregation.Operation agg ∉ ["sum"; "avg"; "count"; "min"; "max"] ->
  applyAggregation now series agg
  = Err (Errorf ("unsupported aggregation: " +:+ Aggregation.Operation agg)).
Proof.
  destruct agg as [op by_ without]. simpl.
  intros Hn. unfold applyAggregation. simpl.
  repeat (case_decide; [subst; exfalso; apply Hn; elem_of_literal|]).
  reflexivity.
Qed.

Lemma applyFunction_supported now series function rangeDuration :
  function ∈ ["rate"; "increase"; "sum"; "avg"; "count"; "min"; "max"] ->
  exists out, applyFunction now series function rangeDuration = Ok out.
Proof.
  intros Hin. unfold applyFunction.
  repeat (case_decide;
          [ unfold applyRate, applyIncrease, applySum, applyAvg, applyCount,
              applyMin, applyMax; destruct series; eauto |]).
  exfalso. repeat (apply elem_of_cons in Hin as [?|Hin]; [done|]).
  by apply elem_of_nil in Hin.
Qed.

Lemma applyAggregation_supported now series agg :
  Aggregation.Operation agg ∈ ["sum"; "avg"; "count"; "min"; "max"] ->
  exists out, applyAggregation now series agg = Ok out.
Proof.
  intros Hin. unfold applyAggregation. cbv zeta.
  repeat (case_decide;
          [ unfold applySum, applyAvg, applyCount, applyMin, applyMax;
            destruct series; eauto |]).
  exfalso. repeat (apply elem_of_cons in Hin as [?|Hin]; [done|]).
  by apply elem_of_nil in Hin.
Qed.

(** C9, as the claim states it, fails for the empty name, which lies outside
    both lists.  [Parse] reads "(up[5m])" as a call of the function with the
    empty name, and [Evaluate] takes the empty name for the absence of a
    function: it returns the fetched series untouched and no error. *)
Lemma empty_function_name_counterexample :
  (EmptyString ∉ ["rate"; "increase"; "sum"; "avg"; "count"; "min"; "max"])
  /\ Parse (fun _ => Err (LibError "time: invalid duration")) "(up[5m])"
     = Ok (Query.mk "up" ∅ EmptyString (5 * time.Minute) 0 None)
  /\ getMetricSeries (fun _ _ => Ok None) (fun _ _ _ _ => Ok [])
       (DB.mk [MetricRow.mk 5 "up" 1%float "{}" "api"] [] false)
       (Query.mk "up" ∅ EmptyString (5 * time.Minute) 0 None)
       (time.Unix 0 0) (time.Unix 10 0)
     = Ok [MetricSeries.mk "up" (svc "api")
             [MetricPoint.mk (time.Unix 5 0) 1%float (svc "api")]]
  /\ Evaluate (fun _ _ => Ok None) (fun _ _ _ _ => Ok [])
       (DB.mk [MetricRow.mk 5 "up" 1%float "{}" "api"] [] false) 0
       (Query.mk "up" ∅ EmptyString (5 * time.Minute) 0 None)
       (time.Unix 0 0) (time.Unix 10 0)
     = Ok (QueryResult.mk
             [MetricSeries.mk "up" (svc "api")
                [MetricPoint.mk (time.Unix 5 0) 1%float (svc "api")]]
             "vector").
Proof.
  split; [not_elem_of_literal|].
  split; [vm_compute; reflexivity|].
  split; vm_compute; reflexivity.
Qed.

(** C9 (amended): a function name outside rate, increase, sum, avg, count,
    min, max makes [applyFunction] return the error
    "unsupported function: <name>", and an aggregation operation outside sum,
    avg, count, min, max makes [applyAggregation] return
    "unsupported aggregation: <name>"; neither returns any series.
    [Evaluate] on a query that names such a function, the name not being
    empty, never returns a result: it ends in an error, and when the fetch
    has succeeded that error is the one of [applyFunction], wrapped.
    Likewise [Evaluate] on a query that carries such an aggregation, its
    function being absent or supported, never returns a result, and when
    the fetch has succeeded its error is the wrapped error of
    [applyAggregation]. *)
Theorem unsupported_names_are_errors :
  forall (now : Z) (series : list MetricSeries.t) (function : string)
         (rangeDuration : Z) (agg : Aggregation.t),
    function ∉ ["rate"; "increase"; "sum"; "avg"; "count"; "min"; "max"] ->
    Aggregation.Operation agg ∉ ["sum"; "avg"; "count"; "min"; "max"] ->
    applyFunction now series function rangeDuration
    = Err (Errorf ("unsupported function: " +:+ function))
    /\ applyAggregation now series agg
       = Err (Errorf ("unsupported aggregation: " +:+ Aggregation.Operation agg))
    /\ (forall JSON_EXTRACT otherStatement db query startTime endTime,
          Query.Function query = function -> function <> EmptyString ->
          (exists e,
             Evaluate JSON_EXTRACT otherStatement db now query startTime endTime
             = Err e)
          /\ (forall fetched,
                getMetricSeries JSON_EXTRACT otherStatement db query
                  startTime endTime = Ok fetched ->
                Evaluate JSON_EXTRACT otherStatement db now query
                  startTime endTime
                = Err (Wrapf ("failed to apply function " +:+ function)
                             (Errorf ("unsupported function: " +:+ function)))))
    /\ (forall JSON_EXTRACT otherStatement db query startTime endTime,
          Query.Function query
            ∈ [EmptyString; "rate"; "increase"; "sum"; "avg"; "count"; "min"; "max"] ->
          Query.Aggregation query = Some agg ->
          (exists e,
             Evaluate JSON_EXTRACT otherStatement db now query startTime endTime
             = Err e)
          /\ (forall fetched,
                getMetricSeries JSON_EXTRACT otherStatement db query
                  startTime endTime = Ok fetched ->
                Evaluate JSON_EXTRACT otherStatement db now query
                  startTime endTime
                = Err (Wrapf "failed to apply aggregation"
                             (Errorf ("unsupported aggregation: "
                                      +:+ Aggregation.Operation agg))))).
Proof.
  intros now series function rangeDuration agg Hf Ha.
  split; [by apply applyFunction_unsupported|].
  split; [by apply applyAggregation_unsupported|].
  split.
  - intros JSON_EXTRACT otherStatement db query startTime endTime Hq Hne.
    assert (Hfetched : forall fetched,
              getMetricSeries JSON_EXTRACT otherStatement db query
                startTime endTime = Ok fetched ->
              Evaluate JSON_EXTRACT otherStatement db now query
                startTime endTime
              = Err (Wrapf ("failed to apply function " +:+ function)
                           (Errorf ("unsupported function: " +:+ function)))).
    { intros fetched Hfetch. unfold Evaluate. rewrite Hfetch. simpl. rewrite Hq.
      rewrite decide_False by done.
      by rewrite applyFunction_unsupported. }
    split; [|exact Hfetched].
    destruct (getMetricSeries JSON_EXTRACT otherStatement db query
                startTime endTime) as [fetched|e] eqn:Hfetch.
    + rewrite (Hfetched fetched eq_refl). eauto.
    + unfold Evaluate. rewrite Hfetch. destruct e; simpl; eauto.
  - intros JSON_EXTRACT otherStatement db query startTime endTime Hq Hagg.
    assert (Hfetched : forall fetched,
              getMetricSeries JSON_EXTRACT otherStatement db query
                startTime endTime = Ok fetched ->
              Evaluate JSON_EXTRACT otherStatement db now query
                startTime endTime
              = Err (Wrapf "failed to apply aggregation"
                           (Errorf ("unsupported aggregation: "
                                    +:+ Aggregation.Operation agg)))).
    { intros fetched Hfetch. unfold Evaluate. rewrite Hfetch, Hagg. simpl.
      case_decide as Hempty.
      + simpl. by rewrite applyAggregation_unsupported.
      + destruct (applyFunction_supported now fetched (Query.Function query)
                    (Query.Range query)) as [out Hout].
        { apply elem_of_cons in Hq as [?|?]; done. }
        rewrite Hout. simpl. by rewrite applyAggregation_unsupported. }
    split; [|exact Hfetched].
    destruct (getMetricSeries JSON_EXTRACT otherStatement db query
                startTime endTime) as [fetched|e] eqn:Hfetch.
    + rewrite (Hfetched fetched eq_refl). eauto.
    + unfold Evaluate. rewrite Hfetch. destruct e; simpl; eauto.
Qed.

Lemma unsupported_names_witness :
  applyFunction 0 [] "bogus" (60 * time.Second)
  = Err (Errorf "unsupported function: bogus")
  /\ applyAggregation 0 [] (Aggregation.mk "median" [] [])
     = Err (Errorf "unsupported aggregation: median")
  /\ Evaluate (fun _ _ => Ok None) (fun _ _ _ _ => Ok []) DB.empty 0
       (Query.mk "up" ∅ "bogus" (60 * time.Second) 0 None)
       (time.Unix 0 0) (time.Unix 10 0)
     = Err (Wrapf "failed to apply function bogus"
                  (Errorf "unsupported function: bogus")).
Proof.
  destruct (unsupported_names_are_errors 0 [] "bogus" (60 * time.Second)
              (Aggregation.mk "median" [] [])) as (Hf & Ha & He & _).
  - not_elem_of_literal.
  - not_elem_of_literal.
  - split; [exact Hf|]. split; [exact Ha|].
    apply (proj2 (He (fun _ _ => Ok None) (fun _ _ _ _ => Ok []) DB.empty
                     (Query.mk "up" ∅ "bogus" (60 * time.Second) 0 None)
                     (time.Unix 0 0) (time.Unix 10 0) eq_refl
                     ltac:(discriminate)) []).
    vm_compute. reflexivity.
Defined.

(** C10: whenever [Evaluate] returns a result, its type is "vector"; and
    whenever the fetch succeeds, a query with no function and a count, min or
    max aggregation does return one. *)
Theorem evaluate_returns_a_vector :
  (forall JSON_EXTRACT otherStatement db now query startTime endTime r,
     Evaluate JSON_EXTRACT otherStatement db now query startTime endTime = Ok r ->
     QueryResult.Type_ r = "vector")
  /\ (forall JSON_EXTRACT otherStatement db now query startTime endTime
             agg fetched,
        getMetricSeries JSON_EXTRACT otherStatement db query startTime endTime
        = Ok fetched ->
        Query.Function query = EmptyString ->
        Query.Aggregation query = Some agg ->
        Aggregation.Operation agg ∈ ["count"; "min"; "max"] ->
        exists series,
          Evaluate JSON_EXTRACT otherStatement db now query startTime endTime
          = Ok (QueryResult.mk series "vector")).
Proof.
  split.
  - intros JSON_EXTRACT otherStatement db now query startTime endTime r.
    unfold Evaluate.
    destruct (wrapErr _ (getMetricSeries _ _ _ _ _ _)) as [fetched|e];
      simpl; [|done].
    destruct (if decide (Query.Function query = EmptyString) then _ else _)
      as [applied|e]; simpl; [|done].
    destruct (match Query.Aggregation query with Some _ => _ | None => _ end)
      as [aggregated|e]; simpl; [|done].
    by intros [= <-].
  - intros JSON_EXTRACT otherStatement db now query startTime endTime agg
           fetched Hfetch Hf Hagg Hop.
    destruct (applyAggregation_supported now fetched agg) as [out Hout].
    { repeat (apply elem_of_cons in Hop as [->|Hop]; [elem_of_literal|]).
      by apply elem_of_nil in Hop. }
    exists out. unfold Evaluate. rewrite Hfetch, Hf, Hagg. simpl.
    by rewrite Hout.
Qed.

Lemma evaluate_vector_witness :
  exists r,
    Evaluate (fun _ _ => Ok None) (fun _ _ _ _ => Ok []) DB.empty 0
      (Query.mk "m" ∅ EmptyString 0 0 (Some (Aggregation.mk "count" [] [])))
      (time.Unix 0 0) (time.Unix 10 0)
    = Ok r
    /\ QueryResult.Type_ r = "vector".
Proof.
  assert (H : Evaluate (fun _ _ => Ok None) (fun _ _ _ _ => Ok []) DB.empty 0
                (Query.mk "m" ∅ EmptyString 0 0 (Some (Aggregation.mk "count" [] [])))
                (time.Unix 0 0) (time.Unix 10 0)
              = Ok (QueryResult.mk
                      [MetricSeries.mk "count" ∅ [MetricPoint.mk 0 0%float ∅]]
                      "vector"))
    by (vm_compute; reflexivity).
  eexists. split; [exact H|].
  exact (proj1 evaluate_returns_a_vector _ _ _ _ _ _ _ _ H).
Defined.

(* ===================================================================== *)
(** * C1 and C3: what the fetch returns *)
(* ===================================================================== *)

(** C1 (the code at the failing input): a metric stamped 1000s after the
    epoch is stored under its nanosecond count, the fetch compares that column
    with the window bounds in seconds, and the record, although inside the
    window [0s, 2000s], is not returned.  A metric stamped 5ns after the epoch
    passes the comparison for the window [0s, 10s], and its point comes back
    stamped 5s. *)
Theorem inserted_metric_is_missed_by_the_fetch :
  forall JSON_EXTRACT otherStatement,
    time.Unix 0 0 <= Metric.Timestamp fetch_example_metric <= time.Unix 2000 0
    /\ (exists db,
          InsertMetric DB.empty fetch_example_metric = Ok db
          /\ MetricRow.timestamp <$> DB.metrics db = [1000000000000]
          /\ getMetricSeries JSON_EXTRACT otherStatement db fetch_example_query
               (time.Unix 0 0) (time.Unix 2000 0)
             = Ok [])
    /\ (exists db,
          InsertMetric DB.empty fetch_example_early = Ok db
          /\ getMetricSeries JSON_EXTRACT otherStatement db fetch_example_query
               (time.Unix 0 0) (time.Unix 10 0)
             = Ok [MetricSeries.mk "m" (svc "svc")
                     [MetricPoint.mk (time.Unix 5 0) 1%float (svc "svc")]]
          /\ time.Unix 5 0 <> Metric.Timestamp fetch_example_early).
Proof.
  intros JSON_EXTRACT otherStatement. split; [|split].
  - unfold fetch_example_metric, time.Unix, time.Second. simpl. lia.
  - eexists. split; [reflexivity|]. split; [reflexivity|].
    vm_compute. reflexivity.
  - eexists. split; [reflexivity|]. split; [vm_compute; reflexivity|].
    unfold fetch_example_early, time.Unix, time.Second. simpl. lia.
Qed.

(** C3 (the code at the failing input): the evaluator never reads the labels
    column; the label set it gives a row is the single entry [service].  Two
    rows of service "api" whose label sets differ (method GET, method POST)
    land in one series, keyed "[service=api]"; two rows with the same label
    set but of two services land in two series. *)
Theorem rows_are_grouped_by_service_name_only :
  forall JSON_EXTRACT otherStatement,
    getMetricSeries JSON_EXTRACT otherStatement (DB.mk group_example_rows [] false)
      fetch_example_query (time.Unix 0 0) (time.Unix 10 0)
    = Ok [MetricSeries.mk "m" (svc "api")
            [MetricPoint.mk (time.Unix 5 0) 1%float (svc "api");
             MetricPoint.mk (time.Unix 6 0) 2%float (svc "api")]]
    /\ createSeriesKey (svc "api") = "[service=api]"
    /\ (exists series,
          getMetricSeries JSON_EXTRACT otherStatement (DB.mk group_example_services [] false)
            fetch_example_query (time.Unix 0 0) (time.Unix 10 0)
          = Ok series
          /\ series ≡ₚ
               [MetricSeries.mk "m" (svc "api")
                  [MetricPoint.mk (time.Unix 5 0) 1%float (svc "api")];
                MetricSeries.mk "m" (svc "web")
                  [MetricPoint.mk (time.Unix 6 0) 2%float (svc "web")]]).
Proof.
  intros JSON_EXTRACT otherStatement. split; [vm_compute; reflexivity|].
  split; [vm_compute; reflexivity|].
  eexists. split; [vm_compute; reflexivity|].
  first [reflexivity | apply perm_swap].
Qed.

(* ===================================================================== *)
(** * C2 and C7: the two adapters *)
(* ===================================================================== *)

(** The JSON form of OTLP writes a nanosecond count as a string of decimal
    digits; [time.Parse] rejects every such string, and the adapter goes on
    with the zero [Time]. *)
Lemma parseOrZero_decimal parseRFC3339Rest (value : string) :
  Forall (fun c => isDigit c = true) (String.list_ascii_of_string value) ->
  parseOrZero parseRFC3339Rest value = time.zero.
Proof.
  intros H. unfold parseOrZero, time_Parse.
  destruct value as [|y0 [|y1 [|y2 [|y3 [|c r]]]]]; try reflexivity.
  simpl in H. do 4 (apply Forall_cons in H as [_ H]).
  apply Forall_cons in H as [Hc _].
  destruct c as [[] [] [] [] [] [] [] []];
    first [reflexivity | vm_compute in Hc; discriminate].
Qed.

(** C2 (the code at the failing input): for one span that runs from 1s to 3s
    after the epoch, the RPC adapter builds a record that starts at 1s and
    lasts 2s; the JSON adapter parses the two nanosecond strings as RFC 3339
    dates, fails, and builds a record that starts at the zero time and lasts
    0ns, which is stored with the start column -6795364578871345152. *)
Theorem http_adapter_drops_the_wire_times :
  forall json_Marshal parseRFC3339Rest,
    Trace.StartTime (grpcTrace json_Marshal span_example_pb "svc") = time.Unix 1 0
    /\ Trace.DurationNanos (grpcTrace json_Marshal span_example_pb "svc")
       = 2 * time.Second
    /\ Trace.StartTime
         (httpTrace json_Marshal parseRFC3339Rest "svc" span_example_json)
       = time.zero
    /\ Trace.DurationNanos
         (httpTrace json_Marshal parseRFC3339Rest "svc" span_example_json)
       = 0
    /\ httpTrace json_Marshal parseRFC3339Rest "svc" span_example_json
       <> grpcTrace json_Marshal span_example_pb "svc"
    /\ TraceRow.start_time
         <$> DB.traces
               (HandleTraces json_Marshal parseRFC3339Rest DB.empty
                  [otlpjson.mkResourceSpans (otlpjson.mkResource [])
                     [otlpjson.mkScopeSpans [span_example_json]]])
       = [-6795364578871345152].
Proof.
  intros json_Marshal parseRFC3339Rest.
  split; [reflexivity|]. split; [reflexivity|].
  split; [reflexivity|]. split; [reflexivity|].
  split; [|reflexivity].
  intros Heq. apply (f_equal Trace.StartTime) in Heq. vm_compute in Heq.
  discriminate.
Qed.

Lemma extractServiceName_nonempty (resource : option otlppb.Resource) :
  extractServiceName resource <> EmptyString.
Proof.
  destruct resource as [[attributes]|]; simpl; [|done].
  induction attributes as [|attr attributes IH]; simpl; [done|].
  repeat case_decide; done.
Qed.

(** C7 (the code at the failing input): for a resource whose [service.name]
    attribute is the empty string, the JSON adapter returns the empty string
    and stamps it on the records of the resource, where the RPC adapter
    returns "unknown"; the RPC adapter never returns the empty string. *)
Theorem http_adapter_keeps_an_empty_service_name :
  extractServiceNameFromResource resource_example_json = EmptyString
  /\ extractServiceName (Some resource_example_pb) = "unknown"
  /\ (forall json_Marshal parseRFC3339Rest,
        Trace.ServiceName
          <$> httpTraces json_Marshal parseRFC3339Rest
                [otlpjson.mkResourceSpans resource_example_json
                   [otlpjson.mkScopeSpans [span_example_json]]]
        = [EmptyString])
  /\ (forall json_Marshal,
        Trace.ServiceName
          <$> grpcTraces json_Marshal
                [otlppb.mkResourceSpans (Some resource_example_pb)
                   [otlppb.mkScopeSpans [span_example_pb]]]
        = ["unknown"])
  /\ (forall resource, extractServiceName resource <> EmptyString).
Proof.
  split; [reflexivity|]. split; [reflexivity|].
  split; [intros; reflexivity|]. split; [intros; reflexivity|].
  apply extractServiceName_nonempty.
Qed.

(* ===================================================================== *)
(** * C8: the parser *)
(* ===================================================================== *)

(** C8 (the code at the failing input): the first three queries parse as the
    claim says.  On "sum(http_requests_total) by (service)" the closing
    parenthesis is looked up with [LastIndex], which finds the one that ends
    the [by] clause: [ParseAggregation] hands
    "http_requests_total) by (service" to [Parse] and returns its error, and
    [Parse] itself returns the function sum over a metric of that name, with
    no aggregation.  Without a [by] clause [ParseAggregation] does return the
    aggregation sum. *)
Theorem parser_on_the_four_examples :
  forall time_ParseDuration,
    Parse time_ParseDuration "http_requests_total"
    = Ok (Query.mk "http_requests_total" ∅ EmptyString 0 0 None)
    /\ Parse time_ParseDuration
         ("http_requests_total{service=" +:+ dq +:+ "api" +:+ dq +:+ "}")
       = Ok (Query.mk "http_requests_total" {[ "service" := "api" ]}
                      EmptyString 0 0 None)
    /\ Parse time_ParseDuration "rate(http_requests_total[5m])"
       = Ok (Query.mk "http_requests_total" ∅ "rate" (300 * time.Second) 0 None)
    /\ ParseAggregation time_ParseDuration "sum(http_requests_total) by (service)"
       = Err (Errorf "missing closing parenthesis")
    /\ Parse time_ParseDuration "sum(http_requests_total) by (service)"
       = Ok (Query.mk "http_requests_total) by (service" ∅ "sum" 0 0 None)
    /\ ParseAggregation time_ParseDuration "sum(http_requests_total)"
       = Ok (Query.mk "http_requests_total" ∅ EmptyString 0 0
                      (Some (Aggregation.mk "sum" [] []))).
Proof.
  intros time_ParseDuration. repeat split; vm_compute; reflexivity.
Qed.

(** ** The [by] clause of ParseAggregation is never read *)

Lemma index_byte_None (c : ascii) (s : string) :
  c ∉ String.list_ascii_of_string s ->
  String.index 0 (String c EmptyString) s = None.
Proof.
  induction s as [|b s IH]; simpl; [done|].
  intros Hnin. apply not_elem_of_cons in Hnin as [Hne Hnin].
  destruct (ascii_dec c b) as [->|_]; [done|].
  by rewrite IH.
Qed.

Lemma substring_all (s : string) : String.substring 0 (String.length s) s = s.
Proof. induction s as [|b s IH]; simpl; [done|]. by rewrite IH. Qed.

(** After the position that [LastIndex] returns, the byte does not occur. *)
Lemma lastIndexFrom_byte (c : ascii) (s : string) (i last : Z) :
  (strings.lastIndexFrom (String c EmptyString) s i last = last
   /\ c ∉ String.list_ascii_of_string s)
  \/ exists k : nat,
       strings.lastIndexFrom (String c EmptyString) s i last = i + Z.of_nat k
       /\ (k < String.length s)%nat
       /\ c ∉ String.list_ascii_of_string
                (String.substring (S k) (String.length s - S k) s).
Proof.
  revert i last. induction s as [|b s IH]; intros i last; simpl.
  - left. split; [done|]. apply not_elem_of_nil.
  - destruct (ascii_dec c b) as [->|Hne].
    + assert (Hp : String.prefix EmptyString s = true) by (by destruct s).
      rewrite Hp. right.
      destruct (IH (i + 1) i) as [[-> Hnin]|(k & -> & Hk & Hnin)].
      * exists 0%nat. rewrite Z.add_0_r, Nat.sub_0_r, substring_all.
        split; [done|]. split; [lia|done].
      * exists (S k). split; [lia|]. split; [lia|done].
    + destruct (IH (i + 1) last) as [[-> Hnin]|(k & -> & Hk & Hnin)].
      * left. split; [done|]. by apply not_elem_of_cons.
      * right. exists (S k). split; [lia|]. split; [lia|done].
Qed.

Lemma trimBy_subseteq_bounded sp2 sp3 (n : nat) (s : string) :
  (String.length s <= n)%nat ->
  String.list_ascii_of_string (strings.trimBy sp2 sp3 s)
  ⊆ String.list_ascii_of_string s.
Proof.
  revert s. induction n as [|n IH]; intros s Hn.
  - destruct s; simpl in *; [done|lia].
  - destruct s as [|b0 [|b1 [|b2 r2]]]; simpl in *; [done|..].
    + destruct (Ascii.is_space b0); [|done].
      by apply list_subseteq_cons.
    + destruct (Ascii.is_space b0).
      { apply list_subseteq_cons, (IH (String b1 EmptyString)). simpl. lia. }
      destruct (sp2 b0 b1); [|done].
      intros c Hc. by apply elem_of_nil in Hc.
    + destruct (Ascii.is_space b0).
      { apply list_subseteq_cons, (IH (String b1 (String b2 r2))). simpl. lia. }
      destruct (sp2 b0 b1).
      { do 2 apply list_subseteq_cons. apply (IH (String b2 r2)). simpl. lia. }
      destruct (sp3 b0 b1 b2); [|done].
      do 3 apply list_subseteq_cons. apply IH. lia.
Qed.

Lemma trimBy_subseteq sp2 sp3 (s : string) :
  String.list_ascii_of_string (strings.trimBy sp2 sp3 s)
  ⊆ String.list_ascii_of_string s.
Proof. by apply (trimBy_subseteq_bounded _ _ (String.length s)). Qed.

Lemma rev_app_elem_of (c : ascii) (s1 s2 : string) :
  c ∈ String.list_ascii_of_string (String.rev_app s1 s2)
  <-> c ∈ String.list_ascii_of_string s1 \/ c ∈ String.list_ascii_of_string s2.
Proof.
  revert s2. induction s1 as [|b s1 IH]; intros s2; simpl.
  - split; [auto|]. intros [H|H]; [by apply elem_of_nil in H|done].
  - rewrite IH. simpl. rewrite !elem_of_cons. tauto.
Qed.

Lemma TrimSpace_not_elem_of (c : ascii) (s : string) :
  c ∉ String.list_ascii_of_string s ->
  c ∉ String.list_ascii_of_string (strings.TrimSpace s).
Proof.
  intros Hnin Hin. apply Hnin.
  unfold strings.TrimSpace, strings.trimRight, strings.trimLeft, String.rev in Hin.
  apply rev_app_elem_of in Hin as [Hin|Hin]; [|by apply elem_of_nil in Hin].
  apply trimBy_subseteq, rev_app_elem_of in Hin as [Hin|Hin];
    [|by apply elem_of_nil in Hin].
  by apply trimBy_subseteq in Hin.
Qed.

(** X14: whatever the query, a successful [ParseAggregation] returns an
    aggregation with an empty grouping: [closeParen] is the last ")" of the
    query, so the text after it, where the [by] clause is looked for, holds
    no ")" and [byEnd] is -1. *)
Lemma ParseAggregation_By_nil time_ParseDuration (query : string) (parsed : Query.t) :
  ParseAggregation time_ParseDuration query = Ok parsed ->
  exists operation,
    Query.Aggregation parsed = Some (Aggregation.mk operation [] []).
Proof.
  unfold ParseAggregation. set (q := strings.TrimSpace query).
  destruct (strings.Index q "(" =? -1); [done|].
  destruct (strings.slice q 0 _) as [funcPart|]; simpl; [|done].
  destruct (strings.LastIndex q ")" =? -1) eqn:Hcp; [done|].
  destruct (strings.slice q (_ + 1) (strings.LastIndex q ")")) as [mq|];
    simpl; [|done].
  destruct (Parse time_ParseDuration _) as [inner|]; simpl; [|done].
  destruct (strings.LastIndex q ")" <? strings.len q - 1) eqn:Hlt;
    [|simpl; intros [= <-]; simpl; eauto].
  destruct (strings.slice q (strings.LastIndex q ")" + 1) (strings.len q))
    as [rest|] eqn:Hrest; simpl; [|done].
  destruct (strings.HasPrefix (strings.TrimSpace rest) "by");
    [|simpl; intros [= <-]; simpl; eauto].
  assert (Hend : strings.Index (strings.TrimSpace rest) ")" = -1).
  { unfold strings.Index. rewrite index_byte_None; [done|].
    apply TrimSpace_not_elem_of.
    unfold strings.slice in Hrest. case_match; [|done]. injection Hrest as <-.
    apply Z.eqb_neq in Hcp. unfold strings.LastIndex, strings.len in *.
    destruct (lastIndexFrom_byte ")" q 0 (-1)) as [[Heq _]|(k & Heq & Hk & Hnin)];
      [done|].
    rewrite Heq.
    replace (Z.to_nat (0 + Z.of_nat k + 1)) with (S k) by lia.
    replace (Z.to_nat (Z.of_nat (String.length q) - (0 + Z.of_nat k + 1)))
      with (String.length q - S k)%nat by lia.
    done. }
  rewrite Hend. simpl. rewrite andb_false_r. simpl. intros [= <-]. simpl. eauto.
Qed.

Lemma ParseAggregation_By_nil_witness :
  exists parsed operation,
    ParseAggregation (fun _ => Err (LibError "time: invalid duration"))
                     "sum(up) by (job"
    = Ok parsed
    /\ Query.Aggregation parsed = Some (Aggregation.mk operation [] []).
Proof.
  assert (H : ParseAggregation (fun _ => Err (LibError "time: invalid duration"))
                               "sum(up) by (job"
              = Ok (Query.mk "up" ∅ "" 0 0 (Some (Aggregation.mk "sum" [] []))))
    by (vm_compute; reflexivity).
  destruct (ParseAggregation_By_nil _ _ _ H) as [operation Hop].
  exists (Query.mk "up" ∅ "" 0 0 (Some (Aggregation.mk "sum" [] []))), operation.
  split; [exact H|exact Hop].
Defined.

(** ** The fetch, in general *)

#[local] Instance timestamp_le_trans : Transitive timestamp_le.
Proof. intros x y z. unfold timestamp_le. lia. Qed.

#[local] Instance timestamp_le_total : Total timestamp_le.
Proof. intros x y. unfold timestamp_le. lia. Qed.

Lemma insertByTimestamp_Permutation (row : MetricRow.t) (sorted : list MetricRow.t) :
  insertByTimestamp row sorted ≡ₚ row :: sorted.
Proof.
  induction sorted as [|r rest IH]; simpl; [done|].
  case_decide; [|done]. rewrite IH. apply perm_swap.
Qed.

Lemma orderByTimestamp_Permutation (rows : list MetricRow.t) :
  orderByTimestamp rows ≡ₚ rows.
Proof.
  unfold orderByTimestamp.
  assert (H : forall acc,
            fold_left (fun sorted row => insertByTimestamp row sorted) rows acc
            ≡ₚ acc ++ rows).
  { induction rows as [|row rows IH]; intros acc; simpl.
    - by rewrite app_nil_r.
    - rewrite IH, insertByTimestamp_Permutation. simpl.
      apply Permutation_middle. }
  apply (H []).
Qed.

Lemma insertByTimestamp_sorted (row : MetricRow.t) (sorted : list MetricRow.t) :
  StronglySorted timestamp_le sorted ->
  StronglySorted timestamp_le (insertByTimestamp row sorted).
Proof.
  induction 1 as [|r rest Hrest IH Hall]; simpl.
  - repeat constructor.
  - case_decide as Hle.
    + constructor; [exact IH|].
      rewrite insertByTimestamp_Permutation. by constructor.
    + constructor; [by constructor|].
      assert (Hlt : timestamp_le row r) by (unfold timestamp_le in *; lia).
      constructor; [exact Hlt|].
      eapply Forall_impl; [exact Hall|].
      intros x Hx. by etrans.
Qed.

Lemma orderByTimestamp_sorted (rows : list MetricRow.t) :
  StronglySorted timestamp_le (orderByTimestamp rows).
Proof.
  unfold orderByTimestamp.
  assert (H : forall acc,
            StronglySorted timestamp_le acc ->
            StronglySorted timestamp_le
              (fold_left (fun sorted row => insertByTimestamp row sorted)
                         rows acc)).
  { induction rows as [|row rows IH]; intros acc Hacc; simpl; [done|].
    by apply IH, insertByTimestamp_sorted. }
  apply H. constructor.
Qed.

Lemma scanRows_Ok (metricName : string) (rows : list MetricRow.t)
    (seriesMap : gmap string MetricSeries.t) :
  scanRows metricName (Ok <$> rows) seriesMap
  = Ok (fold_left (addRow metricName) rows seriesMap).
Proof.
  revert seriesMap. induction rows as [|row rows IH]; intros seriesMap;
    [reflexivity|].
  rewrite fmap_cons. simpl. apply IH.
Qed.

(** A query without label constraints pastes nothing into the statement. *)
Lemma asMeant_no_labels JSON_EXTRACT (db : DB.t) (query : Query.t) :
  Query.Labels query = ∅ -> asMeant JSON_EXTRACT db query = true.
Proof. intros Hnone. unfold asMeant. by rewrite Hnone, map_to_list_empty. Qed.

(** The fetch when the statement reads as it is meant. *)
Lemma getMetricSeries_as_meant JSON_EXTRACT otherStatement (db : DB.t)
    (query : Query.t) (startTime endTime : Z) :
  DB.closed db = false ->
  asMeant JSON_EXTRACT db query = true ->
  getMetricSeries JSON_EXTRACT otherStatement db query startTime endTime
  = Ok ((map_to_list
           (fold_left (addRow (Query.MetricName query))
              (orderByTimestamp
                 (List.filter (whereClause JSON_EXTRACT query startTime endTime)
                              (DB.metrics db)))
              ∅)).*2).
Proof.
  intros Hopen Hmeant. unfold getMetricSeries, QueryContext.
  rewrite Hopen, Hmeant. simpl. by rewrite scanRows_Ok.
Qed.

(** A row whose nanosecond stamp exceeds the end of the window counted in
    seconds is never fetched; this is every record later than one second
    after the epoch, for any window that ends before 10^9 times its stamp. *)
Lemma fetch_misses_rows_stamped_in_nanoseconds JSON_EXTRACT otherStatement
    (metric : Metric.t) (query : Query.t) (startTime endTime : Z) (db : DB.t) :
  InsertMetric DB.empty metric = Ok db ->
  asMeant JSON_EXTRACT db query = true ->
  time.toUnix endTime < time.toUnixNano (Metric.Timestamp metric) ->
  getMetricSeries JSON_EXTRACT otherStatement db query startTime endTime = Ok [].
Proof.
  unfold InsertMetric. simpl.
  destruct (PrimFloat.is_nan (Metric.Value metric)); [done|].
  intros [= <-] Hmeant Hlt.
  rewrite getMetricSeries_as_meant by done. simpl.
  unfold whereClause. simpl.
  assert (Hc : (time.toUnixNano (Metric.Timestamp metric) <=? time.toUnix endTime)
               = false) by (apply Z.leb_gt; lia).
  rewrite Hc, andb_false_r. simpl. reflexivity.
Qed.

Lemma string_length_app (a b : string) :
  String.length (a +:+ b) = (String.length a + String.length b)%nat.
Proof. induction a as [|c a IH]; simpl; [done|]. by rewrite IH. Qed.







(** Whatever the span, when its two times are strings of decimal digits the
    JSON adapter builds a record that starts at the zero time and lasts 0ns. *)
Lemma httpTrace_of_nanosecond_strings json_Marshal parseRFC3339Rest
    (serviceName : string) (span : otlpjson.Span) :
  Forall (fun c => isDigit c = true)
         (String.list_ascii_of_string (otlpjson.StartTimeUnixNano span)) ->
  Forall (fun c => isDigit c = true)
         (String.list_ascii_of_string (otlpjson.EndTimeUnixNano span)) ->
  Trace.StartTime (httpTrace json_Marshal parseRFC3339Rest serviceName span)
  = time.zero
  /\ Trace.DurationNanos (httpTrace json_Marshal parseRFC3339Rest serviceName span)
     = 0.
Proof.
  intros Hstart Hend. unfold httpTrace. simpl.
  rewrite !parseOrZero_decimal by done. split; reflexivity.
Qed.

(** The RPC adapter, for a span whose times are below 2^63 and in order,
    builds a record that starts at the nanosecond count of the wire and lasts
    end - start. *)
Lemma grpcTrace_times json_Marshal (span : otlppb.Span) (serviceName : string) :
  0 <= otlppb.StartTimeUnixNano span <= otlppb.EndTimeUnixNano span ->
  otlppb.EndTimeUnixNano span <= maxInt64 ->
  Trace.StartTime (grpcTrace json_Marshal span serviceName)
  = otlppb.StartTimeUnixNano span
  /\ Trace.DurationNanos (grpcTrace json_Marshal span serviceName)
     = otlppb.EndTimeUnixNano span - otlppb.StartTimeUnixNano span.
Proof.
  intros Horder Hmax. unfold grpcTrace, time.Unix. simpl.
  unfold maxInt64 in Hmax.
  rewrite Z.mod_small by lia.
  rewrite !wrap64_id by (unfold minInt64, maxInt64; lia). split; lia.
Qed.

(* ===================================================================== *)
(** * Further properties of the evaluator *)
(* ===================================================================== *)

Lemma omap_imap_sublist {A B C} (f : nat -> A -> option B) (ga : A -> C)
    (gb : B -> C) (h : nat -> nat) (l : list A) :
  (forall j p o, f j p = Some o -> gb o = ga p) ->
  gb <$> omap (fun jp => f jp.1 jp.2) (imap (fun j x => (h j, x)) l)
  `sublist_of` ga <$> l.
Proof.
  intros Hf. revert h. induction l as [|x l IH]; intros h.
  - constructor.
  - rewrite imap_cons. simpl. destruct (f (h 0%nat) x) as [o|] eqn:Ho; simpl.
    + rewrite (Hf _ _ _ Ho). apply sublist_skip, (IH (h ∘ S)).
    + apply sublist_cons, (IH (h ∘ S)).
Qed.

Lemma ratePoint_stamp points rangeDuration j point out :
  ratePoint points rangeDuration j point = Some out ->
  (MetricPoint.Timestamp out, MetricPoint.Labels out)
  = (MetricPoint.Timestamp point, MetricPoint.Labels point).
Proof.
  unfold ratePoint. destruct j; [done|].
  destruct (scanBack _ _ _); [|done]. by intros [= <-].
Qed.

Lemma increasePoint_stamp points rangeDuration j point out :
  increasePoint points rangeDuration j point = Some out ->
  (MetricPoint.Timestamp out, MetricPoint.Labels out)
  = (MetricPoint.Timestamp point, MetricPoint.Labels point).
Proof.
  unfold increasePoint. destruct (scanBack _ _ _); [|done]. by intros [= <-].
Qed.

(** X1: [applyRate] and [applyIncrease] always succeed and return one series
    per input series, in order, with the metric name and the labels of the
    input series.  The (timestamp, labels) pairs of the output points are a
    subsequence of those of the input points: points are dropped, never
    added, moved or relabelled.  For [applyRate] the subsequence is taken
    from the points after the first, so a series with fewer than two points
    comes out empty. *)
Theorem rate_and_increase_keep_the_series_shape :
  forall (series : list MetricSeries.t) (rangeDuration : Z),
  exists rates increases,
    applyRate series rangeDuration = Ok rates
    /\ applyIncrease series rangeDuration = Ok increases
    /\ Forall2
         (fun s out =>
            MetricSeries.MetricName out = MetricSeries.MetricName s
            /\ MetricSeries.Labels out = MetricSeries.Labels s
            /\ (fun p => (MetricPoint.Timestamp p, MetricPoint.Labels p))
                 <$> MetricSeries.Points out
               `sublist_of`
               tail ((fun p => (MetricPoint.Timestamp p, MetricPoint.Labels p))
                       <$> MetricSeries.Points s))
         series rates
    /\ Forall2
         (fun s out =>
            MetricSeries.MetricName out = MetricSeries.MetricName s
            /\ MetricSeries.Labels out = MetricSeries.Labels s
            /\ (fun p => (MetricPoint.Timestamp p, MetricPoint.Labels p))
                 <$> MetricSeries.Points out
               `sublist_of`
               (fun p => (MetricPoint.Timestamp p, MetricPoint.Labels p))
                 <$> MetricSeries.Points s)
         series increases.
Proof.
  intros series rangeDuration. eexists _, _.
  split; [reflexivity|]. split; [reflexivity|]. split.
  - change (map ?f series) with (f <$> series).
    apply Forall2_fmap_r, Forall_Forall2_diag, Forall_forall.
    intros s _. simpl. split; [done|]. split; [done|].
    rewrite pointsLoop_omap.
    destruct (MetricSeries.Points s) as [|p0 rest] eqn:Hp; [constructor|].
    rewrite imap_cons. simpl.
    apply (omap_imap_sublist (ratePoint (p0 :: rest) rangeDuration) _ _ S).
    intros j p o. apply ratePoint_stamp.
  - change (map ?f series) with (f <$> series).
    apply Forall2_fmap_r, Forall_Forall2_diag, Forall_forall.
    intros s _. simpl. split; [done|]. split; [done|].
    rewrite pointsLoop_omap.
    apply (omap_imap_sublist
             (increasePoint (MetricSeries.Points s) rangeDuration) _ _ id).
    intros j p o. apply increasePoint_stamp.
Qed.

(** X2: [applyRate] has no guard against two points at one instant.  When
    the point at index j+1 has the timestamp of the point at index j and the
    range is positive, the elapsed time is 0 seconds and the emitted value is
    the value difference divided by the float zero: an infinity, or NaN when
    the values are equal too. *)
Theorem rate_divides_by_zero_on_equal_timestamps :
  forall (points : list MetricPoint.t) (rangeDuration : Z) (j : nat)
         (prev point : MetricPoint.t),
    0 < rangeDuration <= maxInt64 ->
    points !! j = Some prev ->
    points !! S j = Some point ->
    MetricPoint.Timestamp prev = MetricPoint.Timestamp point ->
    ratePoint points rangeDuration (S j) point
    = Some (MetricPoint.mk
              (MetricPoint.Timestamp point)
              (PrimFloat.div
                 (PrimFloat.sub (MetricPoint.Value point) (MetricPoint.Value prev))
                 0%float)
              (MetricPoint.Labels point))
    /\ MetricPoint.mk
         (MetricPoint.Timestamp point)
         (PrimFloat.div
            (PrimFloat.sub (MetricPoint.Value point) (MetricPoint.Value prev))
            0%float)
         (MetricPoint.Labels point)
       ∈ pointsLoop (ratePoint points rangeDuration) points.
Proof.
  intros points rangeDuration j prev point Hrange Hprev Hpoint Hts.
  assert (Hr : ratePoint points rangeDuration (S j) point
               = Some (MetricPoint.mk
                         (MetricPoint.Timestamp point)
                         (PrimFloat.div
                            (PrimFloat.sub (MetricPoint.Value point)
                                           (MetricPoint.Value prev))
                            0%float)
                         (MetricPoint.Labels point))).
  { unfold ratePoint. simpl. rewrite Hprev.
    unfold time.After, time.Add. rewrite wrap64_neg by (unfold minInt64; lia).
    assert (Hafter : (MetricPoint.Timestamp point + - rangeDuration
                      <? MetricPoint.Timestamp prev) = true)
      by (apply Z.ltb_lt; lia).
    rewrite Hafter. rewrite Hts.
    assert (Hsub : time.Sub (MetricPoint.Timestamp point)
                            (MetricPoint.Timestamp point) = 0).
    { unfold time.Sub. rewrite Z.sub_diag. reflexivity. }
    rewrite Hsub. reflexivity. }
  split; [exact Hr|]. apply elem_of_pointsLoop. eauto.
Qed.

Lemma rate_divides_by_zero_witness :
  pointsLoop (ratePoint duplicate_example_points (60 * time.Second))
             duplicate_example_points
  = [MetricPoint.mk (time.Unix 7 0) PrimFloat.infinity (svc "api")]
  /\ MetricPoint.mk (time.Unix 7 0) (PrimFloat.div (PrimFloat.sub 2 1) 0)
                    (svc "api")
     ∈ pointsLoop (ratePoint duplicate_example_points (60 * time.Second))
                  duplicate_example_points.
Proof.
  split; [vm_compute; reflexivity|].
  apply (rate_divides_by_zero_on_equal_timestamps duplicate_example_points
           (60 * time.Second) 0%nat
           (MetricPoint.mk (time.Unix 7 0) 1%float (svc "api"))
           (MetricPoint.mk (time.Unix 7 0) 2%float (svc "api"))).
  - unfold maxInt64, time.Second. lia.
  - reflexivity.
  - reflexivity.
  - reflexivity.
Defined.

(** ** avg, min and max *)

Lemma avgAt_contributions (series : list MetricSeries.t) (ts : Z) :
  avgAt series ts
  = (if 0 <? Z.of_nat
               (length (omap (fun s => MetricPoint.Value <$> pointAt ts s) series))
     then PrimFloat.div
            (fold_left PrimFloat.add
               (omap (fun s => MetricPoint.Value <$> pointAt ts s) series)
               0%float)
            (float64_of_int
               (Z.of_nat
                  (length (omap (fun s => MetricPoint.Value <$> pointAt ts s)
                                series))))
     else 0%float).
Proof.
  unfold avgAt.
  assert (H : forall l (acc : float * Z),
            fold_left
              (fun acc s =>
                 match pointAt ts s with
                 | Some point =>
                     (PrimFloat.add acc.1 (MetricPoint.Value point), acc.2 + 1)
                 | None => acc
                 end) l acc
            = (fold_left PrimFloat.add
                 (omap (fun s => MetricPoint.Value <$> pointAt ts s) l) acc.1,
               acc.2 + Z.of_nat
                         (length (omap (fun s => MetricPoint.Value <$> pointAt ts s)
                                       l)))).
  { induction l as [|s l IH]; intros [sum count]; simpl.
    - apply pair_equal_spec. split; [reflexivity|lia].
    - rewrite IH. destruct (pointAt ts s); simpl;
        change (list_omap _ _ ?f ?k) with (omap f k);
        apply pair_equal_spec; (split; [reflexivity|lia]). }
  rewrite H. simpl. reflexivity.
Qed.

(** X3: for a non-empty list of series, [applyAvg] returns exactly one
    series, with the metric name of the first input series and no labels; the
    timestamps of its points are the distinct timestamps of all input points
    in ascending order.  At each of them at least one series has a point, and
    the value is the sum (from 0, in input order) of the first point at that
    timestamp of every series that has one, divided by the number of those
    series; the fallback value 0 for a count of zero is never produced.
    [pointAt ts s] is that first point: a point of the series with the
    timestamp [ts], before which no point of the series has it. *)
Theorem avg_divides_the_sum_by_the_contributing_series :
  forall (s0 : MetricSeries.t) (rest : list MetricSeries.t),
  exists points,
    applyAvg (s0 :: rest)
    = Ok [MetricSeries.mk (MetricSeries.MetricName s0) ∅ points]
    /\ StronglySorted Z.lt (MetricPoint.Timestamp <$> points)
    /\ (forall ts,
          ts ∈ MetricPoint.Timestamp <$> points
          <-> exists s p, s ∈ s0 :: rest /\ p ∈ MetricSeries.Points s
                          /\ MetricPoint.Timestamp p = ts)
    /\ (forall point,
          point ∈ points ->
          MetricPoint.Labels point = ∅
          /\ omap (fun s =>
                     MetricPoint.Value <$> pointAt (MetricPoint.Timestamp point) s)
                  (s0 :: rest)
             <> []
          /\ MetricPoint.Value point
             = PrimFloat.div
                 (fold_left PrimFloat.add
                    (omap (fun s =>
                             MetricPoint.Value
                               <$> pointAt (MetricPoint.Timestamp point) s)
                          (s0 :: rest))
                    0%float)
                 (float64_of_int
                    (Z.of_nat
                       (length
                          (omap (fun s =>
                                   MetricPoint.Value
                                     <$> pointAt (MetricPoint.Timestamp point) s)
                                (s0 :: rest))))))
    /\ (forall ts s p,
          pointAt ts s = Some p
          <-> exists before after,
                MetricSeries.Points s = before ++ p :: after
                /\ MetricPoint.Timestamp p = ts
                /\ Forall (fun q => MetricPoint.Timestamp q <> ts) before).
Proof.
  intros s0 rest. set (series := s0 :: rest).
  destruct (sortedTimestamps_spec series) as [Hsorted Hmem].
  exists (map (fun ts => MetricPoint.mk ts (avgAt series ts) ∅)
              (sortedTimestamps series)).
  assert (Hts : MetricPoint.Timestamp
                  <$> map (fun ts => MetricPoint.mk ts (avgAt series ts) ∅)
                          (sortedTimestamps series)
                = sortedTimestamps series).
  { rewrite <- list_fmap_compose. apply list_fmap_id. }
  split; [done|]. rewrite Hts. split; [done|]. split; [|split].
  - intros ts. by rewrite Hmem, elem_of_timestampMap.
  - intros point (ts & -> & Hin)%list_elem_of_fmap.
    cbn [MetricPoint.Labels MetricPoint.Value MetricPoint.Timestamp].
    split; [done|].
    assert (Hne : omap (fun s => MetricPoint.Value <$> pointAt ts s) series <> []).
    { apply Hmem, elem_of_timestampMap in Hin as (s & p & Hs & Hp & Hpts).
      assert (Hsome : is_Some (pointAt ts s)) by (apply pointAt_is_Some; eauto).
      destruct Hsome as [q Hq]. intros Hnil.
      assert (Hv : MetricPoint.Value q
                   ∈ omap (fun s => MetricPoint.Value <$> pointAt ts s) series).
      { apply list_elem_of_omap. exists s. split; [done|]. by rewrite Hq. }
      rewrite Hnil in Hv. by apply elem_of_nil in Hv. }
    split; [done|]. rewrite avgAt_contributions.
    destruct (omap (fun s => MetricPoint.Value <$> pointAt ts s) series)
      as [|v vs]; [done|].
    assert (Hpos : (0 <? Z.of_nat (length (v :: vs))) = true)
      by (apply Z.ltb_lt; simpl; lia).
    rewrite Hpos. reflexivity.
  - apply pointAt_first.
Qed.

Lemma SFltb_irrefl (x : SpecFloat.spec_float) : SpecFloat.SFltb x x = false.
Proof.
  unfold SpecFloat.SFltb, SpecFloat.SFcompare.
  destruct x as [s|s| |s m e]; try destruct s; simpl; try reflexivity;
    rewrite Z.compare_refl;
    change (Pos.compare_cont Eq m m) with (Pos.compare m m);
    by rewrite Pos.compare_refl.
Qed.

Lemma SFltb_trans (x y z : SpecFloat.spec_float) :
  SpecFloat.SFltb x y = true -> SpecFloat.SFltb y z = true ->
  SpecFloat.SFltb x z = true.
Proof.
  unfold SpecFloat.SFltb, SpecFloat.SFcompare.
  destruct x as [sx|sx| |sx mx ex], y as [sy|sy| |sy my ey],
           z as [sz|sz| |sz mz ez];
    try destruct sx; try destruct sy; try destruct sz; simpl;
    try reflexivity; try discriminate;
    change (Pos.compare_cont Eq ?a ?b) with (Pos.compare a b);
    repeat match goal with
           | |- context [Z.compare ?a ?b] => destruct (Z.compare_spec a b)
           | |- context [Pos.compare ?a ?b] => destruct (Pos.compare_spec a b)
           end;
    simpl; try reflexivity; try discriminate; intros; subst; lia.
Qed.

Lemma float_ltb_irrefl (x : float) : PrimFloat.ltb x x = false.
Proof. rewrite FloatAxioms.ltb_spec. apply SFltb_irrefl. Qed.

Lemma float_ltb_trans (x y z : float) :
  PrimFloat.ltb x y = true -> PrimFloat.ltb y z = true -> PrimFloat.ltb x z = true.
Proof. rewrite !FloatAxioms.ltb_spec. apply SFltb_trans. Qed.

(** The reduction of [applyMin] and [applyMax], for any strict order
    [better]: the result is the start value or the value of some point, and
    no point is better than the result. *)
Lemma reducePoints_spec (better : float -> float -> bool) (init : float)
    (series : list MetricSeries.t) :
  (forall x, better x x = false) ->
  (forall x y z, better x y = true -> better y z = true -> better x z = true) ->
  (reducePoints better init series = init
   \/ exists s p, s ∈ series /\ p ∈ MetricSeries.Points s
                  /\ reducePoints better init series = MetricPoint.Value p)
  /\ (forall s p, s ∈ series -> p ∈ MetricSeries.Points s ->
        better (MetricPoint.Value p) (reducePoints better init series) = false).
Proof.
  intros Hirr Htrans. unfold reducePoints.
  assert (Hin : forall (l : list MetricPoint.t) (m0 : float),
            (fold_left (fun m point =>
                          if better (MetricPoint.Value point) m
                          then MetricPoint.Value point else m) l m0 = m0
             \/ exists p, p ∈ l
                  /\ fold_left (fun m point =>
                                  if better (MetricPoint.Value point) m
                                  then MetricPoint.Value point else m) l m0
                     = MetricPoint.Value p)
            /\ (forall p, p ∈ l ->
                  better (MetricPoint.Value p)
                    (fold_left (fun m point =>
                                  if better (MetricPoint.Value point) m
                                  then MetricPoint.Value point else m) l m0)
                  = false)
            /\ (forall v, better v m0 = false ->
                  better v
                    (fold_left (fun m point =>
                                  if better (MetricPoint.Value point) m
                                  then MetricPoint.Value point else m) l m0)
                  = false)).
  { induction l as [|q l IH]; intros m0; simpl.
    - split; [by left|]. split; [|done]. intros p Hp. by apply elem_of_nil in Hp.
    - set (m1 := if better (MetricPoint.Value q) m0
                 then MetricPoint.Value q else m0).
      destruct (IH m1) as (Hval & Hall & Hmono).
      assert (Hstep : forall v, better v m0 = false -> better v m1 = false).
      { intros v Hv. unfold m1. destruct (better (MetricPoint.Value q) m0) eqn:Hq;
          [|done].
        destruct (better v (MetricPoint.Value q)) eqn:Hvq; [|done].
        by rewrite (Htrans _ _ _ Hvq Hq) in Hv. }
      assert (Hq1 : better (MetricPoint.Value q) m1 = false).
      { unfold m1. destruct (better (MetricPoint.Value q) m0) eqn:Hq; [|done].
        apply Hirr. }
      split; [|split].
      + destruct Hval as [->|(p & Hp & ->)].
        * unfold m1. destruct (better (MetricPoint.Value q) m0);
            [right; exists q; split; [apply list_elem_of_here|done]|by left].
        * right. exists p. split; [by apply list_elem_of_further|done].
      + intros p [->|Hp]%elem_of_cons; [by apply Hmono|by apply Hall].
      + intros v Hv. by apply Hmono, Hstep. }
  enough (Hout : forall (l : list MetricSeries.t) (m0 : float),
            (fold_left
               (fun m s =>
                  fold_left (fun m point =>
                               if better (MetricPoint.Value point) m
                               then MetricPoint.Value point else m)
                            (MetricSeries.Points s) m) l m0 = m0
             \/ exists s p, s ∈ l /\ p ∈ MetricSeries.Points s
                  /\ fold_left
                       (fun m s =>
                          fold_left (fun m point =>
                                       if better (MetricPoint.Value point) m
                                       then MetricPoint.Value point else m)
                                    (MetricSeries.Points s) m) l m0
                     = MetricPoint.Value p)
            /\ (forall s p, s ∈ l -> p ∈ MetricSeries.Points s ->
                  better (MetricPoint.Value p)
                    (fold_left
                       (fun m s =>
                          fold_left (fun m point =>
                                       if better (MetricPoint.Value point) m
                                       then MetricPoint.Value point else m)
                                    (MetricSeries.Points s) m) l m0)
                  = false)
            /\ (forall v, better v m0 = false ->
                  better v
                    (fold_left
                       (fun m s =>
                          fold_left (fun m point =>
                                       if better (MetricPoint.Value point) m
                                       then MetricPoint.Value point else m)
                                    (MetricSeries.Points s) m) l m0)
                  = false)).
  { destruct (Hout series init) as (Hval & Hall & _). done. }
  induction l as [|s l IH]; intros m0; simpl.
  - split; [by left|]. split; [|done]. intros s p Hs. by apply elem_of_nil in Hs.
  - destruct (Hin (MetricSeries.Points s) m0) as (Hval1 & Hall1 & Hmono1).
    set (m1 := fold_left (fun m point =>
                            if better (MetricPoint.Value point) m
                            then MetricPoint.Value point else m)
                         (MetricSeries.Points s) m0) in *.
    destruct (IH m1) as (Hval & Hall & Hmono).
    split; [|split].
    + destruct Hval as [->|(s' & p & Hs' & Hp & ->)].
      * destruct Hval1 as [->|(p & Hp & ->)]; [by left|].
        right. exists s, p. split; [apply list_elem_of_here|done].
      * right. exists s', p. split; [by apply list_elem_of_further|done].
    + intros s' p [->|Hs']%elem_of_cons Hp; [by apply Hmono, Hall1|by eapply Hall].
    + intros v Hv. by apply Hmono, Hmono1.
Qed.

(** X4: for a non-empty list of series, [applyMin] and [applyMax] return one
    series with the metric name of the first input series, no labels, and a
    single point stamped with the clock reading.  The minimum is +infinity
    (when no point replaced the start value, as when there is no point at all)
    or the value of some input point, and no input value is less than it; the
    maximum is -infinity or the value of some input point, and it is less
    than no input value.  A NaN value is never less or greater, so it is
    passed over. *)
Theorem min_and_max_are_attained_bounds :
  forall (now : Z) (s0 : MetricSeries.t) (rest : list MetricSeries.t),
  exists lo hi,
    applyMin now (s0 :: rest)
    = Ok [MetricSeries.mk (MetricSeries.MetricName s0) ∅
            [MetricPoint.mk now lo ∅]]
    /\ applyMax now (s0 :: rest)
       = Ok [MetricSeries.mk (MetricSeries.MetricName s0) ∅
               [MetricPoint.mk now hi ∅]]
    /\ (lo = PrimFloat.infinity
        \/ exists s p, s ∈ s0 :: rest /\ p ∈ MetricSeries.Points s
                       /\ lo = MetricPoint.Value p)
    /\ (forall s p, s ∈ s0 :: rest -> p ∈ MetricSeries.Points s ->
          PrimFloat.ltb (MetricPoint.Value p) lo = false)
    /\ (hi = PrimFloat.neg_infinity
        \/ exists s p, s ∈ s0 :: rest /\ p ∈ MetricSeries.Points s
                       /\ hi = MetricPoint.Value p)
    /\ (forall s p, s ∈ s0 :: rest -> p ∈ MetricSeries.Points s ->
          PrimFloat.ltb hi (MetricPoint.Value p) = false)
    /\ ((forall s, s ∈ s0 :: rest -> MetricSeries.Points s = []) ->
        lo = PrimFloat.infinity /\ hi = PrimFloat.neg_infinity).
Proof.
  intros now s0 rest. eexists _, _.
  split; [reflexivity|]. split; [reflexivity|].
  destruct (reducePoints_spec PrimFloat.ltb PrimFloat.infinity (s0 :: rest)
              float_ltb_irrefl float_ltb_trans) as [Hlo Hlo_all].
  destruct (reducePoints_spec (fun v m => PrimFloat.ltb m v)
              PrimFloat.neg_infinity (s0 :: rest)) as [Hhi Hhi_all].
  { intros x. apply float_ltb_irrefl. }
  { intros x y z Hxy Hyz. exact (float_ltb_trans _ _ _ Hyz Hxy). }
  split; [exact Hlo|]. split; [exact Hlo_all|].
  split; [exact Hhi|]. split; [exact Hhi_all|].
  intros Hempty. split.
  - destruct Hlo as [?|(s & p & Hs & Hp & _)]; [done|].
    rewrite (Hempty s Hs) in Hp. by apply elem_of_nil in Hp.
  - destruct Hhi as [?|(s & p & Hs & Hp & _)]; [done|].
    rewrite (Hempty s Hs) in Hp. by apply elem_of_nil in Hp.
Qed.

(* ===================================================================== *)
(** * Further properties of the fetch *)
(* ===================================================================== *)











(* ===================================================================== *)
(** * Further properties of the parser *)
(* ===================================================================== *)

Lemma Index_byte_absent (c : ascii) (s : string) :
  c ∉ String.list_ascii_of_string s -> strings.Index s (String c EmptyString) = -1.
Proof. intros H. unfold strings.Index. by rewrite index_byte_None. Qed.

Lemma Contains_byte_absent (c : ascii) (s : string) :
  c ∉ String.list_ascii_of_string s ->
  strings.Contains s (String c EmptyString) = false.
Proof. intros H. unfold strings.Contains. by rewrite Index_byte_absent. Qed.

Lemma parseMetricWithLabels_Ok (query : string) (q : Query.t) :
  parseMetricWithLabels query = Ok q ->
  Query.Function q = EmptyString /\ Query.Range q = 0 /\ Query.Offset q = 0
  /\ Query.Aggregation q = None.
Proof.
  unfold parseMetricWithLabels.
  destruct (strings.Index query "{" =? -1); [by intros [= <-]|].
  destruct (strings.Index query "}" =? -1); [done|].
  destruct (strings.slice query 0 _); simpl; [|done].
  destruct (strings.slice query _ _); simpl; [|done].
  destruct (parseLabels _); simpl; [|done]. by intros [= <-].
Qed.

(** X8: whatever the query string, a successful [Parse] returns a query with
    no aggregation and a zero offset; and unless the trimmed string holds
    both an opening and a closing parenthesis, it has no function and a zero
    range.  (The metrics query endpoint calls [Parse] only, so [Evaluate]
    never reaches its aggregation step from there.) *)
Theorem parse_never_returns_an_aggregation :
  forall time_ParseDuration (query : string) (parsed : Query.t),
    Parse time_ParseDuration query = Ok parsed ->
    Query.Aggregation parsed = None
    /\ Query.Offset parsed = 0
    /\ (strings.Contains (strings.TrimSpace query) "("
        && strings.Contains (strings.TrimSpace query) ")" = false ->
        Query.Function parsed = EmptyString /\ Query.Range parsed = 0).
Proof.
  intros time_ParseDuration query parsed. unfold Parse.
  set (q := strings.TrimSpace query).
  case_decide; [done|].
  destruct (strings.Contains q "(" && strings.Contains q ")") eqn:Hparen.
  - unfold parseFunction.
    destruct (strings.Index q "(" =? -1); [done|].
    destruct (strings.slice q 0 _); simpl; [|done].
    destruct (_ || _); [done|].
    destruct (strings.slice q _ _); simpl; [|done].
    destruct (wrapErr _ _) as [[metricQuery rangeDuration]|]; simpl; [|done].
    intros [= <-]. simpl. done.
  - destruct (negb (strings.Contains q "{")).
    + intros [= <-]. simpl. done.
    + intros Hl.
      apply parseMetricWithLabels_Ok in Hl as (Hf & Hr & Ho & Ha).
      done.
Qed.

Lemma parse_never_returns_an_aggregation_witness :
  exists parsed,
    Parse (fun _ => Err (LibError "time: invalid duration"))
          "sum(http_requests_total) by (service)"
    = Ok parsed
    /\ Query.Aggregation parsed = None.
Proof.
  assert (H : Parse (fun _ => Err (LibError "time: invalid duration"))
                    "sum(http_requests_total) by (service)"
              = Ok (Query.mk "http_requests_total) by (service" ∅ "sum" 0 0 None))
    by (vm_compute; reflexivity).
  eexists. split; [exact H|].
  exact (proj1 (parse_never_returns_an_aggregation _ _ _ H)).
Defined.

(** X9: a query that holds no brace and lacks one of the two parentheses is
    taken whole as a metric name: unless it is blank, [Parse] succeeds and
    returns the trimmed string as the metric name, with no labels, function,
    range, offset or aggregation.  No character of the name is checked. *)
Theorem parse_takes_a_bare_string_as_the_metric_name :
  forall time_ParseDuration (query : string),
    strings.TrimSpace query <> EmptyString ->
    "{"%char ∉ String.list_ascii_of_string query ->
    "("%char ∉ String.list_ascii_of_string query
    \/ ")"%char ∉ String.list_ascii_of_string query ->
    Parse time_ParseDuration query
    = Ok (Query.mk (strings.TrimSpace query) ∅ EmptyString 0 0 None).
Proof.
  intros time_ParseDuration query Hne Hbrace Hparen. unfold Parse.
  rewrite decide_False by done.
  assert (Hp : strings.Contains (strings.TrimSpace query) "("
               && strings.Contains (strings.TrimSpace query) ")" = false).
  { destruct Hparen as [H|H].
    - by rewrite (Contains_byte_absent "(") by by apply TrimSpace_not_elem_of.
    - rewrite (Contains_byte_absent ")") by by apply TrimSpace_not_elem_of.
      apply andb_false_r. }
  rewrite Hp.
  by rewrite (Contains_byte_absent "{") by by apply TrimSpace_not_elem_of.
Qed.

Lemma parse_bare_string_witness :
  Parse (fun _ => Err (LibError "time: invalid duration")) "  up or down) "
  = Ok (Query.mk "up or down)" ∅ EmptyString 0 0 None).
Proof.
  apply (parse_takes_a_bare_string_as_the_metric_name
           (fun _ => Err (LibError "time: invalid duration")) "  up or down) ").
  - vm_compute. discriminate.
  - vm_compute. intros H. repeat (apply elem_of_cons in H as [H|H]; [discriminate|]).
    by apply elem_of_nil in H.
  - left. vm_compute. intros H.
    repeat (apply elem_of_cons in H as [H|H]; [discriminate|]).
    by apply elem_of_nil in H.
Defined.

(** ** Durations *)

Lemma rev_app_append (a b acc : string) :
  String.rev_app (a +:+ b) acc = String.rev_app b (String.rev_app a acc).
Proof.
  revert acc. induction a as [|c a IH]; intros acc; [done|].
  change (String c a +:+ b) with (String c (a +:+ b)). simpl. apply IH.
Qed.

Lemma rev_snoc (a : string) (c : ascii) :
  String.rev (a +:+ String c EmptyString) = String c (String.rev a).
Proof. unfold String.rev. by rewrite rev_app_append. Qed.

Lemma rev_app_rev_app (s a b : string) :
  String.rev_app (String.rev_app s a) b = String.rev_app a (s +:+ b).
Proof.
  revert a b. induction s as [|c s IH]; intros a b; [done|].
  simpl. rewrite IH. reflexivity.
Qed.

Lemma string_app_nil_r (s : string) : s +:+ EmptyString = s.
Proof.
  induction s as [|c s IH]; [done|].
  change (String c s +:+ EmptyString) with (String c (s +:+ EmptyString)).
  by rewrite IH.
Qed.

Lemma rev_involutive (s : string) : String.rev (String.rev s) = s.
Proof. unfold String.rev. rewrite rev_app_rev_app. simpl. apply string_app_nil_r. Qed.

(** A byte below 128 is part of no space of two or three bytes. *)
Lemma isPlain_spec (c : ascii) :
  strings.isPlain c = true ->
  Ascii.is_space c = false
  /\ (forall b, strings.isSpace2 c b = false)
  /\ (forall b, strings.isSpace2 b c = false)
  /\ (forall b1 b2, strings.isSpace3 c b1 b2 = false)
  /\ (forall b0 b1, strings.isSpace3 b0 b1 c = false).
Proof.
  unfold strings.isPlain, strings.isSpace2, strings.isSpace3.
  intros [Hs Hn%N.ltb_lt]%andb_true_iff. apply negb_true_iff in Hs.
  set (n := Ascii.N_of_ascii c) in *.
  assert (H194 : (n =? 194)%N = false) by (apply N.eqb_neq; lia).
  assert (H225 : (n =? 225)%N = false) by (apply N.eqb_neq; lia).
  assert (H226 : (n =? 226)%N = false) by (apply N.eqb_neq; lia).
  assert (H227 : (n =? 227)%N = false) by (apply N.eqb_neq; lia).
  assert (H133 : (n =? 133)%N = false) by (apply N.eqb_neq; lia).
  assert (H160 : (n =? 160)%N = false) by (apply N.eqb_neq; lia).
  assert (H128 : (n =? 128)%N = false) by (apply N.eqb_neq; lia).
  assert (H168 : (n =? 168)%N = false) by (apply N.eqb_neq; lia).
  assert (H169 : (n =? 169)%N = false) by (apply N.eqb_neq; lia).
  assert (H175 : (n =? 175)%N = false) by (apply N.eqb_neq; lia).
  assert (H159 : (n =? 159)%N = false) by (apply N.eqb_neq; lia).
  assert (Hle : (128 <=? n)%N = false) by (apply N.leb_gt; lia).
  split; [done|]. cbv zeta.
  repeat split; intros;
    rewrite ?H194, ?H225, ?H226, ?H227, ?H133, ?H160, ?H128, ?H168, ?H169,
      ?H175, ?H159, ?Hle; simpl;
    rewrite ?andb_false_r; reflexivity.
Qed.

Lemma trimBy_head sp2 sp3 (b0 : ascii) (r : string) :
  Ascii.is_space b0 = false ->
  (forall b, sp2 b0 b = false) ->
  (forall b1 b2, sp3 b0 b1 b2 = false) ->
  strings.trimBy sp2 sp3 (String b0 r) = String b0 r.
Proof.
  intros Hs H2 H3. simpl. rewrite Hs.
  destruct r as [|b1 [|b2 r2]]; [done|by rewrite H2|by rewrite H2, H3].
Qed.

(** [TrimSpace] leaves a string alone when its first and its last byte are
    bytes below 128 that are no white space. *)
Lemma TrimSpace_ends (c0 c1 : ascii) (r r' : string) :
  strings.isPlain c0 = true -> strings.isPlain c1 = true ->
  String.rev (String c0 r) = String c1 r' ->
  strings.TrimSpace (String c0 r) = String c0 r.
Proof.
  intros (H0 & H02 & _ & H03 & _)%isPlain_spec
         (H1 & _ & H12 & _ & H13)%isPlain_spec Hrev.
  unfold strings.TrimSpace, strings.trimLeft, strings.trimRight.
  rewrite trimBy_head by done. rewrite Hrev.
  rewrite trimBy_head by done. rewrite <- Hrev. apply rev_involutive.
Qed.

(** [TrimSpace] leaves a string of such bytes as it is. *)
Lemma TrimSpace_id (s : string) :
  (forall c, c ∈ String.list_ascii_of_string s -> strings.isPlain c = true) ->
  strings.TrimSpace s = s.
Proof.
  intros H. destruct s as [|c0 r]; [reflexivity|].
  destruct (String.rev (String c0 r)) as [|c1 r'] eqn:Hrev.
  { apply (f_equal String.rev) in Hrev. by rewrite rev_involutive in Hrev. }
  apply (TrimSpace_ends c0 c1 r r'); [|  |exact Hrev].
  - apply H, list_elem_of_here.
  - apply H.
    assert (Hin : c1 ∈ String.list_ascii_of_string (String.rev (String c0 r)))
      by (rewrite Hrev; apply list_elem_of_here).
    unfold String.rev in Hin.
    apply rev_app_elem_of in Hin as [Hin|Hin]; [done|].
    by apply elem_of_nil in Hin.
Qed.

Lemma list_ascii_of_string_app (a b : string) :
  String.list_ascii_of_string (a +:+ b)
  = String.list_ascii_of_string a ++ String.list_ascii_of_string b.
Proof.
  induction a as [|c a IH]; [done|].
  change (String c a +:+ b) with (String c (a +:+ b)). simpl. by rewrite IH.
Qed.

Lemma substring_app_l (a b : string) :
  String.substring 0 (String.length a) (a +:+ b) = a.
Proof.
  induction a as [|c a IH]; [by destruct b|].
  change (String c a +:+ b) with (String c (a +:+ b)). simpl. by rewrite IH.
Qed.

Lemma digit_plain (c : ascii) (d : Z) :
  strconv.digit c = Some d -> strings.isPlain c = true.
Proof.
  unfold strconv.digit.
  destruct c as [[] [] [] [] [] [] [] []]; simpl; try discriminate; reflexivity.
Qed.

Lemma digits_plain (s : string) (acc n : Z) :
  strconv.digits s acc = Some n ->
  forall c, c ∈ String.list_ascii_of_string s -> strings.isPlain c = true.
Proof.
  revert acc. induction s as [|b s IH]; intros acc; simpl.
  - intros _ c Hc. by apply elem_of_nil in Hc.
  - destruct (strconv.digit b) as [d|] eqn:Hd; [|done].
    intros Hs c [->|Hc]%elem_of_cons; [by eapply digit_plain|by eapply IH].
Qed.

(** A string that [Atoi] accepts holds bytes below 128 and no white space. *)
Lemma Atoi_plain (s : string) (v : Z) :
  strconv.Atoi s = Ok v ->
  forall c, c ∈ String.list_ascii_of_string s -> strings.isPlain c = true.
Proof.
  unfold strconv.Atoi.
  set (sign := match s with
               | String "-" r => (true, r)
               | String "+" r => (false, r)
               | _ => (false, s)
               end).
  assert (Hbody : forall c,
            c ∈ String.list_ascii_of_string s ->
            c ∈ String.list_ascii_of_string sign.2 \/ strings.isPlain c = true).
  { intros c Hc. unfold sign. destruct s as [|b r]; [by left|].
    destruct b as [[] [] [] [] [] [] [] []]; simpl; try (by left);
      apply elem_of_cons in Hc as [->|Hc]; auto. }
  destruct sign as [neg body]. simpl in Hbody.
  destruct body as [|b body]; [done|].
  destruct (strconv.digits (String b body) 0) as [n|] eqn:Hd; [|done].
  intros _ c Hc. destruct (Hbody c Hc) as [Hin|?]; [|done].
  by eapply digits_plain.
Qed.

(** How [parseDuration] reads a number followed by one unit letter. *)
Lemma parseDuration_unit (digits : string) (unit : ascii) (v : Z) :
  strconv.Atoi digits = Ok v ->
  strings.isPlain unit = true ->
  let duration := digits +:+ String unit EmptyString in
  strings.TrimSpace duration = duration
  /\ duration <> EmptyString
  /\ atoiPrefix duration = Ok v
  /\ forall c, strings.HasSuffix duration (String c EmptyString)
               = bool_decide (c = unit).
Proof.
  intros Hatoi Hunit duration.
  assert (Hlen : strings.len duration = Z.of_nat (String.length digits) + 1).
  { unfold strings.len, duration. rewrite string_length_app. simpl. lia. }
  split; [|split; [|split]].
  - apply TrimSpace_id. intros c. unfold duration.
    rewrite list_ascii_of_string_app, elem_of_app. simpl.
    intros [Hc|Hc%list_elem_of_singleton]; [by eapply Atoi_plain|by subst].
  - unfold duration. destruct digits; done.
  - unfold atoiPrefix, strings.slice. rewrite Hlen.
    assert (Hb : (0 <=? 0) && (0 <=? Z.of_nat (String.length digits) + 1 - 1)
                 && (Z.of_nat (String.length digits) + 1 - 1
                     <=? Z.of_nat (String.length digits) + 1) = true).
    { rewrite !andb_true_iff, !Z.leb_le. lia. }
    rewrite Hb.
    replace (Z.to_nat (Z.of_nat (String.length digits) + 1 - 1 - 0))
      with (String.length digits) by lia.
    unfold duration. simpl. rewrite substring_app_l. simpl. exact Hatoi.
  - intros c. unfold strings.HasSuffix, duration. rewrite rev_snoc.
    unfold String.rev. simpl.
    destruct (ascii_dec c unit) as [->|Hne].
    + rewrite bool_decide_eq_true_2 by done. by destruct (String.rev_app digits _).
    + by rewrite bool_decide_eq_false_2.
Qed.

(** X10: the duration literals of [parseDuration].  For every string of
    digits (with an optional sign) that [strconv.Atoi] reads as [v], the
    literal made of that string and the letter s, m, h or d is the duration
    of [v] seconds, minutes, hours or days of 24 hours, in nanoseconds and
    wrapped around to 64 bits: there is no range check, and a negative [v]
    gives a negative duration.  [time.ParseDuration] is not consulted for
    these literals. *)
Theorem parseDuration_reads_the_four_units :
  forall time_ParseDuration (digits : string) (v : Z),
    strconv.Atoi digits = Ok v ->
    parseDuration time_ParseDuration (digits +:+ "s") = Ok (wrap64 (v * time.Second))
    /\ parseDuration time_ParseDuration (digits +:+ "m")
       = Ok (wrap64 (v * time.Minute))
    /\ parseDuration time_ParseDuration (digits +:+ "h")
       = Ok (wrap64 (v * time.Hour))
    /\ parseDuration time_ParseDuration (digits +:+ "d")
       = Ok (wrap64 (wrap64 (v * 24) * time.Hour)).
Proof.
  intros time_ParseDuration digits v Hatoi.
  repeat split; unfold parseDuration;
    match goal with
    | |- context [digits +:+ String ?u EmptyString] =>
        destruct (parseDuration_unit digits u v Hatoi eq_refl)
          as (-> & Hne & -> & Hsuf)
    end;
    rewrite decide_False by done; rewrite !Hsuf; reflexivity.
Qed.

Lemma parseDuration_units_witness :
  parseDuration (fun _ => Err (LibError "time: invalid duration")) "-5m"
  = Ok (-300000000000)
  /\ parseDuration (fun _ => Err (LibError "time: invalid duration")) "2d"
     = Ok 172800000000000.
Proof.
  destruct (parseDuration_reads_the_four_units
              (fun _ => Err (LibError "time: invalid duration")) "-5" (-5))
    as (_ & Hm & _ & _); [reflexivity|].
  destruct (parseDuration_reads_the_four_units
              (fun _ => Err (LibError "time: invalid duration")) "2" 2)
    as (_ & _ & _ & Hd); [reflexivity|].
  split; [exact Hm|exact Hd].
Defined.

(** ** Brackets out of order *)

Lemma index_byte_lt (c : ascii) (s : string) (n : nat) :
  String.index 0 (String c EmptyString) s = Some n -> (n < String.length s)%nat.
Proof.
  revert n. induction s as [|b s IH]; intros n; simpl; [done|].
  destruct (ascii_dec c b) as [->|_].
  - assert (Hp : String.prefix EmptyString s = true) by (by destruct s).
    rewrite Hp. intros [= <-]. lia.
  - destruct (String.index 0 (String c EmptyString) s) as [m|]; [|done].
    intros [= <-]. specialize (IH m eq_refl). lia.
Qed.

Lemma Index_byte_range (c : ascii) (s : string) :
  -1 <= strings.Index s (String c EmptyString) < strings.len s
  \/ (strings.Index s (String c EmptyString) = -1 /\ strings.len s = 0).
Proof.
  unfold strings.Index, strings.len.
  destruct (String.index 0 (String c EmptyString) s) as [n|] eqn:Hn.
  - apply index_byte_lt in Hn. left. lia.
  - destruct s; simpl; [right; done|left; lia].
Qed.

Lemma slice_prefix_Ok (s : string) (hi : Z) :
  0 <= hi <= strings.len s -> exists part, strings.slice s 0 hi = Ok part.
Proof.
  intros H. unfold strings.slice.
  assert (Hb : (0 <=? 0) && (0 <=? hi) && (hi <=? strings.len s) = true)
    by (rewrite !andb_true_iff, !Z.leb_le; lia).
  rewrite Hb. eauto.
Qed.

Lemma slice_reversed (s : string) (lo hi : Z) :
  hi < lo -> strings.slice s lo hi = Err (Panic "slice bounds out of range").
Proof.
  intros H. unfold strings.slice.
  assert (Hb : (lo <=? hi) = false) by (apply Z.leb_gt; lia).
  by rewrite Hb, andb_false_r.
Qed.

(** X11: closing brackets that come first make the parser panic.  When the
    first "]" of the argument stands before its first "[",
    [parseMetricWithRange] slices [query[rangeStart+1 : rangeEnd]] with the
    bounds reversed, which is a run-time panic, not a parse error; and
    [parseMetricWithLabels] does the same when the first closing brace
    stands before the first opening brace. *)
Theorem closing_bracket_first_panics :
  forall time_ParseDuration (query : string),
    (0 <= strings.Index query "]" < strings.Index query "[" ->
     parseMetricWithRange time_ParseDuration query
     = Err (Panic "slice bounds out of range"))
    /\ (0 <= strings.Index query "}" < strings.Index query "{" ->
        parseMetricWithLabels query = Err (Panic "slice bounds out of range")).
Proof.
  intros time_ParseDuration query. split.
  - intros Hidx. unfold parseMetricWithRange.
    assert (H1 : (strings.Index query "[" =? -1) = false) by (apply Z.eqb_neq; lia).
    assert (H2 : (strings.Index query "]" =? -1) = false) by (apply Z.eqb_neq; lia).
    rewrite H1, H2.
    destruct (slice_prefix_Ok query (strings.Index query "[")) as [part ->].
    { destruct (Index_byte_range "[" query); lia. }
    simpl. by rewrite slice_reversed by lia.
  - intros Hidx. unfold parseMetricWithLabels.
    assert (H1 : (strings.Index query "{" =? -1) = false) by (apply Z.eqb_neq; lia).
    assert (H2 : (strings.Index query "}" =? -1) = false) by (apply Z.eqb_neq; lia).
    rewrite H1, H2.
    destruct (slice_prefix_Ok query (strings.Index query "{")) as [part ->].
    { destruct (Index_byte_range "{" query); lia. }
    simpl. by rewrite slice_reversed by lia.
Qed.

Lemma closing_bracket_first_witness :
  parseMetricWithRange (fun _ => Err (LibError "time: invalid duration"))
                       "up]5m["
  = Err (Panic "slice bounds out of range")
  /\ parseMetricWithLabels "up}job{" = Err (Panic "slice bounds out of range").
Proof.
  destruct (closing_bracket_first_panics
              (fun _ => Err (LibError "time: invalid duration")) "up]5m[")
    as [Hr _].
  destruct (closing_bracket_first_panics
              (fun _ => Err (LibError "time: invalid duration")) "up}job{")
    as [_ Hl].
  split; [apply Hr|apply Hl]; vm_compute; (split; [discriminate|reflexivity]).
Defined.

(** ** Label selectors *)

Lemma index_byte_app (c : ascii) (a b : string) :
  c ∉ String.list_ascii_of_string a ->
  String.index 0 (String c EmptyString) (a +:+ String c b)
  = Some (String.length a).
Proof.
  induction a as [|x a IH]; intros Hnin.
  - change (EmptyString +:+ String c b) with (String c b). simpl.
    destruct (ascii_dec c c) as [_|Hne]; [|done]. by destruct b.
  - apply not_elem_of_cons in Hnin as [Hne Hnin].
    change (String x a +:+ String c b) with (String x (a +:+ String c b)). simpl.
    destruct (ascii_dec c x) as [->|_]; [done|]. by rewrite IH.
Qed.

Lemma substring_app_r (a b : string) (c : ascii) (m : nat) :
  String.substring (S (String.length a)) m (a +:+ String c b)
  = String.substring 0 m b.
Proof.
  induction a as [|x a IH]; [done|].
  change (String x a +:+ String c b) with (String x (a +:+ String c b)).
  simpl. apply IH.
Qed.

Lemma get_app_snoc (a : string) (c : ascii) :
  String.get (String.length a) (a +:+ String c EmptyString) = Some c.
Proof.
  induction a as [|x a IH]; [done|].
  change (String x a +:+ String c EmptyString)
    with (String x (a +:+ String c EmptyString)).
  simpl. apply IH.
Qed.

Lemma splitGo_no_sep (sep : ascii) (s cur : string) :
  sep ∉ String.list_ascii_of_string s ->
  strings.splitGo sep s cur = [String.rev (String.rev_app s cur)].
Proof.
  revert cur. induction s as [|c s IH]; intros cur Hnin; simpl; [done|].
  apply not_elem_of_cons in Hnin as [Hne Hnin].
  rewrite decide_False by done. by apply IH.
Qed.

Lemma Split_no_sep (sep : ascii) (s : string) :
  sep ∉ String.list_ascii_of_string s -> strings.Split s sep = [s].
Proof.
  intros H. unfold strings.Split. rewrite splitGo_no_sep by done.
  f_equal. apply rev_involutive.
Qed.

(** X12: a label pair [key="value"].  For a key that is not empty and made
    of bytes below 128, none of them white space or "=", [parseLabelPair] on
    the key, "=", and the value between double quotes sets the key to the
    value with the two quotes removed, whatever bytes the value holds,
    replacing any earlier entry of the key; and when neither holds a comma,
    [parseLabels] on that text alone returns the map with just this entry. *)
Theorem label_pair_sets_the_unquoted_value :
  forall (labels : gmap string string) (key value : string),
    key <> EmptyString ->
    (forall c, c ∈ String.list_ascii_of_string key -> strings.isPlain c = true) ->
    "="%char ∉ String.list_ascii_of_string key ->
    parseLabelPair labels (key +:+ "=" +:+ dq +:+ value +:+ dq)
    = Ok (<[ key := value ]> labels)
    /\ (","%char ∉ String.list_ascii_of_string key ->
        ","%char ∉ String.list_ascii_of_string value ->
        parseLabels (key +:+ "=" +:+ dq +:+ value +:+ dq)
        = Ok {[ key := value ]}).
Proof.
  intros labels key value Hne Hspace Heq.
  set (q := "034"%char).
  set (vq := String q (value +:+ String q EmptyString)).
  assert (Hpair : key +:+ "=" +:+ dq +:+ value +:+ dq = key +:+ String "=" vq)
    by reflexivity.
  assert (Htrim : strings.TrimSpace (key +:+ String "=" vq) = key +:+ String "=" vq).
  { destruct key as [|k0 key']; [done|].
    change (String k0 key' +:+ String "=" vq)
      with (String k0 (key' +:+ String "=" vq)).
    eapply (TrimSpace_ends k0 q).
    - apply Hspace, list_elem_of_here.
    - reflexivity.
    - change (String k0 (key' +:+ String "=" vq))
        with (String k0 key' +:+ String "=" vq).
      unfold String.rev. rewrite rev_app_append. unfold vq. simpl.
      rewrite rev_app_append. simpl. reflexivity. }
  assert (Hvtrim : strings.TrimSpace vq = vq).
  { eapply (TrimSpace_ends q q); [reflexivity|reflexivity|].
    unfold vq, String.rev. simpl. rewrite rev_app_append. simpl. reflexivity. }
  assert (Hlen : String.length vq = S (S (String.length value))).
  { unfold vq. simpl. rewrite string_length_app. simpl. lia. }
  assert (Hone : forall labels',
            parseLabelPair labels' (key +:+ String "=" vq)
            = Ok (<[ key := value ]> labels')).
  { intros labels'. unfold parseLabelPair. rewrite Htrim.
    rewrite decide_False by (destruct key; done).
    unfold strings.SplitN2. rewrite index_byte_app by done.
    rewrite substring_app_l, substring_app_r.
    replace (String.length (key +:+ String "=" vq) - S (String.length key))%nat
      with (String.length vq)
      by (rewrite string_length_app; simpl; lia).
    rewrite substring_all, Hvtrim, (TrimSpace_id key) by done.
    unfold strings.len. rewrite Hlen.
    assert (H2 : (2 <=? Z.of_nat (S (S (String.length value)))) = true)
      by (apply Z.leb_le; lia).
    rewrite H2.
    assert (Hfirst : strings.at_ vq 0 = Some q) by reflexivity.
    assert (Hlast : strings.at_ vq (Z.of_nat (S (S (String.length value))) - 1)
                    = Some q).
    { unfold strings.at_.
      assert (Hb : (0 <=? Z.of_nat (S (S (String.length value))) - 1) = true)
        by (apply Z.leb_le; lia).
      rewrite Hb.
      replace (Z.to_nat (Z.of_nat (S (S (String.length value))) - 1))
        with (S (String.length value)) by lia.
      unfold vq. simpl. apply get_app_snoc. }
    rewrite Hfirst, Hlast, !bool_decide_eq_true_2 by done. simpl.
    unfold strings.slice, strings.len. rewrite Hlen.
    assert (Hb : (0 <=? 1)
                 && (1 <=? Z.of_nat (S (S (String.length value))) - 1)
                 && (Z.of_nat (S (S (String.length value))) - 1
                     <=? Z.of_nat (S (S (String.length value)))) = true)
      by (rewrite !andb_true_iff, !Z.leb_le; lia).
    rewrite Hb.
    replace (Z.to_nat (Z.of_nat (S (S (String.length value))) - 1 - 1))
      with (String.length value) by lia.
    change (Z.to_nat 1) with 1%nat. unfold vq. simpl.
    rewrite substring_app_l. reflexivity. }
  rewrite Hpair. split; [apply Hone|].
  intros Hck Hcv. unfold parseLabels.
  rewrite decide_False by (destruct key; done).
  rewrite Split_no_sep.
  - simpl. rewrite Hone. simpl. by rewrite insert_empty.
  - rewrite list_ascii_of_string_app. unfold vq. simpl.
    rewrite list_ascii_of_string_app. simpl.
    rewrite elem_of_app, !elem_of_cons, elem_of_app, !elem_of_cons, elem_of_nil.
    intros [?|[?|[?|[?|[?|[]]]]]]; done.
Qed.

Lemma label_pair_witness :
  parseLabels ("job=" +:+ dq +:+ "a b=c" +:+ dq) = Ok {[ "job" := "a b=c" ]}.
Proof.
  apply (label_pair_sets_the_unquoted_value ∅ "job" "a b=c").
  - discriminate.
  - intros c Hc. repeat (apply elem_of_cons in Hc as [->|Hc]; [reflexivity|]).
    by apply elem_of_nil in Hc.
  - intros Hc. repeat (apply elem_of_cons in Hc as [Hc|Hc]; [discriminate|]).
    by apply elem_of_nil in Hc.
  - intros Hc. repeat (apply elem_of_cons in Hc as [Hc|Hc]; [discriminate|]).
    by apply elem_of_nil in Hc.
  - intros Hc. repeat (apply elem_of_cons in Hc as [Hc|Hc]; [discriminate|]).
    by apply elem_of_nil in Hc.
Defined.

(** X13: a label pair without "=".  [parseLabelPair] skips a pair that is
    blank, leaving the labels as they are (so a trailing comma is accepted),
    and rejects any other pair that holds no "=" with the error
    "invalid label selector: " followed by the trimmed pair. *)
Theorem label_pair_without_equals :
  forall (labels : gmap string string) (pair_ : string),
    "="%char ∉ String.list_ascii_of_string pair_ ->
    (strings.TrimSpace pair_ = EmptyString ->
     parseLabelPair labels pair_ = Ok labels)
    /\ (strings.TrimSpace pair_ <> EmptyString ->
        parseLabelPair labels pair_
        = Err (Errorf ("invalid label selector: " +:+ strings.TrimSpace pair_))).
Proof.
  intros labels pair_ Hnin. unfold parseLabelPair. split.
  - intros ->. reflexivity.
  - intros Hne. rewrite decide_False by done.
    unfold strings.SplitN2.
    by rewrite index_byte_None by by apply TrimSpace_not_elem_of.
Qed.

Lemma label_pair_without_equals_witness :
  parseLabelPair ∅ " job " = Err (Errorf "invalid label selector: job")
  /\ parseLabelPair ∅ "  " = Ok ∅.
Proof.
  destruct (label_pair_without_equals ∅ " job ") as [_ Herr].
  { intros Hc. repeat (apply elem_of_cons in Hc as [Hc|Hc]; [discriminate|]).
    by apply elem_of_nil in Hc. }
  destruct (label_pair_without_equals ∅ "  ") as [Hskip _].
  { intros Hc. repeat (apply elem_of_cons in Hc as [Hc|Hc]; [discriminate|]).
    by apply elem_of_nil in Hc. }
  split; [apply Herr; discriminate|apply Hskip; reflexivity].
Defined.

(* ===================================================================== *)
(** * Further properties of the two trace adapters *)
(* ===================================================================== *)

(** X15: the times of a span of the RPC adapter.  The two times are uint64
    counts of nanoseconds.  [processSpan] stores as the duration the signed
    difference end - start whenever that difference fits an int64: a span
    that ends before it starts gets a negative duration, it is neither
    rejected nor clamped.  The start is stored as it is when it is below
    2^63 and 2^64 lower otherwise. *)
Theorem grpc_duration_is_the_signed_difference :
  forall json_Marshal (span : otlppb.Span) (serviceName : string),
    0 <= otlppb.StartTimeUnixNano span < 2 ^ 64 ->
    0 <= otlppb.EndTimeUnixNano span < 2 ^ 64 ->
    minInt64 <= otlppb.EndTimeUnixNano span - otlppb.StartTimeUnixNano span
             <= maxInt64 ->
    Trace.DurationNanos (grpcTrace json_Marshal span serviceName)
    = otlppb.EndTimeUnixNano span - otlppb.StartTimeUnixNano span
    /\ Trace.StartTime (grpcTrace json_Marshal span serviceName)
       = (if otlppb.StartTimeUnixNano span <? 2 ^ 63
          then otlppb.StartTimeUnixNano span
          else otlppb.StartTimeUnixNano span - 2 ^ 64).
Proof.
  intros json_Marshal span serviceName Hs He Hd.
  unfold grpcTrace, time.Unix, minInt64, maxInt64 in *. simpl.
  set (s := otlppb.StartTimeUnixNano span) in *.
  set (e := otlppb.EndTimeUnixNano span) in *.
  split.
  - unfold wrap64. rewrite Zplus_mod_idemp_l.
    rewrite Z.mod_small by lia. lia.
  - unfold wrap64. destruct (s <? 2 ^ 63) eqn:Hlt.
    + apply Z.ltb_lt in Hlt. rewrite Z.mod_small by lia. lia.
    + apply Z.ltb_ge in Hlt.
      replace (s + 2 ^ 63) with ((s - 2 ^ 63) + 1 * 2 ^ 64) by lia.
      rewrite Z.mod_add by lia. rewrite Z.mod_small by lia. lia.
Qed.

Lemma grpc_duration_witness :
  Trace.DurationNanos
    (grpcTrace (fun _ => Ok "{}")
       (otlppb.mkSpan "t" "s" "" "op" 3000000000 1000000000 None []) "api")
  = -2000000000.
Proof.
  apply (grpc_duration_is_the_signed_difference (fun _ => Ok "{}")
           (otlppb.mkSpan "t" "s" "" "op" 3000000000 1000000000 None [])
           "api");
    unfold minInt64, maxInt64; simpl; lia.
Defined.

Lemma insertLogged_fold_open (traces : list Trace.t) (db : DB.t) :
  DB.closed db = false ->
  fold_left insertLogged traces db
  = DB.mk (DB.metrics db)
      (DB.traces db
       ++ ((fun trace =>
              TraceRow.mk (Trace.TraceID trace) (Trace.SpanID trace)
                (Trace.ParentSpanID trace) (Trace.ServiceName trace)
                (Trace.OperationName trace)
                (time.toUnixNano (Trace.StartTime trace))
                (Trace.DurationNanos trace)
                (Trace.Attributes trace) (Trace.StatusCode trace))
             <$> traces))
      false.
Proof.
  revert db. induction traces as [|trace traces IH]; intros [ms ts c] Hopen;
    simpl in *; subst c.
  - by rewrite app_nil_r.
  - rewrite IH by done. simpl. by rewrite <- app_assoc.
Qed.

Lemma insertLogged_fold_closed (traces : list Trace.t) (db : DB.t) :
  DB.closed db = true -> fold_left insertLogged traces db = db.
Proof.
  intros Hclosed. induction traces as [|trace traces IH]; simpl; [done|].
  unfold insertLogged at 2, InsertTrace. by rewrite Hclosed.
Qed.

Lemma fmap_bind {A B C} (f : B -> C) (g : A -> list B) (l : list A) :
  f <$> (l ≫= g) = l ≫= (fun x => f <$> g x).
Proof.
  induction l as [|x l IH]; [reflexivity|].
  by rewrite !bind_cons, fmap_app, IH.
Qed.

Lemma convertStatusCode_range (status : option Z) :
  convertStatusCode status ∈ ["UNSET"; "OK"; "ERROR"; "UNKNOWN"].
Proof.
  destruct status as [[|[p|[p|p|]|]|p]|]; simpl; elem_of_literal.
Qed.

(** X16: what a trace request leaves in the database.  On an open database
    either adapter appends one row per span of the request, in the order of
    the request, after the rows already there, and leaves the metrics table
    alone.  The rows of the RPC adapter all carry a service name that is not
    empty, a parent span id that is absent or not empty, and one of the four
    status names; the rows of the JSON adapter carry the status text of the
    wire unchanged.  On a closed database both adapters leave the database
    as it is. *)
Theorem trace_adapters_store_one_row_per_span :
  forall json_Marshal parseRFC3339Rest (db : DB.t),
    (DB.closed db = false ->
     (forall req,
        let db' := Export json_Marshal db req in
        DB.metrics db' = DB.metrics db
        /\ exists rows,
             DB.traces db' = DB.traces db ++ rows
             /\ TraceRow.span_id <$> rows
                = (rs ← req; ss ← otlppb.ScopeSpansList rs;
                   otlppb.SpanId <$> otlppb.Spans ss)
             /\ Forall (fun row =>
                          TraceRow.service_name row <> EmptyString
                          /\ TraceRow.parent_span_id row <> Some EmptyString
                          /\ TraceRow.status_code row
                             ∈ ["UNSET"; "OK"; "ERROR"; "UNKNOWN"]) rows)
     /\ (forall req,
           let db' := HandleTraces json_Marshal parseRFC3339Rest db req in
           DB.metrics db' = DB.metrics db
           /\ exists rows,
                DB.traces db' = DB.traces db ++ rows
                /\ (fun row => (TraceRow.span_id row, TraceRow.status_code row))
                     <$> rows
                   = (rs ← req; ss ← otlpjson.ScopeSpansList rs;
                      (fun span => (otlpjson.SpanId span, otlpjson.StatusCode span))
                        <$> otlpjson.Spans ss)))
    /\ (DB.closed db = true ->
        (forall req, Export json_Marshal db req = db)
        /\ (forall req, HandleTraces json_Marshal parseRFC3339Rest db req = db)).
Proof.
  intros json_Marshal parseRFC3339Rest db. split.
  - intros Hopen. split.
    + intros req. unfold Export. rewrite insertLogged_fold_open by done. simpl.
      split; [reflexivity|]. eexists. split; [reflexivity|]. split.
      * rewrite <- list_fmap_compose. unfold grpcTraces.
        rewrite fmap_bind. apply list_bind_ext; [|reflexivity]. intros rs.
        rewrite fmap_bind. apply list_bind_ext; [|reflexivity]. intros ss.
        rewrite <- list_fmap_compose. reflexivity.
      * apply Forall_fmap, Forall_forall. intros trace Hin.
        unfold grpcTraces in Hin.
        apply list_elem_of_bind in Hin as (rs & Hin & _).
        apply list_elem_of_bind in Hin as (ss & Hin & _).
        apply list_elem_of_fmap in Hin as (span & -> & _). simpl.
        split; [apply extractServiceName_nonempty|].
        split; [|apply convertStatusCode_range].
        case_decide; congruence.
    + intros req. unfold HandleTraces. rewrite insertLogged_fold_open by done.
      simpl. split; [reflexivity|]. eexists. split; [reflexivity|].
      rewrite <- list_fmap_compose. unfold httpTraces.
      rewrite fmap_bind. apply list_bind_ext; [|reflexivity]. intros rs.
      rewrite fmap_bind. apply list_bind_ext; [|reflexivity]. intros ss.
      rewrite <- list_fmap_compose. reflexivity.
  - intros Hclosed. split; intros req.
    + unfold Export. by apply insertLogged_fold_closed.
    + unfold HandleTraces. by apply insertLogged_fold_closed.
Qed.

Lemma trace_adapters_witness :
  let db' :=
    Export (fun _ => Ok "{}") DB.empty
      [otlppb.mkResourceSpans None
         [otlppb.mkScopeSpans
            [otlppb.mkSpan "t" "a" "" "op" 1 2 (Some 7) [];
             otlppb.mkSpan "t" "b" "a" "op" 2 3 None []]]] in
  DB.metrics db' = []
  /\ exists rows,
       DB.traces db' = rows
       /\ TraceRow.span_id <$> rows = ["a"; "b"]
       /\ Forall (fun row =>
                    TraceRow.service_name row <> EmptyString
                    /\ TraceRow.parent_span_id row <> Some EmptyString
                    /\ TraceRow.status_code row
                       ∈ ["UNSET"; "OK"; "ERROR"; "UNKNOWN"]) rows.
Proof.
  exact (proj1 (proj1 (trace_adapters_store_one_row_per_span
                         (fun _ => Ok "{}")
                         (fun _ => Err (LibError "parsing time"))
                         DB.empty) eq_refl)
           [otlppb.mkResourceSpans None
              [otlppb.mkScopeSpans
                 [otlppb.mkSpan "t" "a" "" "op" 1 2 (Some 7) [];
                  otlppb.mkSpan "t" "b" "a" "op" 2 3 None []]]]).
Defined.

(* ===================================================================== *)
(** * The metrics adapters *)
(* ===================================================================== *)

(** ** Steps on an open database *)

Lemma appends_skip : appends skip [].
Proof. intros [ms ts c] Hopen. simpl in *. subst c. by rewrite app_nil_r. Qed.

Lemma appends_insertMetric (metric : Metric.t) :
  PrimFloat.is_nan (Metric.Value metric) = false ->
  appends (insertMetric metric) [rowOf metric].
Proof.
  intros Hnan [ms ts c] Hopen. simpl in *. subst c.
  unfold insertMetric, InsertMetric. simpl. by rewrite Hnan.
Qed.

(** An insert whose error is only logged: a NaN leaves no row. *)
Lemma appends_logged_insertMetric (metric : Metric.t) :
  appends (logged (insertMetric metric))
    (if PrimFloat.is_nan (Metric.Value metric) then [] else [rowOf metric]).
Proof.
  intros [ms ts c] Hopen. simpl in *. subst c.
  unfold logged, insertMetric, InsertMetric. simpl.
  destruct (PrimFloat.is_nan (Metric.Value metric)); simpl; [|done].
  by rewrite app_nil_r.
Qed.

(** ** The conversion of an integer is no NaN *)

Lemma shr_1_nonneg (mrs : SpecFloat.shr_record) :
  0 <= SpecFloat.shr_m mrs -> 0 <= SpecFloat.shr_m (SpecFloat.shr_1 mrs).
Proof. destruct mrs as [m r s]. destruct m as [|[p|p|]|p]; simpl; lia. Qed.

Lemma iter_shr_1_nonneg (p : positive) (mrs : SpecFloat.shr_record) :
  0 <= SpecFloat.shr_m mrs ->
  0 <= SpecFloat.shr_m (SpecFloat.iter_pos SpecFloat.shr_1 p mrs).
Proof.
  revert mrs. induction p as [p IH|p IH|]; intros mrs H; simpl.
  - by apply IH, IH, shr_1_nonneg.
  - by apply IH, IH.
  - by apply shr_1_nonneg.
Qed.

Lemma shr_fexp_nonneg (prec emax m e : Z) (l : SpecFloat.location) :
  0 <= m -> 0 <= SpecFloat.shr_m (SpecFloat.shr_fexp prec emax m e l).1.
Proof.
  intros H. unfold SpecFloat.shr_fexp, SpecFloat.shr.
  assert (H0 : 0 <= SpecFloat.shr_m (SpecFloat.shr_record_of_loc m l))
    by (destruct l as [|[]]; exact H).
  destruct (_ - _) as [|p|p]; simpl; [done| |done].
  by apply iter_shr_1_nonneg.
Qed.

Lemma round_nearest_even_nonneg (mx : Z) (lx : SpecFloat.location) :
  0 <= mx -> 0 <= SpecFloat.round_nearest_even mx lx.
Proof.
  intros H. destruct lx as [|[]]; simpl; try lia. destruct (Z.even mx); lia.
Qed.

Lemma binary_round_not_nan (prec emax : Z) (sx : bool) (mx : positive) (ex : Z) :
  SpecFloat.binary_round prec emax sx mx ex <> SpecFloat.S754_nan.
Proof.
  unfold SpecFloat.binary_round.
  destruct (SpecFloat.shl_align _ _ _) as [mz ez].
  unfold SpecFloat.binary_round_aux.
  pose proof (shr_fexp_nonneg prec emax (Zpos mz) ez SpecFloat.loc_Exact) as H1.
  destruct (SpecFloat.shr_fexp prec emax (Zpos mz) ez SpecFloat.loc_Exact)
    as [mrs1 e1].
  simpl in H1.
  pose proof (shr_fexp_nonneg prec emax
                (SpecFloat.round_nearest_even (SpecFloat.shr_m mrs1)
                   (SpecFloat.loc_of_shr_record mrs1))
                e1 SpecFloat.loc_Exact) as H2.
  destruct (SpecFloat.shr_fexp prec emax _ e1 SpecFloat.loc_Exact) as [mrs2 e2].
  simpl in H2.
  destruct (SpecFloat.shr_m mrs2) as [|m|m] eqn:Hm; [done| |].
  - by destruct (e2 <=? emax - prec).
  - assert (0 <= Zneg m) by (apply H2, round_nearest_even_nonneg, H1; lia). lia.
Qed.

Lemma binary_normalize_not_nan (prec emax m e : Z) (szero : bool) :
  SpecFloat.binary_normalize prec emax m e szero <> SpecFloat.S754_nan.
Proof. destruct m; simpl; [done|apply binary_round_not_nan..]. Qed.

Lemma is_nan_Prim2SF (f : float) :
  FloatOps.Prim2SF f <> SpecFloat.S754_nan -> PrimFloat.is_nan f = false.
Proof. unfold FloatOps.Prim2SF. by destruct (PrimFloat.is_nan f). Qed.

Lemma float64_of_Z_not_nan (n : Z) : PrimFloat.is_nan (float64_of_Z n) = false.
Proof.
  apply is_nan_Prim2SF. unfold float64_of_Z.
  pose proof (binary_normalize_not_nan FloatOps.prec FloatOps.emax n 0 false)
    as Hn.
  destruct (SpecFloat.binary_normalize FloatOps.prec FloatOps.emax n 0 false)
    as [sz|si| |sf m e]; [destruct sz; by vm_compute|destruct si; by vm_compute
                         |done|].
  clear Hn. unfold FloatOps.SF2Prim.
  assert (Hld : FloatOps.Prim2SF
                  (FloatOps.Z.ldexp
                     (PrimFloat.of_uint63 (Uint63.of_Z (Z.pos m))) e)
                <> SpecFloat.S754_nan).
  { rewrite FloatLemmas.Z_ldexp_spec, FloatAxioms.of_uint63_spec.
    pose proof (binary_normalize_not_nan FloatOps.prec FloatOps.emax
                  (Uint63.to_Z (Uint63.of_Z (Z.pos m))) 0 false) as Hn.
    destruct (SpecFloat.binary_normalize _ _ _ _ _); simpl; try done.
    apply binary_round_not_nan. }
  destruct sf; [|exact Hld].
  rewrite FloatAxioms.opp_spec.
  by destruct (FloatOps.Prim2SF _).
Qed.

Lemma appends_andThen (a b : step) (rows1 rows2 : list MetricRow.t) :
  appends a rows1 -> appends b rows2 -> appends (andThen a b) (rows1 ++ rows2).
Proof.
  intros Ha Hb db Hopen. unfold andThen. rewrite (Ha db Hopen).
  rewrite Hb by reflexivity. simpl. by rewrite <- app_assoc.
Qed.

Lemma appends_forEach {A} (f : A -> step) (g : A -> list MetricRow.t) (l : list A) :
  (forall x, x ∈ l -> appends (f x) (g x)) ->
  appends (forEach f l) (l ≫= g).
Proof.
  induction l as [|x l IH]; intros Hf.
  - apply appends_skip.
  - rewrite bind_cons. change (forEach f (x :: l)) with (andThen (f x) (forEach f l)).
    apply appends_andThen.
    + apply Hf, list_elem_of_here.
    + apply IH. intros y Hy. by apply Hf, list_elem_of_further.
Qed.

Lemma appends_logged (a : step) (rows : list MetricRow.t) :
  appends a rows -> appends (logged a) rows.
Proof. intros Ha db Hopen. unfold logged. by rewrite (Ha db Hopen). Qed.

Lemma appends_ext (a : step) (rows1 rows2 : list MetricRow.t) :
  rows1 = rows2 -> appends a rows1 -> appends a rows2.
Proof. by intros ->. Qed.

(** ** Steps on a closed database *)

Lemma inert_skip : inert skip.
Proof. intros db _. by left. Qed.

Lemma inert_insertMetric (metric : Metric.t) : inert (insertMetric metric).
Proof.
  intros db Hclosed. right. unfold insertMetric, InsertMetric.
  by rewrite Hclosed.
Qed.

Lemma inert_andThen_blocked (a b : step) :
  (forall db, DB.closed db = true -> a db = (db, Some errClosed)) ->
  inert (andThen a b).
Proof. intros Ha db Hclosed. right. unfold andThen. by rewrite Ha. Qed.

Lemma inert_andThen (a b : step) : inert a -> inert b -> inert (andThen a b).
Proof.
  intros Ha Hb db Hclosed. unfold andThen.
  destruct (Ha db Hclosed) as [-> | ->]; [by apply Hb|by right].
Qed.

Lemma inert_forEach {A} (f : A -> step) (l : list A) :
  (forall x, inert (f x)) -> inert (forEach f l).
Proof.
  intros Hf. induction l as [|x l IH]; simpl.
  - apply inert_skip.
  - by apply inert_andThen.
Qed.

Lemma inert_logged (a : step) :
  inert a -> forall db, DB.closed db = true -> logged a db = (db, None).
Proof.
  intros Ha db Hclosed. unfold logged.
  by destruct (Ha db Hclosed) as [-> | ->].
Qed.

Lemma forEach_noop {A} (f : A -> step) (l : list A) (db : DB.t) :
  (forall x, f x db = (db, None)) -> forEach f l db = (db, None).
Proof.
  intros Hf. induction l as [|x l IH]; simpl; [done|].
  unfold andThen. by rewrite Hf.
Qed.

(** ** The histogram of the RPC adapter *)

Lemma fst_zip_take {A B} (l : list A) (k : list B) :
  (zip l k).*1 = take (length k) l.
Proof.
  revert k. induction l as [|x l IH]; intros [|y k]; simpl; try done.
  by rewrite IH.
Qed.

Lemma bind_all_nil {A B} (g : A -> list B) (l : list A) :
  (forall x, x ∈ l -> g x = []) -> l ≫= g = [].
Proof.
  induction l as [|x l IH]; intros Hg; [reflexivity|].
  rewrite bind_cons, (Hg x) by apply list_elem_of_here. simpl.
  apply IH. intros y Hy. by apply Hg, list_elem_of_further.
Qed.

(** The loop over the bucket counts visits the counts that have a bound. *)
Lemma bucket_loop {B} (h : Z -> float -> B) (counts : list Z)
    (pre bounds : list float) :
  (imap (fun (i : nat) (c : Z) => ((length pre + i)%nat, c)) counts
   ≫= fun '(i, c) =>
        match (pre ++ bounds) !! i with
        | Some bound => [h c bound]
        | None => []
        end)
  = (fun cb => h cb.1 cb.2) <$> zip counts bounds.
Proof.
  revert pre bounds. induction counts as [|c counts IH]; intros pre bounds;
    [reflexivity|].
  rewrite imap_cons, bind_cons.
  rewrite lookup_app_r by lia.
  replace (length pre + 0 - length pre)%nat with 0%nat by lia.
  destruct bounds as [|bound bounds].
  - simpl. apply bind_all_nil. intros [i c'] Hin.
    apply list_elem_of_lookup in Hin as [j Hj].
    rewrite list_lookup_imap in Hj.
    destruct (counts !! j); simpl in Hj; [|done]. injection Hj as <- <-.
    rewrite lookup_app_r by lia. by rewrite lookup_nil.
  - change ((bound :: bounds) !! 0%nat) with (Some bound).
    change (zip (c :: counts) (bound :: bounds))
      with ((c, bound) :: zip counts bounds).
    rewrite fmap_cons. cbn [fst snd]. cbn [app]. f_equal.
    rewrite <- (IH (pre ++ [bound]) bounds).
    rewrite <- app_assoc. cbn [app]. f_equal.
    apply imap_ext. intros i x _. cbn. rewrite length_app. cbn.
    f_equal. lia.
Qed.

Lemma wrap64_idemp (z : Z) : wrap64 (wrap64 z) = wrap64 z.
Proof.
  unfold wrap64.
  replace ((z + 2 ^ 63) `mod` 2 ^ 64 - 2 ^ 63 + 2 ^ 63)
    with ((z + 2 ^ 63) `mod` 2 ^ 64) by lia.
  by rewrite Z.mod_mod by lia.
Qed.

Lemma toUnixNano_timeOf (timeUnixNano : Z) :
  time.toUnixNano (MetricsService.timeOf timeUnixNano) = wrap64 timeUnixNano.
Proof.
  unfold MetricsService.timeOf, time.Unix, time.toUnixNano.
  replace (0 * time.Second + wrap64 timeUnixNano) with (wrap64 timeUnixNano)
    by lia.
  apply wrap64_idemp.
Qed.

Lemma appends_insertSum (name : string) (timestamp : Z) (sum : option float)
    (labels serviceName : string) :
  (forall v, sum = Some v -> PrimFloat.is_nan v = false) ->
  appends (MetricsService.insertSum name timestamp sum labels serviceName)
    match sum with
    | Some sum =>
        if PrimFloat.eqb sum 0%float then []
        else [rowOf (Metric.mk timestamp (name +:+ "_sum") sum labels serviceName)]
    | None => []
    end.
Proof.
  intros Hnan.
  unfold MetricsService.insertSum. destruct sum as [sum|]; [|apply appends_skip].
  destruct (PrimFloat.eqb sum 0); [apply appends_skip|].
  apply appends_insertMetric. simpl. by apply Hnan.
Qed.

(** X17: the rows of a histogram.  Take an open database and a histogram in
    which no sum is a NaN and on whose attribute texts [json.Unmarshal] does
    not leave the map nil.  Then [processHistogramMetric] ends without error
    and appends, for every data point in turn: one row [name_count] with the
    count; one row [name_sum] with the sum, unless the sum is absent or equal
    to zero; and one row [name_bucket] for each of the first
    [len(ExplicitBounds)] bucket counts, with that count as its value.  A
    bucket count without a bound, as the last count of an OTLP histogram is,
    is not stored.  The counts are converted to float64 and kept as SQLite
    keeps a REAL.  All the rows of a data point carry its time, as an int64
    count of nanoseconds, and the service name. *)
Theorem histogram_buckets_stop_at_the_explicit_bounds :
  forall json_Marshal json_Unmarshal (name : string)
         (histogram : list metricspb.HistogramDataPoint.t)
         (serviceName : string) (db : DB.t),
    DB.closed db = false ->
    (forall dataPoint,
       dataPoint ∈ histogram ->
       json_Unmarshal
         (convertAttributes json_Marshal
            (metricspb.HistogramDataPoint.Attributes dataPoint))
       <> Ok None
       /\ forall sum,
            metricspb.HistogramDataPoint.Sum dataPoint = Some sum ->
            PrimFloat.is_nan sum = false) ->
    exists rows,
      MetricsService.processHistogramMetric json_Marshal json_Unmarshal
        name histogram serviceName db
      = (DB.mk (DB.metrics db ++ rows) (DB.traces db) false, None)
      /\ (fun row => (MetricRow.metric_name row, MetricRow.value row,
                      MetricRow.timestamp row, MetricRow.service_name row))
           <$> rows
         = (dataPoint ← histogram;
            let stamp :=
              wrap64 (metricspb.HistogramDataPoint.TimeUnixNano dataPoint) in
            (name +:+ "_count",
             sqliteReal
               (float64_of_Z (metricspb.HistogramDataPoint.Count dataPoint)),
             stamp, serviceName)
            :: match metricspb.HistogramDataPoint.Sum dataPoint with
               | Some sum =>
                   if PrimFloat.eqb sum 0%float then []
                   else [(name +:+ "_sum", sum, stamp, serviceName)]
               | None => []
               end
            ++ ((fun bucketCount =>
                   (name +:+ "_bucket", sqliteReal (float64_of_Z bucketCount),
                    stamp, serviceName))
                  <$> take (length (metricspb.HistogramDataPoint.ExplicitBounds
                                      dataPoint))
                           (metricspb.HistogramDataPoint.BucketCounts dataPoint))).
Proof.
  intros json_Marshal json_Unmarshal name histogram serviceName db Hopen Hpoints.
  set (labelOf := fun (attributes : string) (bound : float) =>
         match MetricsService.addBucketLabel json_Marshal json_Unmarshal
                 attributes bound with
         | Ok labels => labels
         | Err _ => EmptyString
         end).
  set (bucketRow := fun (dataPoint : metricspb.HistogramDataPoint.t)
                        (bucketCount : Z) (bound : float) =>
         rowOf (Metric.mk
                  (MetricsService.timeOf
                     (metricspb.HistogramDataPoint.TimeUnixNano dataPoint))
                  (name +:+ "_bucket") (float64_of_Z bucketCount)
                  (labelOf (convertAttributes json_Marshal
                              (metricspb.HistogramDataPoint.Attributes dataPoint))
                           bound)
                  serviceName)).
  set (g := fun dataPoint : metricspb.HistogramDataPoint.t =>
         let timestamp :=
           MetricsService.timeOf
             (metricspb.HistogramDataPoint.TimeUnixNano dataPoint) in
         let labels :=
           convertAttributes json_Marshal
             (metricspb.HistogramDataPoint.Attributes dataPoint) in
         [rowOf (Metric.mk timestamp (name +:+ "_count")
                   (float64_of_Z (metricspb.HistogramDataPoint.Count dataPoint))
                   labels serviceName)]
         ++ (match metricspb.HistogramDataPoint.Sum dataPoint with
             | Some sum =>
                 if PrimFloat.eqb sum 0%float then []
                 else [rowOf (Metric.mk timestamp (name +:+ "_sum") sum labels
                                serviceName)]
             | None => []
             end
             ++ (imap (fun (i : nat) (bucketCount : Z) => (i, bucketCount))
                      (metricspb.HistogramDataPoint.BucketCounts dataPoint)
                 ≫= fun '(i, bucketCount) =>
                      match metricspb.HistogramDataPoint.ExplicitBounds dataPoint
                            !! i with
                      | Some bound => [bucketRow dataPoint bucketCount bound]
                      | None => []
                      end))).
  exists (histogram ≫= g). split.
  - apply (appends_forEach _ g); [|exact Hopen]. intros dataPoint Hin.
    destruct (Hpoints dataPoint Hin) as [Hmap Hsum].
    apply appends_andThen;
      [apply appends_insertMetric, float64_of_Z_not_nan|].
    apply appends_andThen; [by apply appends_insertSum|].
    apply (appends_forEach _
             (fun '(i, bucketCount) =>
                match metricspb.HistogramDataPoint.ExplicitBounds dataPoint !! i with
                | Some bound => [bucketRow dataPoint bucketCount bound]
                | None => []
                end)).
    intros [i bucketCount] _.
    destruct (metricspb.HistogramDataPoint.ExplicitBounds dataPoint !! i)
      as [bound|]; [|apply appends_skip].
    unfold bucketRow, labelOf, MetricsService.addBucketLabel,
      MetricsService.addLabel.
    destruct (json_Unmarshal _) as [[attrs|]|e]; [|done|];
      destruct (json_Marshal _); simpl;
      apply appends_insertMetric, float64_of_Z_not_nan.
  - rewrite fmap_bind. apply list_bind_ext; [|reflexivity]. intros dataPoint.
    unfold g. cbn zeta. rewrite !fmap_app, fmap_bind.
    cbn [fmap list_fmap rowOf MetricRow.metric_name MetricRow.value
         MetricRow.timestamp MetricRow.service_name Metric.Timestamp
         Metric.MetricName Metric.Value Metric.ServiceName app].
    rewrite toUnixNano_timeOf. f_equal. f_equal.
    + destruct (metricspb.HistogramDataPoint.Sum dataPoint) as [sum|];
        [|reflexivity].
      destruct (PrimFloat.eqb sum 0) eqn:Hzero; [reflexivity|].
      cbn. unfold sqliteReal. by rewrite Hzero, toUnixNano_timeOf.
    + rewrite <- fst_zip_take, <- list_fmap_compose.
      rewrite <- (bucket_loop
                    (fun (c : Z) (_ : float) =>
                       (name +:+ "_bucket", sqliteReal (float64_of_Z c),
                        wrap64 (metricspb.HistogramDataPoint.TimeUnixNano
                                  dataPoint),
                        serviceName))
                    _ [] _).
      apply list_bind_ext; [|reflexivity]. intros [i bucketCount].
      cbn [app].
      destruct (metricspb.HistogramDataPoint.ExplicitBounds dataPoint !! i);
        [|reflexivity].
      unfold bucketRow. cbn. by rewrite toUnixNano_timeOf.
Qed.

Lemma histogram_buckets_witness :
  exists rows,
    MetricsService.processHistogramMetric
      (fun _ => Ok "{}")
      (fun text => if decide (text = "null") then Ok None else Ok (Some ∅)) "h"
      [metricspb.HistogramDataPoint.mk [] 5 6 (Some 0%float) [1; 2; 3]
         [0.5%float; 1%float]]
      "api" DB.empty
    = (DB.mk rows [] false, None)
    /\ (fun row => (MetricRow.metric_name row, MetricRow.timestamp row)) <$> rows
       = [("h_count", 5); ("h_bucket", 5); ("h_bucket", 5)].
Proof.
  destruct (histogram_buckets_stop_at_the_explicit_bounds
              (fun _ => Ok "{}")
              (fun text => if decide (text = "null") then Ok None
                           else Ok (Some ∅))
              "h"
              [metricspb.HistogramDataPoint.mk [] 5 6 (Some 0%float) [1; 2; 3]
                 [0.5%float; 1%float]]
              "api" DB.empty eq_refl)
    as (rows & Hrun & Hrows).
  - intros dataPoint Hin. apply list_elem_of_singleton in Hin as ->.
    split; [discriminate|]. intros sum [= <-]. reflexivity.
  - exists rows. split; [exact Hrun|].
    apply (f_equal (fmap (fun t : string * float * Z * string =>
                            (t.1.1.1, t.1.2)))) in Hrows.
    rewrite <- list_fmap_compose in Hrows. exact Hrows.
Defined.

(** ** The RPC adapter on a closed database *)

Lemma blocked_insertMetric (metric : Metric.t) (db : DB.t) :
  DB.closed db = true -> insertMetric metric db = (db, Some errClosed).
Proof.
  intros Hclosed. unfold insertMetric, InsertMetric. by rewrite Hclosed.
Qed.

Lemma inert_processMetric json_Marshal json_Unmarshal
    (metric : metricspb.Metric.t) (serviceName : string) :
  inert (MetricsService.processMetric json_Marshal json_Unmarshal metric
           serviceName).
Proof.
  unfold MetricsService.processMetric.
  destruct (metricspb.Metric.Data metric); [..|apply inert_skip];
    apply inert_forEach; intros dataPoint;
    first [apply inert_insertMetric
          |apply inert_andThen_blocked; intros db;
           apply blocked_insertMetric].
Qed.

(** X18: the RPC adapter for metrics on a closed database.  Every insert
    fails and the error is only written to the log: [Export] leaves the
    database as it was and answers as for a request it has stored in full,
    with no error, zero rejected data points and an empty error message,
    whatever the request holds.  Only a nil request is answered with an
    error. *)
Theorem metrics_export_reports_success_on_a_closed_database :
  forall json_Marshal json_Unmarshal (db : DB.t),
    DB.closed db = true ->
    (forall resourceMetrics,
       MetricsService.Export json_Marshal json_Unmarshal (Some resourceMetrics) db
       = (db, Ok (metricspb.ExportMetricsPartialSuccess.mk 0 "")))
    /\ exists e,
         MetricsService.Export json_Marshal json_Unmarshal None db = (db, Err e).
Proof.
  intros json_Marshal json_Unmarshal db Hclosed. split; [|simpl; eauto].
  intros resourceMetrics. unfold MetricsService.Export.
  rewrite forEach_noop; [reflexivity|]. intros resourceMetric.
  unfold logged, MetricsService.processResourceMetric.
  rewrite forEach_noop; [reflexivity|]. intros scopeMetric.
  rewrite forEach_noop; [reflexivity|]. intros metric.
  apply inert_logged; [apply inert_processMetric|exact Hclosed].
Qed.

Lemma metrics_export_closed_witness :
  MetricsService.Export (fun _ => Ok "{}") (fun _ => Ok (Some ∅))
    (Some [metricspb.ResourceMetrics.mk None
             [metricspb.ScopeMetrics.mk
                [metricspb.Metric.mk "up"
                   (metricspb.Gauge
                      [metricspb.NumberDataPoint.mk [] 5 (metricspb.AsInt 1)])]]])
    (DB.mk [] [] true)
  = (DB.mk [] [] true, Ok (metricspb.ExportMetricsPartialSuccess.mk 0 "")).
Proof.
  apply (metrics_export_reports_success_on_a_closed_database
           (fun _ => Ok "{}") (fun _ => Ok (Some ∅)) (DB.mk [] [] true)).
  reflexivity.
Defined.

(** ** The JSON adapter for metrics *)

Lemma filter_app_none {A} (f : A -> bool) (l k : list A) :
  (forall x, x ∈ k -> f x = false) ->
  List.filter f (l ++ k) = List.filter f l.
Proof.
  intros Hk. rewrite List.filter_app.
  assert (Hnil : List.filter f k = []).
  { induction k as [|x k IH]; [reflexivity|]. simpl.
    rewrite (Hk x) by apply list_elem_of_here.
    apply IH. intros y Hy. by apply Hk, list_elem_of_further. }
  by rewrite Hnil, app_nil_r.
Qed.

Lemma bind_ext_elem {A B} (f g : A -> list B) (l : list A) :
  (forall x, x ∈ l -> f x = g x) -> l ≫= f = l ≫= g.
Proof.
  induction l as [|x l IH]; intros Hfg; [reflexivity|].
  rewrite !bind_cons, (Hfg x) by apply list_elem_of_here. f_equal.
  apply IH. intros y Hy. by apply Hfg, list_elem_of_further.
Qed.

Lemma fmap_ext_elem {A B} (f g : A -> B) (l : list A) :
  (forall x, x ∈ l -> f x = g x) -> f <$> l = g <$> l.
Proof.
  induction l as [|x l IH]; intros Hfg; [reflexivity|].
  rewrite !fmap_cons, (Hfg x) by apply list_elem_of_here. f_equal.
  apply IH. intros y Hy. by apply Hfg, list_elem_of_further.
Qed.

Lemma asMeant_fewer_rows JSON_EXTRACT (rows more : list MetricRow.t)
    (traces traces' : list TraceRow.t) (closed closed' : bool) (query : Query.t) :
  asMeant JSON_EXTRACT (DB.mk (rows ++ more) traces closed) query = true ->
  asMeant JSON_EXTRACT (DB.mk rows traces' closed') query = true.
Proof.
  unfold asMeant. simpl. rewrite !forallb_forall. intros H kv Hkv.
  specialize (H kv Hkv). rewrite forallb_app in H.
  apply andb_true_iff in H as [Hname [Hrows _]%andb_true_iff].
  by rewrite Hname, Hrows.
Qed.

(** X19: metrics that arrive as OTLP JSON.  The JSON form writes the time of
    a data point as a string of decimal digits.  On an open database
    [HandleMetrics] appends one row per data point of a request whose times
    are written so, gauge points before sum points within a metric; a point
    whose value is a NaN, which the insert refuses, leaves no row.  The rows
    carry the metric name and the value as SQLite keeps it, and every one of
    them is stamped -6795364578871345152, the int64 nanosecond count of the
    zero time: the time of the wire is lost.  No query window that starts at
    or after the epoch reaches such a row: for a query whose statement reads
    as it is meant, [getMetricSeries] returns after the request what it
    returned before. *)
Theorem http_metrics_lose_their_times :
  forall json_Marshal parseRFC3339Rest
         (req : list otlpjson_metrics.ResourceMetrics) (db : DB.t),
    DB.closed db = false ->
    (forall resourceMetric scopeMetric metric dataPoint,
       resourceMetric ∈ req ->
       scopeMetric ∈ otlpjson_metrics.ScopeMetricsList resourceMetric ->
       metric ∈ otlpjson_metrics.Metrics scopeMetric ->
       dataPoint ∈ otlpjson_metrics.GaugeDataPoints metric
                   ++ otlpjson_metrics.SumDataPoints metric ->
       Forall (fun c => isDigit c = true)
              (String.list_ascii_of_string
                 (otlpjson_metrics.TimeUnixNano dataPoint))) ->
    exists rows,
      HandleMetrics json_Marshal parseRFC3339Rest req db
      = (DB.mk (DB.metrics db ++ rows) (DB.traces db) false, None)
      /\ (fun row => (MetricRow.metric_name row, MetricRow.value row,
                      MetricRow.timestamp row))
           <$> rows
         = (resourceMetric ← req;
            scopeMetric ← otlpjson_metrics.ScopeMetricsList resourceMetric;
            metric ← otlpjson_metrics.Metrics scopeMetric;
            (fun dataPoint =>
               (otlpjson_metrics.Name metric,
                sqliteReal (otlpjson_metrics.AsDouble dataPoint),
                -6795364578871345152))
              <$> filter
                    (fun dataPoint =>
                       PrimFloat.is_nan (otlpjson_metrics.AsDouble dataPoint)
                       = false)
                    (otlpjson_metrics.GaugeDataPoints metric
                     ++ otlpjson_metrics.SumDataPoints metric))
      /\ forall JSON_EXTRACT otherStatement query startTime endTime,
           asMeant JSON_EXTRACT
             (HandleMetrics json_Marshal parseRFC3339Rest req db).1 query
           = true ->
           0 <= startTime ->
           getMetricSeries JSON_EXTRACT otherStatement
             (HandleMetrics json_Marshal parseRFC3339Rest req db).1
             query startTime endTime
           = getMetricSeries JSON_EXTRACT otherStatement db query
               startTime endTime.
Proof.
  intros json_Marshal parseRFC3339Rest req db Hopen Hdigits.
  set (stored := fun (dataPoints : list otlpjson_metrics.DataPoint) =>
         filter (fun dataPoint =>
                   PrimFloat.is_nan (otlpjson_metrics.AsDouble dataPoint) = false)
                dataPoints).
  set (g := fun resourceMetric : otlpjson_metrics.ResourceMetrics =>
         scopeMetric ← otlpjson_metrics.ScopeMetricsList resourceMetric;
         metric ← otlpjson_metrics.Metrics scopeMetric;
         (fun dataPoint =>
            rowOf (httpMetric json_Marshal parseRFC3339Rest
                     (extractServiceNameFromResource
                        (otlpjson_metrics.MetricsResource resourceMetric))
                     (otlpjson_metrics.Name metric) dataPoint))
           <$> stored (otlpjson_metrics.GaugeDataPoints metric
                       ++ otlpjson_metrics.SumDataPoints metric)).
  assert (Hone : forall serviceName name (dataPoints : list otlpjson_metrics.DataPoint),
            appends
              (forEach
                 (fun dataPoint =>
                    logged (insertMetric
                              (httpMetric json_Marshal parseRFC3339Rest
                                 serviceName name dataPoint)))
                 dataPoints)
              ((fun dataPoint =>
                  rowOf (httpMetric json_Marshal parseRFC3339Rest
                           serviceName name dataPoint))
                 <$> stored dataPoints)).
  { intros serviceName name dataPoints.
    eapply appends_ext;
      [|apply (appends_forEach _
                 (fun dataPoint =>
                    if PrimFloat.is_nan (otlpjson_metrics.AsDouble dataPoint)
                    then []
                    else [rowOf (httpMetric json_Marshal parseRFC3339Rest
                                   serviceName name dataPoint)]))].
    - unfold stored.
      induction dataPoints as [|dataPoint dataPoints IH]; [reflexivity|].
      rewrite bind_cons, filter_cons, IH.
      destruct (PrimFloat.is_nan (otlpjson_metrics.AsDouble dataPoint)) eqn:Hnan.
      + by rewrite decide_False by done.
      + by rewrite decide_True by done.
    - intros dataPoint _. apply (appends_logged_insertMetric
                                   (httpMetric json_Marshal parseRFC3339Rest
                                      serviceName name dataPoint)). }
  assert (Hrun : appends (HandleMetrics json_Marshal parseRFC3339Rest req)
                         (req ≫= g)).
  { apply appends_forEach. intros resourceMetric _.
    apply appends_forEach. intros scopeMetric _.
    apply appends_forEach. intros metric _.
    unfold stored. rewrite filter_app, fmap_app.
    apply appends_andThen; apply Hone. }
  assert (Hin_stored : forall dataPoint dataPoints,
            dataPoint ∈ stored dataPoints -> dataPoint ∈ dataPoints).
  { intros dataPoint dataPoints Hin. unfold stored in Hin.
    by apply list_elem_of_filter in Hin as [_ Hin]. }
  assert (Hstamp : forall row, row ∈ req ≫= g ->
            MetricRow.timestamp row = -6795364578871345152).
  { intros row Hin.
    apply list_elem_of_bind in Hin as (resourceMetric & Hin & Hrm).
    apply list_elem_of_bind in Hin as (scopeMetric & Hin & Hsm).
    apply list_elem_of_bind in Hin as (metric & Hin & Hm).
    apply list_elem_of_fmap in Hin as (dataPoint & -> & Hdp%Hin_stored).
    unfold rowOf, httpMetric. cbn.
    rewrite parseOrZero_decimal by eauto. reflexivity. }
  exists (req ≫= g). split; [by apply Hrun|]. split.
  - rewrite fmap_bind. apply bind_ext_elem. intros resourceMetric Hrm.
    unfold g. rewrite fmap_bind. apply bind_ext_elem.
    intros scopeMetric Hsm.
    rewrite fmap_bind. apply bind_ext_elem. intros metric Hm.
    rewrite <- list_fmap_compose. apply fmap_ext_elem.
    intros dataPoint Hdp%Hin_stored. cbn.
    rewrite parseOrZero_decimal by eauto. reflexivity.
  - intros JSON_EXTRACT otherStatement query startTime endTime Hmeant Hstart.
    rewrite (Hrun db Hopen) in Hmeant |- *. cbn [fst] in Hmeant |- *.
    rewrite getMetricSeries_as_meant by done.
    rewrite getMetricSeries_as_meant;
      [|exact Hopen
       |destruct db as [ms ts c]; by eapply asMeant_fewer_rows].
    cbn [DB.metrics].
    rewrite filter_app_none; [reflexivity|].
    intros row Hin. unfold whereClause. rewrite (Hstamp row Hin).
    assert (Hlate : (time.toUnix startTime <=? -6795364578871345152) = false).
    { apply Z.leb_gt. unfold time.toUnix, time.Second.
      assert (0 <= startTime `div` 1000000000) by (apply Z.div_pos; lia). lia. }
    by rewrite Hlate, andb_false_r.
Qed.

Lemma http_metrics_witness :
  exists rows,
    HandleMetrics (fun _ => Ok "{}") (fun _ => Err (LibError "parsing time"))
      [otlpjson_metrics.mkResourceMetrics (otlpjson.mkResource [])
         [otlpjson_metrics.mkScopeMetrics
            [otlpjson_metrics.mkMetric "up"
               [otlpjson_metrics.mkDataPoint "1700000000000000000" 1%float []]
               []]]]
      DB.empty
    = (DB.mk rows [] false, None)
    /\ (fun row => (MetricRow.metric_name row, MetricRow.timestamp row)) <$> rows
       = [("up", -6795364578871345152)].
Proof.
  destruct (http_metrics_lose_their_times
              (fun _ => Ok "{}") (fun _ => Err (LibError "parsing time"))
              [otlpjson_metrics.mkResourceMetrics (otlpjson.mkResource [])
                 [otlpjson_metrics.mkScopeMetrics
                    [otlpjson_metrics.mkMetric "up"
                       [otlpjson_metrics.mkDataPoint "1700000000000000000"
                          1%float []]
                       []]]]
              DB.empty eq_refl)
    as (rows & Hrun & Hrows & _).
  - intros resourceMetric scopeMetric metric dataPoint Hrm Hsm Hm Hdp.
    apply list_elem_of_singleton in Hrm as ->.
    apply list_elem_of_singleton in Hsm as ->.
    apply list_elem_of_singleton in Hm as ->.
    apply list_elem_of_singleton in Hdp as ->.
    repeat constructor.
  - exists rows. split; [exact Hrun|].
    apply (f_equal (fmap (fun t : string * float * Z => (t.1.1, t.2)))) in Hrows.
    rewrite <- list_fmap_compose in Hrows. exact Hrows.
Defined.

(* ===================================================================== *)
(** * Opening and reading the storage; the configuration *)
(* ===================================================================== *)

Lemma get_app_at (a b : string) (c : ascii) :
  String.get (String.length a) (a +:+ String c b) = Some c.
Proof.
  induction a as [|x a IH]; [done|].
  change (String x a +:+ String c b) with (String x (a +:+ String c b)).
  simpl. apply IH.
Qed.

Lemma get_app_after (a b : string) (c : ascii) (k : nat) :
  String.get (S (String.length a) + k) (a +:+ String c b) = String.get k b.
Proof.
  induction a as [|x a IH]; [done|].
  change (String x a +:+ String c b) with (String x (a +:+ String c b)).
  simpl. apply IH.
Qed.

Lemma get_elem_of (s : string) (k : nat) (c : ascii) :
  String.get k s = Some c -> c ∈ String.list_ascii_of_string s.
Proof.
  revert k. induction s as [|x s IH]; intros [|k] H; simpl in *; try done.
  - injection H as ->. apply list_elem_of_here.
  - apply list_elem_of_further. by eapply IH.
Qed.

Lemma createDataDir_loop_no_slash (path : string) (n : nat) :
  "/"%char ∉ String.list_ascii_of_string path ->
  createDataDir_loop path n = EmptyString.
Proof.
  intros Hnin. induction n as [|i IH]; simpl; [done|].
  rewrite decide_False; [done|]. intros Hget. by apply Hnin, (get_elem_of _ i).
Qed.

Lemma createDataDir_loop_last_slash (dir base : string) (k : nat) :
  "/"%char ∉ String.list_ascii_of_string base ->
  createDataDir_loop (dir +:+ String "/" base) (S (String.length dir) + k) = dir.
Proof.
  intros Hnin. induction k as [|k IH].
  - rewrite Nat.add_0_r. simpl. rewrite get_app_at.
    rewrite decide_True by done. apply substring_app_l.
  - rewrite Nat.add_succ_r. simpl.
    change (S (String.length dir + k)) with (S (String.length dir) + k)%nat.
    rewrite get_app_after.
    rewrite decide_False; [exact IH|].
    intros Hget. by apply Hnin, (get_elem_of _ k).
Qed.

(** X20: the data directory.  [createDataDir] takes as the directory
    everything before the last "/" of the path, and hands it to
    [os.MkdirAll] unless it is empty: for a path without "/" and for a path
    whose only "/" comes first nothing is created and no error is
    returned. *)
Theorem createDataDir_makes_what_precedes_the_last_slash :
  forall os_MkdirAll (dir base : string),
    "/"%char ∉ String.list_ascii_of_string base ->
    createDataDir os_MkdirAll (dir +:+ "/" +:+ base)
    = (if decide (dir = EmptyString) then None else os_MkdirAll dir)
    /\ createDataDir os_MkdirAll base = None.
Proof.
  intros os_MkdirAll dir base Hnin. unfold createDataDir. split.
  - change (dir +:+ "/" +:+ base) with (dir +:+ String "/" base).
    replace (String.length (dir +:+ String "/" base))
      with (S (String.length dir) + String.length base)%nat
      by (rewrite string_length_app; simpl; lia).
    by rewrite createDataDir_loop_last_slash.
  - by rewrite createDataDir_loop_no_slash.
Qed.

Lemma createDataDir_witness :
  createDataDir (fun dir => Some (LibError dir)) "./data/telemorph.db"
  = Some (LibError "./data").
Proof.
  apply (createDataDir_makes_what_precedes_the_last_slash
           (fun dir => Some (LibError dir)) "./data" "telemorph.db").
  intros Hin.
  repeat (apply elem_of_cons in Hin as [Hin|Hin]; [discriminate|]).
  by apply elem_of_nil in Hin.
Defined.

Lemma StronglySorted_reverse {A} (R : relation A) (l : list A) :
  StronglySorted R l -> StronglySorted (flip R) (reverse l).
Proof.
  induction 1 as [|x l Hl IH Hall]; [constructor|].
  rewrite reverse_cons. apply StronglySorted_app_2; [|exact IH|repeat constructor].
  intros y z Hy Hz%list_elem_of_singleton. subst z. unfold flip.
  apply elem_of_reverse_2 in Hy. rewrite reverse_involutive in Hy.
  rewrite Forall_forall in Hall. by apply Hall.
Qed.

Lemma scanned_rows_sorted (rows : list MetricRow.t) :
  StronglySorted (flip timestamp_le) rows ->
  StronglySorted (fun m1 m2 => Metric.Timestamp m2 <= Metric.Timestamp m1)
    ((fun row =>
        Metric.mk (time.Unix 0 (MetricRow.timestamp row))
          (MetricRow.metric_name row) (MetricRow.value row)
          (MetricRow.labels row) (MetricRow.service_name row))
       <$> rows).
Proof.
  induction 1 as [|row l Hl IH Hall]; [constructor|].
  rewrite fmap_cons. constructor; [exact IH|].
  apply Forall_fmap. eapply Forall_impl; [exact Hall|].
  intros row' Hge. unfold flip, timestamp_le in Hge. simpl.
  unfold time.Unix. lia.
Qed.

(** X21: what is inserted is read back.  [InsertMetric] refuses a metric
    whose value is a NaN.  After it has stored a metric whose time lies
    within the int64 range of nanoseconds, [GetMetrics] without limit and
    offset returns that metric, its value as SQLite keeps it (a negative
    zero comes back as zero, every other value as it was), among as many
    metrics as the table has rows, latest first; with the limit 0 it returns
    none. *)
Theorem inserted_metric_is_read_back :
  forall (db db' : DB.t) (metric : Metric.t),
    InsertMetric db metric = Ok db' ->
    minInt64 <= Metric.Timestamp metric <= maxInt64 ->
    PrimFloat.is_nan (Metric.Value metric) = false
    /\ (exists metrics,
          GetMetrics db' (-1) 0 = Ok metrics
          /\ Metric.mk (Metric.Timestamp metric) (Metric.MetricName metric)
               (sqliteReal (Metric.Value metric)) (Metric.Labels metric)
               (Metric.ServiceName metric)
             ∈ metrics
          /\ length metrics = S (length (DB.metrics db))
          /\ StronglySorted
               (fun m1 m2 => Metric.Timestamp m2 <= Metric.Timestamp m1)
               metrics)
    /\ forall offset, GetMetrics db' 0 offset = Ok [].
Proof.
  intros db db' metric Hins Hrange. unfold InsertMetric in Hins.
  destruct (DB.closed db) eqn:Hopen; [done|].
  destruct (PrimFloat.is_nan (Metric.Value metric)) eqn:Hnan; [done|].
  injection Hins as <-. split; [reflexivity|].
  unfold GetMetrics. cbn [DB.closed DB.metrics].
  set (rows := DB.metrics db ++ _).
  assert (Hperm : reverse (orderByTimestamp rows) ≡ₚ rows)
    by (by rewrite reverse_Permutation, orderByTimestamp_Permutation).
  split.
  - eexists. split; [reflexivity|]. unfold limitOffset.
    change (-1 <? 0) with true. change (Z.to_nat 0) with 0%nat.
    cbn beta iota zeta. rewrite drop_0. split; [|split].
    + apply list_elem_of_fmap. eexists. split; [|rewrite Hperm; unfold rows;
        apply elem_of_app; right; apply list_elem_of_here].
      destruct metric as [ts name value labels service]. simpl in *.
      unfold time.Unix, time.toUnixNano. rewrite wrap64_id by done.
      reflexivity.
    + rewrite length_fmap, Hperm. unfold rows. rewrite length_app. simpl. lia.
    + apply scanned_rows_sorted, StronglySorted_reverse,
        orderByTimestamp_sorted.
  - intros offset. reflexivity.
Qed.

Lemma inserted_metric_is_read_back_witness :
  exists metrics,
    GetMetrics (DB.mk [MetricRow.mk 1700000000000000000 "up" 0%float "{}" "api"]
                  [] false) (-1) 0
    = Ok metrics
    /\ Metric.mk 1700000000000000000 "up" 0%float "{}" "api" ∈ metrics.
Proof.
  destruct (inserted_metric_is_read_back DB.empty
              (DB.mk [MetricRow.mk 1700000000000000000 "up" 0%float "{}" "api"]
                 [] false)
              (Metric.mk 1700000000000000000 "up" (-0)%float "{}" "api"))
    as (_ & (metrics & Hget & Hin & _) & _).
  - reflexivity.
  - unfold minInt64, maxInt64. simpl. lia.
  - exists metrics. split; [exact Hget|exact Hin].
Defined.

(** X22: the defaults of the configuration.  [setDefaults] is idempotent and
    leaves [DefaultConfig] as it is.  After it no port, timeout, retention,
    connection count or batch size is 0, no name it fills is empty, and at
    least one of the two ingestion protocols is enabled: a configuration
    cannot switch both off, nor set a value to zero.  It never touches
    [Web.Enabled]: from the configuration whose fields all have their zero
    value it gives [DefaultConfig] with the web interface disabled. *)
Theorem setDefaults_fills_the_gaps :
  forall c : config.Config.t,
    let d := config.setDefaults c in
    config.setDefaults d = d
    /\ config.ServerConfig.Port (config.Config.Server d) <> 0
    /\ config.ServerConfig.Environment (config.Config.Server d) <> EmptyString
    /\ config.StorageConfig.Type_ (config.Config.Storage d) <> EmptyString
    /\ config.WebConfig.Title (config.Config.Web d) <> EmptyString
    /\ config.WebConfig.Theme (config.Config.Web d) <> EmptyString
    /\ config.LoggingConfig.Level (config.Config.Logging d) <> EmptyString
    /\ config.LoggingConfig.Format (config.Config.Logging d) <> EmptyString
    /\ config.ServerConfig.ReadTimeout (config.Config.Server d) <> 0
    /\ config.ServerConfig.WriteTimeout (config.Config.Server d) <> 0
    /\ config.StorageConfig.Path (config.Config.Storage d) <> EmptyString
    /\ config.StorageConfig.RetentionDays (config.Config.Storage d) <> 0
    /\ config.StorageConfig.MaxConnections (config.Config.Storage d) <> 0
    /\ config.IngestionConfig.GRPCPort (config.Config.Ingestion d) <> 0
    /\ config.IngestionConfig.HTTPPort (config.Config.Ingestion d) <> 0
    /\ config.IngestionConfig.BatchSize (config.Config.Ingestion d) <> 0
    /\ config.IngestionConfig.FlushInterval (config.Config.Ingestion d) <> 0
    /\ (config.IngestionConfig.GRPCEnabled (config.Config.Ingestion d)
        || config.IngestionConfig.HTTPEnabled (config.Config.Ingestion d)) = true
    /\ config.WebConfig.Enabled (config.Config.Web d)
       = config.WebConfig.Enabled (config.Config.Web c)
    /\ config.setDefaults config.DefaultConfig = config.DefaultConfig
    /\ config.setDefaults
         (config.Config.mk
            (config.ServerConfig.mk 0 "" 0 0)
            (config.StorageConfig.mk "" "" 0 0)
            (config.IngestionConfig.mk 0 0 false false 0 0)
            (config.WebConfig.mk false "" "" false)
            (config.LoggingConfig.mk "" "" ""))
       = config.Config.mk
           (config.Config.Server config.DefaultConfig)
           (config.Config.Storage config.DefaultConfig)
           (config.Config.Ingestion config.DefaultConfig)
           (config.WebConfig.mk false "Open-Telemorph-Prime" "light" false)
           (config.Config.Logging config.DefaultConfig).
Proof.
  intros [[port env rt wt] [ty path days conns]
          [gport hport genabled henabled batch flush]
          [enabled title theme dogfood] [level format file]].
  cbn zeta. unfold config.setDefaults. cbn.
  split.
  { f_equal; f_equal;
      repeat case_decide; try done;
      destruct genabled, henabled; done. }
  repeat split; try (case_decide; done); try reflexivity.
  destruct genabled, henabled; done.
Qed.
